(** * statsite: the connection handler (src/conn_handler.c)

    A shallow embedding of the ingress pipeline of statsite: the text and
    binary parsers, the connection driver, the flush controller and the
    binary record writer, with the properties of the specification that
    concern them.

    Conventions of the embedding.
    - A byte is an [ascii]; a buffer designated in C by a pointer and a
      length is the list of its bytes.  Reading one byte past the end of a
      command buffer reads the NUL that the networking layer stores in place
      of the line terminator, so [hd NUL] and the end of a list stand for
      that NUL.
    - A [double] is a binary64 float of the kernel ([PrimFloat.float]); as a
      field of a packed struct or of a wire record it is its 64-bit object
      representation, a [Z] below [2^64].
    - The metrics module (metrics.c) and the networking module
      (networking.c) are not part of this file's source; the handlers are
      embedded as functions that return the sequence of calls they make to
      the metrics module, and the calls are interpreted afterwards on the
      current registry. *)

From Stdlib Require Import ZArith NArith List Ascii String Bool Lia.
From Stdlib Require Import PrimFloat FloatOps SpecFloat Uint63.
From stdpp Require Import base option list gmap strings.

#[local] Open Scope Z_scope.
#[local] Open Scope list_scope.

(** ** Bytes and C strings *)

Definition NUL : ascii := "000"%char.
Definition LF : ascii := "010"%char.

Definition ascii_eqb (a b : ascii) : bool := Ascii.eqb a b.

(** The bytes of a literal, for readable examples. *)
Definition bytes (s : string) : list ascii := list_ascii_of_string s.

(** What a reader of a [char*] sees: the bytes up to the first NUL. *)
Fixpoint c_str (p : list ascii) : list ascii :=
  match p with
  | [] => []
  | c :: p' => if ascii_eqb c NUL then [] else c :: c_str p'
  end.

(** [strlen]. *)
Definition strlen (p : list ascii) : nat := length (c_str p).

(** [memchr(buf, c, buf_len)]: the offset of the first [c], if any. *)
Fixpoint memchr (buf : list ascii) (c : ascii) : option nat :=
  match buf with
  | [] => None
  | b :: buf' => if ascii_eqb b c then Some O
                 else match memchr buf' c with
                      | Some i => Some (S i)
                      | None => None
                      end
  end.

(** ** Metric types and the calls into the metrics module *)

Inductive metric_type : Set :=
| UNKNOWN | KEY_VAL | GAUGE | COUNTER | TIMER | SET | GAUGE_DELTA.

Definition metric_type_eqb (a b : metric_type) : bool :=
  match a, b with
  | UNKNOWN, UNKNOWN | KEY_VAL, KEY_VAL | GAUGE, GAUGE | COUNTER, COUNTER
  | TIMER, TIMER | SET, SET | GAUGE_DELTA, GAUGE_DELTA => true
  | _, _ => false
  end.

(** A call made on [GLOBAL_METRICS]. *)
Inductive metrics_call : Type :=
| metrics_add_sample (type : metric_type) (name : list ascii) (val : float)
| metrics_set_update (name : list ascii) (value : list ascii).

(** The part of [statsite_config] the handlers read. *)
Record statsite_config : Type := {
  input_counter : option (list ascii);
  binary_stream : bool
}.

(** [if (GLOBAL_CONFIG->input_counter) metrics_add_sample(GLOBAL_METRICS,
    COUNTER, GLOBAL_CONFIG->input_counter, 1);] *)
Definition count_input (cfg : statsite_config) : list metrics_call :=
  match input_counter cfg with
  | Some name => [metrics_add_sample COUNTER (c_str name) 1%float]
  | None => []
  end.

(** ** str2double *)

Definition is_digit (c : ascii) : bool :=
  (N.leb 48 (N_of_ascii c) && N.leb (N_of_ascii c) 57)%bool.

(** [( *s - '0')] converted to double. *)
Definition digit_val (c : ascii) : float :=
  PrimFloat.of_uint63 (Uint63.of_Z (Z.of_N (N_of_ascii c) - 48)).

(** [pow(10.0, digits)] of libm, by repeated multiplication.  Up to 22
    digits the power is a binary64 value, and both give it exactly; from 23
    digits on the power is rounded, and libm and the repeated multiplication
    may round it differently (for 23 digits the multiplication gives
    0x1.52d02c7e14af6p+76, the binary64 value nearest to the power): the
    value that [str2double] returns is that of the source for fractions of
    at most 22 digits. *)
Fixpoint pow10 (digits : nat) : float :=
  match digits with
  | O => 1%float
  | S d => (10 * pow10 d)%float
  end.

(** [for (; *s >= '0' && *s <= '9'; s++) val = (val * 10.0) + ( *s - '0');]
    returns the final [val], the number of bytes stepped over and the
    bytes at the final [s]. *)
Fixpoint scan_digits (s : list ascii) (val : float) (n : nat)
  : float * nat * list ascii :=
  match s with
  | c :: s' =>
      if is_digit c
      then scan_digits s' (val * 10 + digit_val c)%float (S n)
      else (val, n, s)
  | [] => (val, n, s)
  end.

(** [str2double(s, &end)]: the value and the offset [end - s]. *)
Definition str2double (s : list ascii) : float * nat :=
  let '(neg, s1, k0) :=
    match s with
    | c :: t => if ascii_eqb c "-" then (true, t, 1%nat) else (false, s, 0%nat)
    | [] => (false, s, 0%nat)
    end in
  let '(val, k1, s2) := scan_digits s1 0%float 0 in
  let '(val, k2) :=
    match s2 with
    | c :: s3 =>
        if ascii_eqb c "."
        then let '(frac, digits, _) := scan_digits s3 0%float 0 in
             ((val + frac / pow10 digits)%float, (k1 + 1 + digits)%nat)
        else (val, k1)
    | [] => (val, k1)
    end in
  let val := if neg : bool then (val * -1)%float else val in
  (val, (k0 + k2)%nat).

(** ** buffer_after_terminator *)

(** Scans [buf] (of [buf_len = length buf] bytes) for [terminator].  When
    it is found at offset [i], the byte is overwritten with NUL, so that the
    caller's [buf] now reads as the bytes before it, and [after_term],
    [after_len] designate the bytes after it: the result is the pair of
    these two byte runs.  [None] is the return value -1. *)
Definition buffer_after_terminator (buf : list ascii) (terminator : ascii)
  : option (list ascii * list ascii) :=
  match memchr buf terminator with
  | None => None
  | Some i => Some (firstn i buf, skipn (S i) buf)
  end.

(** ** The text parser *)

(** The [switch ( *type_str)] of the text handler, with the nested
    [switch ( *val_str)] of the gauge case: the metric type and the
    (possibly advanced) [val_str]; [None] is the [default:] branch. *)
Definition convert_type (type_chr : ascii) (val_str : list ascii)
  : option (metric_type * list ascii) :=
  if ascii_eqb type_chr "c" then Some (COUNTER, val_str)
  else if ascii_eqb type_chr "m" then Some (TIMER, val_str)
  else if ascii_eqb type_chr "k" then Some (KEY_VAL, val_str)
  else if ascii_eqb type_chr "g" then
    if ascii_eqb (hd NUL val_str) "+" then Some (GAUGE_DELTA, tl val_str)
    else if ascii_eqb (hd NUL val_str) "-" then Some (GAUGE_DELTA, val_str)
    else Some (GAUGE, val_str)
  else if ascii_eqb type_chr "s" then Some (SET, val_str)
  else None.

Inductive line_exit : Set := END_LOOP | ERR_RET.

(** [sample_rate > 0 && sample_rate <= 1] *)
Definition rate_applies (sample_rate : float) : bool :=
  (PrimFloat.ltb 0 sample_rate && PrimFloat.leb sample_rate 1)%bool.

(** Lines 400-411: the counter sampling step; [None] is [goto ERR_RET]. *)
Definition counter_sampling (type : metric_type) (type_str : list ascii)
  (val : float) : option float :=
  if metric_type_eqb type COUNTER then
    match buffer_after_terminator type_str "@" with
    | Some (_, sample_str) =>
        let '(sample_rate, consumed) := str2double sample_str in
        if Nat.eqb consumed 0 then None
        else if rate_applies sample_rate
             then Some (val * (1 / sample_rate))%float
             else Some val
    | None => Some val
    end
  else Some val.

(** The body of the [while (1)] of [handle_ascii_client_connect] on one
    command buffer [buf] (a line without its terminator): how the
    iteration leaves, and the calls made on the metrics module. *)
Definition handle_ascii_line (cfg : statsite_config) (buf : list ascii)
  : line_exit * list metrics_call :=
  match buffer_after_terminator buf ":" with
  | None => (ERR_RET, [])
  | Some (key, after_colon) =>
    match buffer_after_terminator after_colon "|" with
    | None => (ERR_RET, [])
    | Some (val_str, type_str) =>
      match convert_type (hd NUL type_str) val_str with
      | None => (ERR_RET, [])
      | Some (type, val_str) =>
        let counted := count_input cfg in
        if metric_type_eqb type SET
        then (END_LOOP, counted ++ [metrics_set_update (c_str key) (c_str val_str)])
        else
          let '(val, consumed) := str2double val_str in
          if Nat.eqb consumed 0 then (ERR_RET, counted)
          else
            match counter_sampling type type_str val with
            | None => (ERR_RET, counted)
            | Some val =>
                (END_LOOP, counted ++ [metrics_add_sample type (c_str key) val])
            end
      end
    end
  end.

(** ** The byte-stream reader of a connection

    The networking module (networking.c) is not among the sources; its
    reader primitives are modelled as the specification describes them.  A
    connection is the list of the buffered bytes not yet consumed. *)

Definition conn_info : Type := list ascii.

(** Modelled from the spec: [peek_client_byte] of networking.c;
    "[peek_byte()] returns the next byte without consuming".  [None] is the
    return value -1 (no data). *)
Definition peek_client_byte (conn : conn_info) : option ascii :=
  match conn with
  | [] => None
  | b :: _ => Some b
  end.

(** Modelled from the spec: [peek_client_bytes] of networking.c; the first
    [n] buffered bytes, not consumed, or "need more data" ([None]) when
    fewer are buffered. *)
Definition peek_client_bytes (conn : conn_info) (n : nat) : option (list ascii) :=
  if Nat.leb n (length conn) then Some (firstn n conn) else None.

(** Modelled from the spec: [read_client_bytes] of networking.c; "if the
    stream has fewer than the required bytes it returns need more data
    without consuming", and otherwise the first [n] bytes are consumed. *)
Definition read_client_bytes (conn : conn_info) (n : nat)
  : option (list ascii * conn_info) :=
  if Nat.leb n (length conn) then Some (firstn n conn, skipn n conn) else None.

(** Modelled from the spec: [extract_to_terminator] of networking.c;
    "[extract_until(terminator)] returns the next run of bytes ending at
    terminator (exclusive) or signals not yet (no bytes consumed)".  The
    terminator is consumed with the run, and is replaced by a NUL in the
    buffer handed out. *)
Definition extract_to_terminator (conn : conn_info) (terminator : ascii)
  : option (list ascii * conn_info) :=
  match memchr conn terminator with
  | None => None
  | Some i => Some (firstn i conn, skipn (S i) conn)
  end.

(** ** The [while (1)] loops of the handlers *)

(** One iteration either leaves the handler with a return value or goes
    round again; both carry the calls made and what is left of the
    connection. *)
Inductive iteration : Type :=
| Return (ret : Z) (calls : list metrics_call) (conn : conn_info)
| Continue (calls : list metrics_call) (conn : conn_info).

Definition handled : Type := Z * list metrics_call * conn_info.

(** [while (1) body], with [fuel] iterations at most; [None] when the fuel
    runs out. *)
Fixpoint while1 (body : conn_info -> iteration) (fuel : nat) (conn : conn_info)
  : option handled :=
  match fuel with
  | O => None
  | S fuel' =>
      match body conn with
      | Return ret calls conn' => Some (ret, calls, conn')
      | Continue calls conn' =>
          match while1 body fuel' conn' with
          | Some (ret, calls', conn'') => Some (ret, calls ++ calls', conn'')
          | None => None
          end
      end
  end.

Definition ascii_iteration (cfg : statsite_config) (conn : conn_info) : iteration :=
  match extract_to_terminator conn LF with
  | None => Return 0 [] conn
  | Some (buf, conn') =>
      match handle_ascii_line cfg buf with
      | (ERR_RET, calls) => Return (-1) calls conn'
      | (END_LOOP, calls) => Continue calls conn'
      end
  end.

(** Every iteration that goes round again has consumed a byte, so one
    iteration more than the buffered bytes is enough fuel. *)
Definition handle_ascii_client_connect (cfg : statsite_config) (conn : conn_info)
  : option handled :=
  while1 (ascii_iteration cfg) (S (length conn)) conn.

(** ** The binary parser *)

Definition BIN_TYPE_KV : Z := 1.
Definition BIN_TYPE_COUNTER : Z := 2.
Definition BIN_TYPE_TIMER : Z := 3.
Definition BIN_TYPE_SET : Z := 4.
Definition BIN_TYPE_GAUGE : Z := 5.
Definition BIN_TYPE_GAUGE_DELTA : Z := 6.

Definition BINARY_MAGIC_BYTE : Z := 170.
Definition MAX_BINARY_HEADER_SIZE : nat := 12.
Definition MIN_BINARY_HEADER_SIZE : nat := 6.

(** An [unsigned char] read. *)
Definition byte_val (b : ascii) : Z := Z.of_N (N_of_ascii b).

(** [cmd[i]] *)
Definition byte_at (cmd : list ascii) (i : nat) : Z := byte_val (nth i cmd NUL).

(** The unsigned integer stored little-endian in a run of bytes. *)
Fixpoint le_uint (bs : list ascii) : Z :=
  match bs with
  | [] => 0
  | b :: bs' => byte_val b + 256 * le_uint bs'
  end.

(** [*(uint16_t* )(cmd + off)] *)
Definition le_u16 (cmd : list ascii) (off : nat) : Z :=
  le_uint (firstn 2 (skipn off cmd)).

(** The binary64 value whose object representation is the 64-bit word
    [w]: the sign bit, 11 bits of biased exponent, 52 bits of fraction. *)
Definition double_of_bits (w : Z) : float :=
  let s := Z.leb (2 ^ 63) (w mod 2 ^ 64) in
  let e := (w / 2 ^ 52) mod 2048 in
  let m := w mod 2 ^ 52 in
  SF2Prim
    (if Z.eqb e 0 then
       match m with
       | Zpos p => S754_finite s p (-1074)
       | _ => S754_zero s
       end
     else if Z.eqb e 2047 then
       (if Z.eqb m 0 then S754_infinity s else S754_nan)
     else
       match 2 ^ 52 + m with
       | Zpos p => S754_finite s p (e - 1075)
       | _ => S754_nan
       end).

(** [*(double* )(cmd + off)] *)
Definition le_double (cmd : list ascii) (off : nat) : float :=
  double_of_bits (le_uint (firstn 8 (skipn off cmd))).

(** The [switch (cmd[1])] of the binary handler. *)
Inductive bin_type : Set :=
| BinSample (type : metric_type)
| BinSet
| BinUnknown.

Definition convert_bin_type (code : Z) : bin_type :=
  if Z.eqb code BIN_TYPE_KV then BinSample KEY_VAL
  else if Z.eqb code BIN_TYPE_COUNTER then BinSample COUNTER
  else if Z.eqb code BIN_TYPE_TIMER then BinSample TIMER
  else if Z.eqb code BIN_TYPE_GAUGE then BinSample GAUGE
  else if Z.eqb code BIN_TYPE_GAUGE_DELTA then BinSample GAUGE_DELTA
  else if Z.eqb code BIN_TYPE_SET then BinSet
  else BinUnknown.

(** [handle_binary_set]: 0 on success, -1 on error, -2 if data is missing.
    [header] is the peeked command; [header[1]] is the key length and
    [header[2]] the set length.  [key] is a pointer into the buffer:
    [metrics_set_update] reads the C string at [key] and the one at
    [key + header[1]] from there on, through the bytes that follow the
    command in the buffer when the command holds no NUL of theirs (which
    a length of zero allows).  Past the buffered bytes the embedding
    reads a NUL. *)
Definition handle_binary_set (cfg : statsite_config) (conn : conn_info)
  (header : list ascii) : handled :=
  let key_len := Z.to_nat (le_u16 header 2) in
  let set_len := Z.to_nat (le_u16 header 4) in
  let val_bytes := (key_len + set_len)%nat in
  match read_client_bytes conn (MIN_BINARY_HEADER_SIZE + val_bytes) with
  | None => (-2, [], conn)
  | Some (header, conn') =>
      let key := skipn MIN_BINARY_HEADER_SIZE conn in
      if negb (Z.eqb (byte_at header (MIN_BINARY_HEADER_SIZE + key_len - 1)) 0)
      then (-1, [], conn')
      else if negb (Z.eqb (byte_at header (MIN_BINARY_HEADER_SIZE + val_bytes - 1)) 0)
      then (-1, [], conn')
      else (0,
            count_input cfg
              ++ [metrics_set_update (c_str key) (c_str (skipn key_len key))],
            conn')
  end.

(** The body of the [while (1)] of [handle_binary_client_connect].
    [key = cmd + MAX_BINARY_HEADER_SIZE] is a pointer into the buffer, and
    [metrics_add_sample] reads the C string that starts there: with
    [key_len = 0] the test [*(key + key_len - 1)] looks at [cmd[11]], the
    last byte of the value, and the name is read from the bytes that
    follow the command in the buffer.  Past the buffered bytes the
    embedding reads a NUL. *)
Definition binary_iteration (cfg : statsite_config) (conn : conn_info) : iteration :=
  match peek_client_bytes conn MIN_BINARY_HEADER_SIZE with
  | None => Return 0 [] conn
  | Some cmd =>
      if negb (Z.eqb (byte_at cmd 0) BINARY_MAGIC_BYTE) then Return (-1) [] conn
      else
        match convert_bin_type (byte_at cmd 1) with
        | BinSet =>
            let '(status, calls, conn') := handle_binary_set cfg conn cmd in
            if Z.eqb status (-1) then Return (-1) calls conn'
            else if Z.eqb status (-2) then Return 0 calls conn'
            else Continue calls conn'
        | BinUnknown => Return (-1) [] conn
        | BinSample type =>
            let key_len := Z.to_nat (le_u16 cmd 2) in
            match read_client_bytes conn (MAX_BINARY_HEADER_SIZE + key_len) with
            | None => Return 0 [] conn
            | Some (cmd, conn') =>
                let key := skipn MAX_BINARY_HEADER_SIZE conn in
                if negb (Z.eqb (byte_at cmd (MAX_BINARY_HEADER_SIZE + key_len - 1)) 0)
                then Return (-1) [] conn'
                else Continue
                       (count_input cfg
                          ++ [metrics_add_sample type (c_str key) (le_double cmd 4)])
                       conn'
            end
        end
  end.

Definition handle_binary_client_connect (cfg : statsite_config) (conn : conn_info)
  : option handled :=
  while1 (binary_iteration cfg) (S (length conn)) conn.

(** ** The connection driver *)

Inductive parser_mode : Set := BinaryMode | TextMode.

(** The test on the peeked magic byte. *)
Definition mode_of_byte (magic : ascii) : parser_mode :=
  if Z.eqb (byte_val magic) BINARY_MAGIC_BYTE then BinaryMode else TextMode.

Definition handle_client_connect (cfg : statsite_config) (conn : conn_info)
  : option handled :=
  match peek_client_byte conn with
  | None => Some (0, [], conn)
  | Some magic =>
      match mode_of_byte magic with
      | BinaryMode => handle_binary_client_connect cfg conn
      | TextMode => handle_ascii_client_connect cfg conn
      end
  end.

(** ** The registry

    The metrics module (metrics.c, counter.c and the sketches) is not among
    the sources; the registry is modelled as the specification describes
    it. *)

(** Modelled from the spec: the counter of counter.c; "CounterAcc: running
    sum, sum-of-squares, count, min, max". *)
Record counter : Type := {
  counter_sum : float;
  counter_squared_sum : float;
  counter_count : N;
  counter_min : float;
  counter_max : float
}.

(** Modelled from the spec: a counter that has seen no sample. *)
Definition init_counter : counter :=
  {| counter_sum := 0; counter_squared_sum := 0; counter_count := 0;
     counter_min := 0; counter_max := 0 |}.

(** Modelled from the spec: [counter_add_sample] of counter.c; the sample
    is folded into the running sum, sum of squares, count, min and max. *)
Definition counter_add_sample (c : counter) (sample : float) : counter :=
  let first := N.eqb (counter_count c) 0 in
  {| counter_sum := (counter_sum c + sample)%float;
     counter_squared_sum := (counter_squared_sum c + sample * sample)%float;
     counter_count := (counter_count c + 1)%N;
     counter_min := if first || PrimFloat.ltb sample (counter_min c)
                    then sample else counter_min c;
     counter_max := if first || PrimFloat.ltb (counter_max c) sample
                    then sample else counter_max c |}.

(** Modelled from the spec: the accumulators of metrics.c; "Accumulator is
    a tagged variant parameterised by the metric type".  The quantile sketch
    of a timer and the cardinality estimator of a set are kept as the values
    folded into them. *)
Inductive accumulator : Type :=
| CounterAcc (c : counter)
| TimerAcc (tm : counter) (observed : list float)
| GaugeAcc (value : float)
| SetAcc (members : list (list ascii))
| KeyValAcc (values : list float).

Abbreviation metrics := (gmap (list ascii) accumulator).

(** Modelled from the spec: [init_metrics] of metrics.c; "a registry is
    born empty at the start of an epoch". *)
Definition init_metrics : metrics := ∅.

(** Modelled from the spec: [metrics_add_sample] of metrics.c on a
    registry; "if name already exists with a different type, behavior is
    silently ignored.  Otherwise the typed accumulator is updated.  For
    GaugeDelta, the value is added to the existing gauge (creating one at 0
    if absent).  For Gauge, the existing value is replaced." *)
Definition add_sample (m : metrics) (type : metric_type) (name : list ascii)
  (val : float) : metrics :=
  match type, m !! name with
  | COUNTER, None => <[name := CounterAcc (counter_add_sample init_counter val)]> m
  | COUNTER, Some (CounterAcc c) => <[name := CounterAcc (counter_add_sample c val)]> m
  | TIMER, None =>
      <[name := TimerAcc (counter_add_sample init_counter val) [val]]> m
  | TIMER, Some (TimerAcc tm observed) =>
      <[name := TimerAcc (counter_add_sample tm val) (observed ++ [val])]> m
  | GAUGE, None => <[name := GaugeAcc val]> m
  | GAUGE, Some (GaugeAcc _) => <[name := GaugeAcc val]> m
  | GAUGE_DELTA, None => <[name := GaugeAcc (0 + val)%float]> m
  | GAUGE_DELTA, Some (GaugeAcc value) => <[name := GaugeAcc (value + val)%float]> m
  | KEY_VAL, None => <[name := KeyValAcc [val]]> m
  | KEY_VAL, Some (KeyValAcc values) => <[name := KeyValAcc (values ++ [val])]> m
  | _, _ => m
  end.

(** Modelled from the spec: [metrics_set_update] of metrics.c on a
    registry; "folds member into the set accumulator named name". *)
Definition set_update (m : metrics) (name value : list ascii) : metrics :=
  match m !! name with
  | None => <[name := SetAcc [value]]> m
  | Some (SetAcc members) => <[name := SetAcc (members ++ [value])]> m
  | Some _ => m
  end.

(** What one call of a handler does to a registry. *)
Definition apply_call (m : metrics) (call : metrics_call) : metrics :=
  match call with
  | metrics_add_sample type name val => add_sample m type name val
  | metrics_set_update name value => set_update m name value
  end.

(** ** The flush controller

    The process state of conn_handler.c: the [GLOBAL_METRICS] pointer
    ([None] is NULL) and the flush threads started so far with the registry
    each was given, those of [flush_interval_trigger] (detached) and those
    of [final_flush] (joined before it returns).  A flush thread streams the
    registry it was given and destroys it; no other reference to that
    registry is left after the swap.  The section is parametric in the
    registry and in what a call does to it.  Calls and rotations are atomic
    steps of the model. *)

Section FlushController.

Context {M : Type}.
(** The registry [init_metrics] builds. *)
Variable fresh : M.
(** What a call does to a registry. *)
Variable apply : M -> metrics_call -> M.

Record daemon : Type := {
  GLOBAL_METRICS : option M;
  detached : list (option M);
  joined : list (option M)
}.

Definition init_conn_handler : daemon :=
  {| GLOBAL_METRICS := Some fresh; detached := []; joined := [] |}.

Definition flush_interval_trigger (d : daemon) : daemon :=
  let m := fresh in
  let old := GLOBAL_METRICS d in
  {| GLOBAL_METRICS := Some m;
     detached := detached d ++ [old];
     joined := joined d |}.

Definition final_flush (d : daemon) : daemon :=
  let old := GLOBAL_METRICS d in
  {| GLOBAL_METRICS := None;
     detached := detached d;
     joined := joined d ++ [old] |}.

(** Modelled from the spec: a call of the metrics module on
    [GLOBAL_METRICS] when that is null; [final_flush] "leaves current as a
    null sentinel so that subsequent add_sample calls become no-ops" (what
    metrics.c does with NULL is not in the sources).  On a registry the
    call is [apply]. *)
Definition call_metrics (d : daemon) (call : metrics_call) : daemon :=
  match GLOBAL_METRICS d with
  | Some m =>
      {| GLOBAL_METRICS := Some (apply m call);
         detached := detached d;
         joined := joined d |}
  | None => d
  end.

Inductive event : Type :=
| Call (call : metrics_call)
| Rotate
| FinalFlush.

Definition step (d : daemon) (e : event) : daemon :=
  match e with
  | Call call => call_metrics d call
  | Rotate => flush_interval_trigger d
  | FinalFlush => final_flush d
  end.

Definition run (d : daemon) (trace : list event) : daemon :=
  fold_left step trace d.

(** The registry that holds exactly the given samples, in order. *)
Definition ingest (calls : list metrics_call) : M :=
  fold_left apply calls fresh.

(** The trace of the given epochs, each closed by a rotation, followed by
    the samples of the epoch under way. *)
Definition epoch_trace (epochs : list (list metrics_call))
  (current : list metrics_call) : list event :=
  flat_map (fun samples => map Call samples ++ [Rotate]) epochs
    ++ map Call current.

End FlushController.

Arguments daemon : clear implicits.

(** ** The serializer *)

(** The 64-bit word made of a sign bit, a biased exponent cut to 11 bits
    and a fraction cut to 52 bits. *)
Definition binary64_word (s : bool) (e m : Z) : Z :=
  Z.b2z s * 2 ^ 63 + (e mod 2048) * 2 ^ 52 + m mod 2 ^ 52.

(** The object representation of a binary64 value.  The kernel's floats
    have one NaN; its representation is taken to be the quiet NaN of zero
    payload. *)
Definition bits_of_double (f : float) : Z :=
  match Prim2SF f with
  | S754_zero s => binary64_word s 0 0
  | S754_infinity s => binary64_word s 2047 0
  | S754_nan => binary64_word false 2047 (2 ^ 51)
  | S754_finite s m e =>
      if Z.ltb (Zpos m) (2 ^ 52) then binary64_word s 0 (Zpos m)
      else binary64_word s (e + 1075) (Zpos m - 2 ^ 52)
  end.

Definition byte_of (z : Z) : ascii := ascii_of_N (Z.to_N (z mod 256)).

(** The [n] low-order bytes of [z], least significant first. *)
Fixpoint le_bytes (n : nat) (z : Z) : list ascii :=
  match n with
  | O => []
  | S n' => byte_of z :: le_bytes n' (z / 256)
  end.

(** [struct binary_out_prefix], packed: 8 + 1 + 1 + 2 + 8 bytes. *)
Record binary_out_prefix : Type := {
  bop_timestamp : Z;
  bop_type : Z;
  bop_value_type : Z;
  bop_key_len : Z;
  bop_val : Z
}.

Definition prefix_bytes (out : binary_out_prefix) : list ascii :=
  le_bytes 8 (bop_timestamp out) ++ le_bytes 1 (bop_type out)
    ++ le_bytes 1 (bop_value_type out) ++ le_bytes 2 (bop_key_len out)
    ++ le_bytes 8 (bop_val out).

(** [stream_bin_writer]: the return value and the bytes written to the
    pipe (the pipe itself accepts every write).  [name] is a C string;
    [key_len] is [strlen(name) + 1] narrowed to [uint16_t], and [fwrite]
    of items of size 0 writes nothing and returns 0. *)
Definition stream_bin_writer (timestamp type val_type : Z) (val : float)
  (name : list ascii) : Z * list ascii :=
  let key_len := (Z.of_nat (strlen name) + 1) mod 65536 in
  let out := {| bop_timestamp := timestamp; bop_type := type;
                bop_value_type := val_type; bop_key_len := key_len;
                bop_val := bits_of_double val |} in
  if Z.eqb key_len 0 then (1, prefix_bytes out)
  else (0, prefix_bytes out ++ firstn (Z.to_nat key_len) (c_str name ++ [NUL])).

Definition no_input_counter : statsite_config :=
  {| input_counter := None; binary_stream := false |}.

(** ** Notions used to state the properties *)

Definition shrinking (body : conn_info -> iteration) : Prop :=
  forall conn calls conn',
    body conn = Continue calls conn' -> (length conn' < length conn)%nat.

(** The calls of one iteration, put before the result of the rest. *)
Definition after_calls (calls : list metrics_call) (r : option handled)
  : option handled :=
  match r with
  | Some (ret, calls', conn) => Some (ret, calls ++ calls', conn)
  | None => None
  end.

(** [c] does not occur in [l]. *)
Definition absent (c : ascii) (l : list ascii) : bool :=
  match memchr l c with
  | None => true
  | Some _ => false
  end.

(** [str2double] steps over at least one byte of [text]. *)
Definition reads_number (text : list ascii) : bool :=
  negb (Nat.eqb (snd (str2double text)) 0).

(** A counter sample as it is written on a text line: the value, and the
    optional sample rate with the bytes that stand between the type letter
    and its ['@'] (["|"] in the grammar of the protocol). *)
Record counter_text : Type := {
  value_text : list ascii;
  rate_text : option (list ascii * list ascii)
}.

Definition counter_line (name : list ascii) (s : counter_text) : list ascii :=
  name ++ ":"%char :: value_text s ++ "|"%char :: "c"%char ::
    match rate_text s with
    | Some (sep, rate) => sep ++ "@"%char :: rate
    | None => []
    end.

Definition counter_stream (name : list ascii) (samples : list counter_text)
  : conn_info :=
  flat_map (fun s => counter_line name s ++ [LF]) samples.

Definition well_formed_name (name : list ascii) : bool :=
  absent ":" name && absent LF name.

(** The line of the sample is cut at its value and at its rate, and both
    are numbers. *)
Definition parses_as_counter (s : counter_text) : bool :=
  absent "|" (value_text s) && absent LF (value_text s)
  && reads_number (value_text s)
  && match rate_text s with
     | Some (sep, rate) =>
         absent "@" sep && absent LF sep && absent LF rate && reads_number rate
     | None => true
     end.

(** The number of digits that [str2double] reads behind the decimal point
    of [s]. *)
Definition fraction_digits (s : list ascii) : nat :=
  let s1 := match s with
            | c :: t => if ascii_eqb c "-" then t else s
            | [] => s
            end in
  match snd (scan_digits s1 0%float 0) with
  | c :: s3 =>
      if ascii_eqb c "."
      then snd (fst (scan_digits s3 0%float 0))
      else 0%nat
  | [] => 0%nat
  end.

(** The value and the rate are written with at most 22 digits behind the
    decimal point. *)
Definition short_fractions (s : counter_text) : bool :=
  Nat.leb (fraction_digits (value_text s)) 22
  && match rate_text s with
     | Some (_, rate) => Nat.leb (fraction_digits rate) 22
     | None => true
     end.

Definition well_formed_counter (s : counter_text) : bool :=
  parses_as_counter s && short_fractions s.

(** A rate in the interval (0, 1], by the comparisons of binary64. *)
Definition in_unit_interval (r : float) : bool :=
  PrimFloat.ltb 0 r && PrimFloat.leb r 1.

(** The value [v] of a sample, and the value scaled by [1 / r], that is
    [v * (1 / r)] in binary64, where the rate [r] counts for nothing when
    it is absent or outside (0, 1]. *)
Definition sample_value (s : counter_text) : float :=
  fst (str2double (value_text s)).

Definition scaled_value (s : counter_text) : float :=
  match rate_text s with
  | Some (_, rate) =>
      let r := fst (str2double rate) in
      if in_unit_interval r then (sample_value s * (1 / r))%float
      else sample_value s
  | None => sample_value s
  end.

(** The input counter, if configured, is another metric than [name]. *)
Definition input_counter_apart (cfg : statsite_config) (name : list ascii) : bool :=
  match input_counter cfg with
  | Some ic => negb (bool_decide (c_str ic = c_str name))
  | None => true
  end.

(** The calls the text parser makes for a stream of counter samples. *)
Definition counter_calls (cfg : statsite_config) (name : list ascii)
  (samples : list counter_text) : list metrics_call :=
  flat_map
    (fun s => count_input cfg
              ++ [metrics_add_sample COUNTER (c_str name) (scaled_value s)])
    samples.

(** The counter a registry reports for [name]: the stored one, or the
    initial one when the name is not there yet. *)
Inductive counter_at (m : metrics) (name : list ascii) : counter -> Prop :=
| counter_at_stored c : m !! name = Some (CounterAcc c) -> counter_at m name c
| counter_at_absent : m !! name = None -> counter_at m name init_counter.

(** What the text parser does with a line once its type is known to be
    [type] (not a set) and its value is to be read from [text]: the sample is
    ingested if a number is read, and the line is an error otherwise; the
    input is counted before the value is read. *)
Definition ingested (cfg : statsite_config) (type : metric_type)
  (name text : list ascii) (scale : float -> float)
  : line_exit * list metrics_call :=
  if reads_number text
  then (END_LOOP,
        count_input cfg
          ++ [metrics_add_sample type (c_str name) (scale (fst (str2double text)))])
  else (ERR_RET, count_input cfg).

(** The gauge a registry stores for [name], 0 when the name is not there. *)
Definition gauge_value (m : metrics) (name : list ascii) : option float :=
  match m !! name with
  | Some (GaugeAcc value) => Some value
  | Some _ => None
  | None => Some 0%float
  end.

(** A configuration that counts its inputs under the name ["in"]. *)
Definition counting_inputs : statsite_config :=
  {| input_counter := Some (bytes "in"); binary_stream := false |}.

(** A connection over the successive invocations of the driver: the
    networking layer appends each arrival to the buffered bytes and calls
    [handle_client_connect] ("invoked by the networking layer when there is
    new data to be handled"); a return value other than 0 closes the
    connection.  The result lists, for each invocation that found a byte,
    the parser it went to, the return value and the calls made. *)
Fixpoint conn_run (cfg : statsite_config) (buffered : conn_info)
  (arrivals : list (list ascii))
  : list (parser_mode * Z * list metrics_call) :=
  match arrivals with
  | [] => []
  | chunk :: more =>
      let conn := buffered ++ chunk in
      match peek_client_byte conn with
      | None => conn_run cfg conn more
      | Some magic =>
          match handle_client_connect cfg conn with
          | Some (ret, calls, conn') =>
              (mode_of_byte magic, ret, calls)
                :: (if Z.eqb ret 0 then conn_run cfg conn' more else [])
          | None => []
          end
      end
  end.

(** The parsers the invocations of a connection went to. *)
Definition conn_modes (cfg : statsite_config) (arrivals : list (list ascii))
  : list parser_mode :=
  map (fun i => fst (fst i)) (conn_run cfg [] arrivals).

(** The binary record of the scenario S3: a gauge ["g"] of value 42.0. *)
Definition s3_record : list ascii :=
  map byte_of [170; 5; 2; 0; 0; 0; 0; 0; 0; 0; 69; 64; 103; 0].

(** The buffered bytes start with the preamble of a binary command that
    is not a set: the magic byte, the code of [type] and [key_len]. *)
Definition binary_preamble (conn : conn_info) (type : metric_type)
  (key_len : nat) : Prop :=
  (4 <= length conn)%nat
  /\ byte_at conn 0 = BINARY_MAGIC_BYTE
  /\ convert_bin_type (byte_at conn 1) = BinSample type
  /\ le_u16 conn 2 = Z.of_nat key_len.

(** A record of the binary output as a reader recovers it: the fields of
    the prefix, the key without its terminating NUL, and the 64-bit word of
    the value. *)
Record bin_record : Type := {
  rec_timestamp : Z;
  rec_type : Z;
  rec_value_type : Z;
  rec_key : list ascii;
  rec_val : Z
}.

(** The inverse parser of the binary output format: the 20 bytes of the
    prefix, then [key_len] bytes of key of which the last is NUL; the record
    read and the bytes after it. *)
Definition read_bin_record (input : list ascii)
  : option (bin_record * list ascii) :=
  match read_client_bytes input 20 with
  | None => None
  | Some (prefix, after_prefix) =>
      let key_len := Z.to_nat (le_u16 prefix 10) in
      match read_client_bytes after_prefix key_len with
      | None => None
      | Some (key, rest) =>
          if Nat.eqb key_len 0 || negb (ascii_eqb (List.last key NUL) NUL)
          then None
          else Some ({| rec_timestamp := le_uint (firstn 8 prefix);
                        rec_type := byte_at prefix 8;
                        rec_value_type := byte_at prefix 9;
                        rec_key := removelast key;
                        rec_val := le_uint (firstn 8 (skipn 12 prefix)) |},
                     rest)
      end
  end.

(** A metric name of 65536 bytes, as a text line can carry. *)
Definition long_name : list ascii := repeat "a"%char (Z.to_nat 65536).

(** A text line: name, value, and the bytes after the ['|'] that ends the
    value (the type field and what follows it). *)
Definition text_line (name value type_str : list ascii) : list ascii :=
  name ++ ":"%char :: value ++ "|"%char :: type_str.

(** The scaling of a counter value by the rate read from [rate]. *)
Definition with_rate (rate : list ascii) (val : float) : float :=
  let sample_rate := fst (str2double rate) in
  if rate_applies sample_rate then (val * (1 / sample_rate))%float else val.

(** The text of a sign: nothing, or one ['-']. *)
Definition sign_text (neg : bool) : list ascii :=
  if neg then ["-"%char] else [].

(** The text of a fractional part: nothing, or a ['.'] and its digits. *)
Definition frac_text (frac : option (list ascii)) : list ascii :=
  match frac with
  | Some fs => "."%char :: fs
  | None => []
  end.

(** An iteration looks only at the bytes it needs: when it went round
    again or returned an error, it does the same with more bytes behind the
    buffer; and it returns 0 only when it has made no call and consumed
    nothing. *)
Definition prefix_stable (body : conn_info -> iteration) : Prop :=
  forall conn more : conn_info,
    match body conn with
    | Continue calls conn' =>
        body (conn ++ more) = Continue calls (conn' ++ more)
    | Return ret calls conn' =>
        if Z.eqb ret 0 then calls = [] /\ conn' = conn
        else ret = -1
             /\ body (conn ++ more) = Return ret calls (conn' ++ more)
    end.

(** An iteration leaves a suffix of the buffer. *)
Definition consuming (body : conn_info -> iteration) : Prop :=
  forall conn : conn_info,
    exists consumed : list ascii,
      conn = consumed ++ match body conn with
                         | Continue _ conn' => conn'
                         | Return _ _ conn' => conn'
                         end.

(** The types a sample can be ingested with. *)
Definition sample_type (type : metric_type) : bool :=
  match type with
  | COUNTER | TIMER | KEY_VAL | GAUGE | GAUGE_DELTA => true
  | SET | UNKNOWN => false
  end.

(** A call as the metrics module expects it: a sample has a sample type,
    and every string is a C string (it holds no NUL). *)
Definition well_formed_call (call : metrics_call) : bool :=
  match call with
  | metrics_add_sample type name _ => sample_type type && absent NUL name
  | metrics_set_update name value => absent NUL name && absent NUL value
  end.

(** The calls for a sequence of ingested samples, each one counted as an
    input first. *)
Definition counted (cfg : statsite_config) (samples : list metrics_call)
  : list metrics_call :=
  flat_map (fun call => count_input cfg ++ [call]) samples.

(** The buffered bytes start with the header of a binary set command: the
    magic byte, the code of a set, [key_len] and [set_len]. *)
Definition set_preamble (conn : conn_info) (key_len set_len : nat) : Prop :=
  (MIN_BINARY_HEADER_SIZE <= length conn)%nat
  /\ byte_at conn 0 = BINARY_MAGIC_BYTE
  /\ byte_at conn 1 = BIN_TYPE_SET
  /\ le_u16 conn 2 = Z.of_nat key_len
  /\ le_u16 conn 4 = Z.of_nat set_len.

(** The set command of the scenario S4: the name ["u"], the member
    ["alice"]. *)
Definition s4_record : list ascii :=
  map byte_of [170; 4; 2; 0; 6; 0; 117; 0; 97; 108; 105; 99; 101; 0].

(** ** The binary formatter

    [stream_formatter_bin] is the callback that writes one metric in the
    binary format.  Its [void *value] is read according to [type], through
    the accessors of the metrics module, which is not among the sources:
    the embedding takes, for each type, the values those accessors return. *)

Definition BIN_OUT_NO_TYPE : Z := 0.
Definition BIN_OUT_SUM : Z := 1.
Definition BIN_OUT_SUM_SQ : Z := 2.
Definition BIN_OUT_MEAN : Z := 3.
Definition BIN_OUT_COUNT : Z := 4.
Definition BIN_OUT_STDDEV : Z := 5.
Definition BIN_OUT_MIN : Z := 6.
Definition BIN_OUT_MAX : Z := 7.
Definition BIN_OUT_HIST_FLOOR : Z := 8.
Definition BIN_OUT_HIST_BIN : Z := 9.
Definition BIN_OUT_HIST_CEIL : Z := 10.
Definition BIN_OUT_PCT : Z := 128.

(** What [counter_sum], [counter_squared_sum], [counter_mean],
    [counter_count], [counter_stddev], [counter_min] and [counter_max] (or
    their [timer_] namesakes) return, as the doubles handed to
    [stream_bin_writer]. *)
Record moments : Type := {
  m_sum : float;
  m_squared_sum : float;
  m_mean : float;
  m_count : float;
  m_stddev : float;
  m_min : float;
  m_max : float
}.

(** The histogram configuration of a timer, [t->conf]. *)
Record histogram_conf : Type := {
  min_val : float;
  max_val : float;
  bin_width : float;
  num_bins : Z
}.

(** A [timer_hist]: the timer [tm] seen through its accessors (its moments
    and [timer_query]), the configuration [conf] ([None] is NULL) and the
    bucket counts [counts]. *)
Record timer_hist : Type := {
  tm : moments;
  timer_query : float -> float;
  conf : option histogram_conf;
  counts : list Z
}.

(** What [value] points to, by [type]: a double for a key/value pair, the
    value of a gauge, the moments of a counter, the size of a set (as a
    double), a [timer_hist]. *)
Definition formatter_value (type : metric_type) : Type :=
  match type with
  | KEY_VAL | GAUGE | SET => float
  | COUNTER => moments
  | TIMER => timer_hist
  | GAUGE_DELTA | UNKNOWN => unit
  end.

(** One [STREAM_BIN], with the [STREAM_UINT] that follows it for a
    histogram record. *)
Record out_item : Type := {
  it_type : Z;
  it_value_type : Z;
  it_val : float;
  it_count : option Z
}.

Definition STREAM_BIN (type val_type : Z) (val : float) : out_item :=
  {| it_type := type; it_value_type := val_type; it_val := val;
     it_count := None |}.

Definition STREAM_BIN_UINT (type val_type : Z) (val : float) (count : Z)
  : out_item :=
  {| it_type := type; it_value_type := val_type; it_val := val;
     it_count := Some count |}.

(** The seven moments, in the order of the source. *)
Definition moments_items (type : Z) (m : moments) : list out_item :=
  [ STREAM_BIN type BIN_OUT_SUM (m_sum m);
    STREAM_BIN type BIN_OUT_SUM_SQ (m_squared_sum m);
    STREAM_BIN type BIN_OUT_MEAN (m_mean m);
    STREAM_BIN type BIN_OUT_COUNT (m_count m);
    STREAM_BIN type BIN_OUT_STDDEV (m_stddev m);
    STREAM_BIN type BIN_OUT_MIN (m_min m);
    STREAM_BIN type BIN_OUT_MAX (m_max m) ].

(** The quantiles 0.5, 0.90, 0.95 and 0.99, as binary64 values. *)
Definition percentile_items (t : timer_hist) : list out_item :=
  [ STREAM_BIN BIN_TYPE_TIMER (Z.lor BIN_OUT_PCT 50) (timer_query t 0.5);
    STREAM_BIN BIN_TYPE_TIMER (Z.lor BIN_OUT_PCT 90)
      (timer_query t 0x1.ccccccccccccdp-1);
    STREAM_BIN BIN_TYPE_TIMER (Z.lor BIN_OUT_PCT 95)
      (timer_query t 0x1.e666666666666p-1);
    STREAM_BIN BIN_TYPE_TIMER (Z.lor BIN_OUT_PCT 99)
      (timer_query t 0x1.fae147ae147aep-1) ].

(** [(double) i] for the loop index. *)
Definition double_of_index (i : nat) : float :=
  PrimFloat.of_uint63 (Uint63.of_Z (Z.of_nat i)).

(** The histogram records: the floor, [for (i=0; i < num_bins-2; i++)]
    the bins, and the ceiling, which reads [counts[i+1]] with the last value
    of [i].  [counts[k]] is [nth k counts 0]: with fewer than two bins the
    source reads outside the array, which the embedding does not follow. *)
Definition histogram_items (t : timer_hist) : list out_item :=
  match conf t with
  | None => []
  | Some c =>
      let loops := Z.to_nat (num_bins c - 2) in
      STREAM_BIN_UINT BIN_TYPE_TIMER BIN_OUT_HIST_FLOOR (min_val c)
        (nth 0 (counts t) 0)
      :: map (fun i =>
                STREAM_BIN_UINT BIN_TYPE_TIMER BIN_OUT_HIST_BIN
                  (min_val c + bin_width c * double_of_index i)%float
                  (nth (i + 1) (counts t) 0))
             (seq 0 loops)
      ++ [STREAM_BIN_UINT BIN_TYPE_TIMER BIN_OUT_HIST_CEIL (max_val c)
            (nth (loops + 1) (counts t) 0)]
  end.

(** The [switch (type)] of [stream_formatter_bin]: what is streamed, in
    order; the [default:] branch streams nothing. *)
Definition formatter_items (type : metric_type)
  : formatter_value type -> list out_item :=
  match type with
  | KEY_VAL => fun value => [STREAM_BIN BIN_TYPE_KV BIN_OUT_NO_TYPE value]
  | GAUGE => fun value => [STREAM_BIN BIN_TYPE_GAUGE BIN_OUT_NO_TYPE value]
  | COUNTER => fun value => moments_items BIN_TYPE_COUNTER value
  | SET => fun value => [STREAM_BIN BIN_TYPE_SET BIN_OUT_SUM value]
  | TIMER => fun t =>
      moments_items BIN_TYPE_TIMER (tm t) ++ percentile_items t
        ++ histogram_items t
  | GAUGE_DELTA | UNKNOWN => fun _ => []
  end.

(** The execution of one item on the pipe: [STREAM_BIN] returns 1 from the
    formatter when [stream_bin_writer] fails; [STREAM_UINT] writes the four
    bytes of an [unsigned int]. *)
Definition write_item (timestamp : Z) (name : list ascii) (it : out_item)
  : Z * list ascii :=
  let '(ret, written) :=
    stream_bin_writer timestamp (it_type it) (it_value_type it) (it_val it) name in
  if Z.eqb ret 0
  then match it_count it with
       | Some count => (0, written ++ le_bytes 4 count)
       | None => (0, written)
       end
  else (1, written).

(** The items in sequence, up to the first that fails. *)
Fixpoint stream_items (timestamp : Z) (name : list ascii)
  (items : list out_item) : Z * list ascii :=
  match items with
  | [] => (0, [])
  | it :: rest =>
      let '(ret, written) := write_item timestamp name it in
      if Z.eqb ret 0
      then let '(ret', written') := stream_items timestamp name rest in
           (ret', written ++ written')
      else (1, written)
  end.

(** [stream_formatter_bin(pipe, data, type, name, value)], with
    [tv_sec] the seconds of [data]: the return value and the bytes written
    to the pipe. *)
Definition stream_formatter_bin (tv_sec : Z) (type : metric_type)
  (name : list ascii) (value : formatter_value type) : Z * list ascii :=
  stream_items tv_sec name (formatter_items type value).

(** The value types that are followed by a bucket count. *)
Definition counted_record (value_type : Z) : bool :=
  Z.eqb value_type BIN_OUT_HIST_FLOOR || Z.eqb value_type BIN_OUT_HIST_BIN
  || Z.eqb value_type BIN_OUT_HIST_CEIL.

(** The inverse parser of a binary stream: [n] records, each with its
    bucket count when its value type is that of a histogram record; the
    records read and the bytes after them. *)
Fixpoint read_bin_items (n : nat) (input : list ascii)
  : option (list (bin_record * option Z) * list ascii) :=
  match n with
  | O => Some ([], input)
  | S n' =>
      match read_bin_record input with
      | None => None
      | Some (r, after_record) =>
          match (if counted_record (rec_value_type r)
                 then match read_client_bytes after_record 4 with
                      | Some (count, after_count) =>
                          Some (Some (le_uint count), after_count)
                      | None => None
                      end
                 else Some (None, after_record)) with
          | None => None
          | Some (count, after_item) =>
              match read_bin_items n' after_item with
              | Some (items, rest) => Some ((r, count) :: items, rest)
              | None => None
              end
          end
      end
  end.

(** What a reader is to find for an item. *)
Definition item_read (timestamp : Z) (name : list ascii) (it : out_item)
  : bin_record * option Z :=
  ({| rec_timestamp := timestamp; rec_type := it_type it;
      rec_value_type := it_value_type it; rec_key := c_str name;
      rec_val := bits_of_double (it_val it) |},
   it_count it).

(** The bucket counts are those of an [unsigned int]. *)
Definition counts_in_range (type : metric_type)
  : formatter_value type -> Prop :=
  match type with
  | TIMER => fun t => Forall (fun n => 0 <= n < 2 ^ 32) (counts t)
  | _ => fun _ => True
  end.

(** A counter seen through its accessors, and a timer with a histogram of
    four bins, for examples. *)
Definition some_moments : moments :=
  {| m_sum := 9; m_squared_sum := 41; m_mean := 3; m_count := 3;
     m_stddev := 2.5; m_min := 1; m_max := 6 |}.

Definition some_timer : timer_hist :=
  {| tm := some_moments; timer_query := fun q => (q * 6)%float;
     conf := Some {| min_val := 0; max_val := 10; bin_width := 5;
                     num_bins := 4 |};
     counts := [0; 1; 1; 1] |}.

(** A metric name of 65535 bytes. *)
Definition wrapping_name : list ascii := repeat "a"%char (Z.to_nat 65535).

(** An item the output format can carry: codes of one byte, and a bucket
    count of 32 bits exactly for the value types that are followed by
    one. *)
Definition item_ok (it : out_item) : Prop :=
  0 <= it_type it < 256 /\ 0 <= it_value_type it < 256
  /\ match it_count it with
     | Some count =>
         counted_record (it_value_type it) = true /\ 0 <= count < 2 ^ 32
     | None => counted_record (it_value_type it) = false
     end.

(** The clause of [prefix_stable] at one buffer. *)
Definition stable_at (body : conn_info -> iteration) (conn : conn_info) : Prop :=
  forall more : conn_info,
    match body conn with
    | Continue calls conn' =>
        body (conn ++ more) = Continue calls (conn' ++ more)
    | Return ret calls conn' =>
        if Z.eqb ret 0 then calls = [] /\ conn' = conn
        else ret = -1
             /\ body (conn ++ more) = Return ret calls (conn' ++ more)
    end.

(** The iterations that the loop makes from [conn] on are each stable. *)
Inductive stable_run (body : conn_info -> iteration) : conn_info -> Prop :=
| stable_return (conn : conn_info) (ret : Z) (calls : list metrics_call)
    (conn' : conn_info) :
    body conn = Return ret calls conn' ->
    stable_at body conn -> stable_run body conn
| stable_continue (conn : conn_info) (calls : list metrics_call)
    (conn' : conn_info) :
    body conn = Continue calls conn' ->
    stable_at body conn -> stable_run body conn' -> stable_run body conn.

(** An iteration returns 0 or -1, and 0 only when it has made no call and
    consumed nothing. *)
Definition returns_clean (body : conn_info -> iteration) : Prop :=
  forall conn : conn_info,
    match body conn with
    | Continue _ _ => True
    | Return ret calls conn' =>
        if Z.eqb ret 0 then calls = [] /\ conn' = conn else ret = -1
    end.

(** The commands that the binary parser handles in [conn] each announce a
    key of at least one byte, and each set command a member of at least one
    byte: the strings of such a command end within it. *)
Inductive keyed (cfg : statsite_config) : conn_info -> Prop :=
| keyed_return (conn : conn_info) (ret : Z) (calls : list metrics_call)
    (conn' : conn_info) :
    binary_iteration cfg conn = Return ret calls conn' -> keyed cfg conn
| keyed_continue (conn : conn_info) (calls : list metrics_call)
    (conn' : conn_info) :
    binary_iteration cfg conn = Continue calls conn' ->
    1 <= le_u16 conn 2 ->
    (byte_at conn 1 = BIN_TYPE_SET -> 1 <= le_u16 conn 4) ->
    keyed cfg conn' -> keyed cfg conn.

(** A stream of complete lines, each followed by its line terminator. *)
Definition lines_stream (lines : list (list ascii)) : conn_info :=
  flat_map (fun line => line ++ [LF]) lines.

(** The text parser accepts the line: it goes on to the next one. *)
Definition accepts (cfg : statsite_config) (line : list ascii) : bool :=
  match fst (handle_ascii_line cfg line) with
  | END_LOOP => true
  | ERR_RET => false
  end.

(** A command of the binary protocol as a client sends it: a sample with
    its type code, the 8 bytes of its value and its name, or a set update
    with its name and its member.  Name and member go on the wire followed
    by a NUL, which their lengths count. *)
Inductive command : Type :=
| sample_command (code : Z) (value : list ascii) (name : list ascii)
| set_command (name member : list ascii).

Definition command_bytes (c : command) : list ascii :=
  match c with
  | sample_command code value name =>
      byte_of BINARY_MAGIC_BYTE :: byte_of code
        :: le_bytes 2 (Z.of_nat (length name) + 1)
        ++ value ++ name ++ [NUL]
  | set_command name member =>
      byte_of BINARY_MAGIC_BYTE :: byte_of BIN_TYPE_SET
        :: le_bytes 2 (Z.of_nat (length name) + 1)
        ++ le_bytes 2 (Z.of_nat (length member) + 1)
        ++ name ++ NUL :: member ++ [NUL]
  end.

(** The type codes of the binary protocol, as the protocol numbers them. *)
Definition command_type (code : Z) : option metric_type :=
  if Z.eqb code 1 then Some KEY_VAL
  else if Z.eqb code 2 then Some COUNTER
  else if Z.eqb code 3 then Some TIMER
  else if Z.eqb code 5 then Some GAUGE
  else if Z.eqb code 6 then Some GAUGE_DELTA
  else None.

(** The command has a sample type code, a value of 8 bytes, and strings
    whose lengths fit their 16-bit fields. *)
Definition command_ok (c : command) : bool :=
  match c with
  | sample_command code value name =>
      match command_type code with Some _ => true | None => false end
      && Nat.eqb (length value) 8
      && Z.ltb (Z.of_nat (length name) + 1) 65536
  | set_command name member =>
      Z.ltb (Z.of_nat (length name) + 1) 65536
      && Z.ltb (Z.of_nat (length member) + 1) 65536
  end.

(** The call that the command asks for. *)
Definition command_call (c : command) : metrics_call :=
  match c with
  | sample_command code value name =>
      metrics_add_sample
        (match command_type code with Some type => type | None => UNKNOWN end)
        (c_str name) (double_of_bits (le_uint value))
  | set_command name member => metrics_set_update (c_str name) (c_str member)
  end.

(** ** The text serializer *)

(** The decimal digits of a natural number. *)
Fixpoint decimal_digits (fuel : nat) (n : Z) (acc : list ascii) : list ascii :=
  match fuel with
  | O => acc
  | S fuel' =>
      let acc' := ascii_of_N (Z.to_N (48 + n mod 10)) :: acc in
      if Z.eqb (n / 10) 0 then acc' else decimal_digits fuel' (n / 10) acc'
  end.

Definition decimal (n : Z) : list ascii :=
  decimal_digits (S (Z.to_nat (Z.log2 n))) n [].

(** The conversion [%lld] of [fprintf]: the argument as a signed integer of
    64 bits, in decimal. *)
Definition printf_lld (z : Z) : list ascii :=
  let w := (z + 2 ^ 63) mod 2 ^ 64 - 2 ^ 63 in
  if Z.ltb w 0 then "-"%char :: decimal (- w) else decimal w.

(** The conversion [%u]: the argument as an unsigned integer of 32 bits. *)
Definition printf_u (z : Z) : list ascii := decimal (z mod 2 ^ 32).

(** [num / den] rounded to the nearest integer, a tie to the even one. *)
Definition round_half_even (num den : Z) : Z :=
  let q := num / den in
  let r := num mod den in
  if Z.ltb (2 * r) den then q
  else if Z.ltb den (2 * r) then q + 1
  else if Z.even q then q else q + 1.

(** [scaled] units of [10 ^ - precision], written with a decimal point. *)
Definition fixed (precision : nat) (scaled : Z) : list ascii :=
  let unit := 10 ^ Z.of_nat precision in
  let fraction := decimal (scaled mod unit) in
  decimal (scaled / unit)
    ++ match precision with
       | O => []
       | S _ =>
           "."%char
             :: List.repeat "0"%char (precision - length fraction) ++ fraction
       end.

(** The conversions [%f] (precision 6) and [%0.2f] (precision 2) of
    [fprintf] in the C locale: the exact value of the double, rounded to
    [precision] decimals, to nearest and a tie to even.  The kernel's floats
    do not keep the sign of a NaN, which is written without one. *)
Definition printf_f (precision : nat) (x : float) : list ascii :=
  let sign (s : bool) : list ascii := if s then ["-"%char] else [] in
  match Prim2SF x with
  | S754_nan => bytes "nan"
  | S754_infinity s => sign s ++ bytes "inf"
  | S754_zero s => sign s ++ fixed precision 0
  | S754_finite s m e =>
      let unit := 10 ^ Z.of_nat precision in
      sign s
        ++ fixed precision
             (if Z.leb 0 e then Zpos m * 2 ^ e * unit
              else round_half_even (Zpos m * unit) (2 ^ (- e)))
  end.

(** What [value] points to, for the text formatter: a double for a
    key/value pair, the value of a gauge, [counter_sum(value)] for a
    counter, [set_size(value)] for a set, and for a timer the [timer_hist]
    with [timer_count(&t->tm)] as the integer that it is. *)
Definition text_value (type : metric_type) : Type :=
  match type with
  | KEY_VAL | GAUGE | COUNTER => float
  | SET => Z
  | TIMER => (timer_hist * Z)%type
  | GAUGE_DELTA | UNKNOWN => unit
  end.

(** One [STREAM]: the line ["<key>|<value>|<tv_sec>\n"].  The pipe takes
    what is written to it, so that [fprintf] does not fail. *)
Definition STREAM (key value : list ascii) (tv_sec : Z) : list ascii :=
  key ++ "|"%char :: value ++ "|"%char :: printf_lld tv_sec ++ [LF].

(** The lines of a timer: its moments, its count, its quantiles, and the
    histogram when one is configured (the floor, the bins of the [for] loop
    and the ceiling, as in the binary formatter). *)
Definition timer_lines (tv_sec : Z) (n : list ascii) (t : timer_hist)
  (count : Z) : list ascii :=
  let timers (field : string) (value : list ascii) :=
    STREAM (bytes "timers." ++ n ++ bytes field) value tv_sec in
  timers ".sum" (printf_f 6 (m_sum (tm t)))
  ++ timers ".sum_sq" (printf_f 6 (m_squared_sum (tm t)))
  ++ timers ".mean" (printf_f 6 (m_mean (tm t)))
  ++ timers ".lower" (printf_f 6 (m_min (tm t)))
  ++ timers ".upper" (printf_f 6 (m_max (tm t)))
  ++ timers ".count" (printf_lld count)
  ++ timers ".stdev" (printf_f 6 (m_stddev (tm t)))
  ++ timers ".median" (printf_f 6 (timer_query t 0.5))
  ++ timers ".upper_90" (printf_f 6 (timer_query t 0x1.ccccccccccccdp-1))
  ++ timers ".upper_95" (printf_f 6 (timer_query t 0x1.e666666666666p-1))
  ++ timers ".upper_99" (printf_f 6 (timer_query t 0x1.fae147ae147aep-1))
  ++ match conf t with
     | None => []
     | Some c =>
         let loops := Z.to_nat (num_bins c - 2) in
         let bin (mark : string) (bound : float) (k : nat) :=
           STREAM (n ++ bytes ".histogram.bin_" ++ bytes mark
                     ++ printf_f 2 bound)
             (printf_u (nth k (counts t) 0)) tv_sec in
         bin "<" (min_val c) 0%nat
         ++ flat_map
              (fun i =>
                 bin EmptyString
                   (min_val c + bin_width c * double_of_index i)%float
                   (i + 1)%nat)
              (seq 0 loops)
         ++ bin ">" (max_val c) (loops + 1)%nat
     end.

(** [stream_formatter(pipe, data, type, name, value)], with [tv_sec] the
    seconds of [data]: the return value and the bytes written to the pipe.
    The [default:] branch writes nothing. *)
Definition stream_formatter (tv_sec : Z) (type : metric_type)
  (name : list ascii) : text_value type -> Z * list ascii :=
  match type with
  | KEY_VAL => fun value => (0, STREAM (c_str name) (printf_f 6 value) tv_sec)
  | GAUGE => fun value => (0, STREAM (c_str name) (printf_f 6 value) tv_sec)
  | COUNTER => fun value => (0, STREAM (c_str name) (printf_f 6 value) tv_sec)
  | SET => fun size => (0, STREAM (c_str name) (printf_lld size) tv_sec)
  | TIMER => fun value =>
      (0, timer_lines tv_sec (c_str name) (fst value) (snd value))
  | GAUGE_DELTA | UNKNOWN => fun _ => (0, [])
  end.

(** * Properties *)

(** ** Evaluations of the handlers *)

Example line_counter_plain :
  handle_ascii_line no_input_counter (bytes "a:1|c")
  = (END_LOOP, [metrics_add_sample COUNTER (bytes "a") 1%float]).
Proof. vm_compute. reflexivity. Qed.

Example line_counter_rate :
  handle_ascii_line no_input_counter (bytes "a:3|c@0.5")
  = (END_LOOP, [metrics_add_sample COUNTER (bytes "a") 6%float]).
Proof. vm_compute. reflexivity. Qed.

Example line_gauge_plus :
  handle_ascii_line no_input_counter (bytes "g:+5|g")
  = (END_LOOP, [metrics_add_sample GAUGE_DELTA (bytes "g") 5%float]).
Proof. vm_compute. reflexivity. Qed.

Example line_minus_only :
  handle_ascii_line no_input_counter (bytes "a:-|c")
  = (END_LOOP, [metrics_add_sample COUNTER (bytes "a") (-0)%float]).
Proof. vm_compute. reflexivity. Qed.

Example s1_calls :
  handle_client_connect no_input_counter
    (bytes "a:1|c" ++ [LF] ++ bytes "a:2|c" ++ [LF] ++ bytes "a:3|c@0.5" ++ [LF])
  = Some (0, [metrics_add_sample COUNTER (bytes "a") 1%float;
              metrics_add_sample COUNTER (bytes "a") 2%float;
              metrics_add_sample COUNTER (bytes "a") 6%float], []).
Proof. vm_compute. reflexivity. Qed.

Example s3_binary_gauge :
  handle_client_connect no_input_counter s3_record
  = Some (0, [metrics_add_sample GAUGE (bytes "g") 42%float], []).
Proof. vm_compute. reflexivity. Qed.

(** The scenario S4: a set command for the name ["u"] and the member
    ["alice"]; without its last byte it waits for more data, and with a
    member that does not end in NUL it is a framing error. *)
Example s4_binary_set :
  handle_client_connect no_input_counter
    (map byte_of [170; 4; 2; 0; 6; 0; 117; 0; 97; 108; 105; 99; 101; 0])
  = Some (0, [metrics_set_update (bytes "u") (bytes "alice")], [])
  /\ handle_client_connect no_input_counter
       (map byte_of [170; 4; 2; 0; 6; 0; 117; 0; 97; 108; 105; 99; 101])
     = Some (0, [], map byte_of [170; 4; 2; 0; 6; 0; 117; 0; 97; 108; 105; 99; 101])
  /\ handle_client_connect no_input_counter
       (map byte_of [170; 4; 2; 0; 6; 0; 117; 0; 97; 108; 105; 99; 101; 33])
     = Some (-1, [], []).
Proof. repeat split; vm_compute; reflexivity. Qed.

(** A bad magic byte after a good command, and an unknown type code, are
    framing errors; the good command has been ingested. *)
Example binary_framing_errors :
  handle_client_connect no_input_counter (s3_record ++ bytes "a:1|c" ++ [LF])
  = Some (-1, [metrics_add_sample GAUGE (bytes "g") 42%float],
          bytes "a:1|c" ++ [LF])
  /\ handle_client_connect no_input_counter
       (map byte_of [170; 9; 2; 0; 0; 0; 0; 0; 0; 0; 69; 64; 103; 0])
     = Some (-1, [], map byte_of [170; 9; 2; 0; 0; 0; 0; 0; 0; 0; 69; 64; 103; 0]).
Proof. repeat split; vm_compute; reflexivity. Qed.

(** A partial line is left in the buffer; an unknown type letter and a line
    without ['|'] are parse errors. *)
Example text_partial_and_errors :
  handle_client_connect no_input_counter (bytes "a:1|c" ++ [LF] ++ bytes "b:2")
  = Some (0, [metrics_add_sample COUNTER (bytes "a") 1%float], bytes "b:2")
  /\ handle_client_connect no_input_counter (bytes "a:1|x" ++ [LF])
     = Some (-1, [], [])
  /\ handle_client_connect no_input_counter (bytes "a:1" ++ [LF] ++ bytes "b:2|c" ++ [LF])
     = Some (-1, [], bytes "b:2|c" ++ [LF])
  /\ handle_client_connect no_input_counter (bytes "u:alice|s" ++ [LF])
     = Some (0, [metrics_set_update (bytes "u") (bytes "alice")], []).
Proof. repeat split; vm_compute; reflexivity. Qed.

Example bits_42 :
  bits_of_double 42%float = 0x4045000000000000
  /\ double_of_bits 0x4045000000000000 = 42%float
  /\ double_of_bits (bits_of_double (-0.375)%float) = (-0.375)%float.
Proof. repeat split; vm_compute; reflexivity. Qed.

Example s1_registry :
  match handle_client_connect no_input_counter
    (bytes "a:1|c" ++ [LF] ++ bytes "a:2|c" ++ [LF] ++ bytes "a:3|c@0.5" ++ [LF]) with
  | Some (_, calls, _) =>
     match fold_left apply_call calls init_metrics !! bytes "a" with
     | Some (CounterAcc c) => Some (counter_sum c, counter_count c)
     | _ => None
     end
  | None => None
  end = Some (9%float, 3%N).
Proof. vm_compute. reflexivity. Qed.


(** ** Scanning for a byte *)

Lemma ascii_eqb_eq (a b : ascii) : ascii_eqb a b = true <-> a = b.
Proof. unfold ascii_eqb. apply Ascii.eqb_eq. Qed.

Lemma ascii_eqb_neq (a b : ascii) : ascii_eqb a b = false <-> a <> b.
Proof. unfold ascii_eqb. apply Ascii.eqb_neq. Qed.

Lemma ascii_eqb_refl (a : ascii) : ascii_eqb a a = true.
Proof. apply ascii_eqb_eq. reflexivity. Qed.

Lemma memchr_absent (buf : list ascii) (c : ascii) :
  ~ In c buf -> memchr buf c = None.
Proof.
  induction buf as [|b buf IH]; simpl; intros Hn; [reflexivity|].
  destruct (ascii_eqb b c) eqn:E.
  - apply ascii_eqb_eq in E. tauto.
  - rewrite IH; tauto.
Qed.

Lemma memchr_first (front back : list ascii) (c : ascii) :
  ~ In c front -> memchr (front ++ c :: back) c = Some (length front).
Proof.
  induction front as [|b front IH]; simpl; intros Hn.
  - rewrite ascii_eqb_refl. reflexivity.
  - destruct (ascii_eqb b c) eqn:E.
    + apply ascii_eqb_eq in E. tauto.
    + rewrite IH; tauto.
Qed.

Lemma memchr_lt (buf : list ascii) (c : ascii) (i : nat) :
  memchr buf c = Some i -> (i < length buf)%nat.
Proof.
  revert i. induction buf as [|b buf IH]; simpl; intros i H; [discriminate|].
  destruct (ascii_eqb b c).
  - injection H as <-. lia.
  - destruct (memchr buf c) as [j|]; [|discriminate].
    injection H as <-. specialize (IH j eq_refl). lia.
Qed.

Lemma firstn_skipn_at (front back : list ascii) (c : ascii) :
  firstn (length front) (front ++ c :: back) = front
  /\ skipn (S (length front)) (front ++ c :: back) = back.
Proof.
  induction front as [|b front [IH1 IH2]]; simpl; [auto|].
  rewrite IH1. auto.
Qed.

Lemma buffer_after_terminator_first (front back : list ascii) (c : ascii) :
  ~ In c front ->
  buffer_after_terminator (front ++ c :: back) c = Some (front, back).
Proof.
  intros Hn. unfold buffer_after_terminator. rewrite memchr_first by assumption.
  destruct (firstn_skipn_at front back c) as [-> ->]. reflexivity.
Qed.

Lemma buffer_after_terminator_absent (buf : list ascii) (c : ascii) :
  ~ In c buf -> buffer_after_terminator buf c = None.
Proof.
  intros Hn. unfold buffer_after_terminator. rewrite memchr_absent; auto.
Qed.

Lemma extract_to_terminator_first (front back : list ascii) (c : ascii) :
  ~ In c front ->
  extract_to_terminator (front ++ c :: back) c = Some (front, back).
Proof. apply buffer_after_terminator_first. Qed.

(** ** The loops return *)

Lemma while1_more_fuel (body : conn_info -> iteration) (fuel fuel' : nat)
  (conn : conn_info) (r : handled) :
  while1 body fuel conn = Some r -> (fuel <= fuel')%nat ->
  while1 body fuel' conn = Some r.
Proof.
  revert fuel' conn r. induction fuel as [|fuel IH]; intros fuel' conn r H Hle.
  - discriminate.
  - destruct fuel' as [|fuel']; [lia|]. simpl in *.
    destruct (body conn) as [ret calls conn'|calls conn']; [assumption|].
    destruct (while1 body fuel conn') as [[[ret calls'] conn'']|] eqn:E;
      [|discriminate].
    rewrite (IH fuel' conn' _ E) by lia. assumption.
Qed.

Lemma while1_returns (body : conn_info -> iteration) :
  shrinking body ->
  forall fuel conn, (length conn < fuel)%nat ->
    exists r, while1 body fuel conn = Some r.
Proof.
  intros Hs. induction fuel as [|fuel IH]; intros conn Hlt; [lia|].
  simpl. destruct (body conn) as [ret calls conn'|calls conn'] eqn:E.
  - eauto.
  - apply Hs in E. destruct (IH conn') as [[[ret calls'] conn''] ->]; [lia|].
    eauto.
Qed.

Lemma while1_continue (body : conn_info -> iteration) (conn conn' : conn_info)
  (calls : list metrics_call) :
  shrinking body ->
  body conn = Continue calls conn' ->
  while1 body (S (length conn)) conn
  = after_calls calls (while1 body (S (length conn')) conn').
Proof.
  intros Hs E.
  pose proof (Hs _ _ _ E) as Hlt.
  destruct (while1_returns body Hs (S (length conn')) conn') as [r Hr]; [lia|].
  rewrite Hr.
  change (while1 body (S (length conn)) conn)
    with (match body conn with
          | Return ret cs c => Some (ret, cs, c)
          | Continue cs c => after_calls cs (while1 body (length conn) c)
          end).
  rewrite E.
  rewrite (while1_more_fuel body _ (length conn) conn' r Hr) by lia.
  reflexivity.
Qed.

Lemma extract_to_terminator_shrinks (conn buf conn' : conn_info) (c : ascii) :
  extract_to_terminator conn c = Some (buf, conn') ->
  (length conn' < length conn)%nat.
Proof.
  unfold extract_to_terminator. destruct (memchr conn c) as [i|] eqn:E;
    [|discriminate].
  intros [= <- <-]. apply memchr_lt in E. rewrite length_skipn. lia.
Qed.

Lemma ascii_iteration_shrinking (cfg : statsite_config) :
  shrinking (ascii_iteration cfg).
Proof.
  intros conn calls conn'. unfold ascii_iteration.
  destruct (extract_to_terminator conn LF) as [[buf c1]|] eqn:E; [|discriminate].
  destruct (handle_ascii_line cfg buf) as [[] cs]; [|discriminate].
  intros [= <- <-]. eapply extract_to_terminator_shrinks; eassumption.
Qed.

Lemma read_client_bytes_some (conn cmd conn' : conn_info) (n : nat) :
  read_client_bytes conn n = Some (cmd, conn') ->
  (n <= length conn)%nat /\ cmd = firstn n conn /\ conn' = skipn n conn.
Proof.
  unfold read_client_bytes. destruct (Nat.leb n (length conn)) eqn:E;
    [|discriminate].
  apply Nat.leb_le in E. intros [= <- <-]. auto.
Qed.

Lemma binary_iteration_shrinking (cfg : statsite_config) :
  shrinking (binary_iteration cfg).
Proof.
  intros conn calls conn'. unfold binary_iteration.
  destruct (peek_client_bytes conn MIN_BINARY_HEADER_SIZE) as [cmd|];
    [|discriminate].
  destruct (negb _); [discriminate|].
  destruct (convert_bin_type _) as [type| |]; [| |discriminate].
  - destruct (read_client_bytes conn _) as [[cmd' c1]|] eqn:E; [|discriminate].
    apply read_client_bytes_some in E as (Hle & _ & ->).
    destruct (negb _); [discriminate|]. intros [= <- <-].
    rewrite length_skipn. unfold MAX_BINARY_HEADER_SIZE in *. lia.
  - unfold handle_binary_set.
    destruct (read_client_bytes conn _) as [[cmd' c1]|] eqn:E.
    + apply read_client_bytes_some in E as (Hle & _ & ->).
      assert (length (skipn (MIN_BINARY_HEADER_SIZE
                + (Z.to_nat (le_u16 cmd 2) + Z.to_nat (le_u16 cmd 4))) conn)
              < length conn)%nat
        by (rewrite length_skipn; unfold MIN_BINARY_HEADER_SIZE in *; lia).
      repeat (destruct (negb _); simpl; try discriminate);
        intros [= <- <-]; assumption.
    + simpl. discriminate.
Qed.

Lemma handle_ascii_client_connect_returns (cfg : statsite_config)
  (conn : conn_info) :
  exists r, handle_ascii_client_connect cfg conn = Some r.
Proof.
  apply while1_returns; [apply ascii_iteration_shrinking | lia].
Qed.

Lemma handle_binary_client_connect_returns (cfg : statsite_config)
  (conn : conn_info) :
  exists r, handle_binary_client_connect cfg conn = Some r.
Proof.
  apply while1_returns; [apply binary_iteration_shrinking | lia].
Qed.

Lemma handle_client_connect_returns (cfg : statsite_config) (conn : conn_info) :
  exists r, handle_client_connect cfg conn = Some r.
Proof.
  unfold handle_client_connect. destruct (peek_client_byte conn) as [magic|].
  - destruct (mode_of_byte magic);
      [apply handle_binary_client_connect_returns
      |apply handle_ascii_client_connect_returns].
  - eauto.
Qed.

(** ** Counter samples on the text protocol *)

Lemma absent_not_in (c : ascii) (l : list ascii) :
  absent c l = true -> ~ In c l.
Proof.
  unfold absent. intros H Hin.
  induction l as [|b l IH]; simpl in *; [assumption|].
  destruct (ascii_eqb b c) eqn:E; [discriminate|].
  apply ascii_eqb_neq in E. destruct Hin as [->|Hin]; [congruence|].
  destruct (memchr l c); [discriminate|auto].
Qed.

Lemma run_calls {M : Type} (fresh : M) (apply : M -> metrics_call -> M)
  (calls : list metrics_call) (d : daemon M) (m : M) :
  GLOBAL_METRICS d = Some m ->
  run fresh apply d (map Call calls)
  = {| GLOBAL_METRICS := Some (fold_left apply calls m);
       detached := detached d; joined := joined d |}.
Proof.
  unfold run. revert d m.
  induction calls as [|c calls IH]; intros d m Hm; cbn [map fold_left step].
  - destruct d; simpl in *; congruence.
  - assert (Hc : call_metrics apply d c
                 = {| GLOBAL_METRICS := Some (apply m c);
                      detached := detached d; joined := joined d |})
      by (unfold call_metrics; rewrite Hm; reflexivity).
    rewrite Hc. rewrite (IH _ (apply m c)) by reflexivity. reflexivity.
Qed.

Lemma handle_ascii_line_counter (cfg : statsite_config) (name : list ascii)
  (s : counter_text) :
  well_formed_name name = true -> parses_as_counter s = true ->
  handle_ascii_line cfg (counter_line name s)
  = (END_LOOP,
     count_input cfg ++ [metrics_add_sample COUNTER (c_str name) (scaled_value s)]).
Proof.
  unfold well_formed_name, parses_as_counter, reads_number.
  intros Hn Hs.
  apply andb_prop in Hn as [Hn1 Hn2].
  apply andb_prop in Hs as [Hs Hr]. apply andb_prop in Hs as [Hs Hv3].
  apply andb_prop in Hs as [Hv1 Hv2].
  apply negb_true_iff in Hv3.
  unfold handle_ascii_line, counter_line.
  rewrite buffer_after_terminator_first by (apply absent_not_in; assumption).
  rewrite buffer_after_terminator_first by (apply absent_not_in; assumption).
  cbn [hd]. change (convert_type "c" (value_text s)) with (Some (COUNTER, value_text s)).
  cbn [metric_type_eqb].
  unfold scaled_value, sample_value.
  destruct (str2double (value_text s)) as [val consumed] eqn:Ev.
  cbn [snd fst] in *. rewrite Hv3.
  unfold counter_sampling. cbn [metric_type_eqb].
  destruct (rate_text s) as [[sep rate]|].
  - apply andb_prop in Hr as [Hr Hr4]. apply andb_prop in Hr as [Hr Hr3].
    apply andb_prop in Hr as [Hr1 Hr2]. apply negb_true_iff in Hr4.
    change ("c"%char :: sep ++ "@"%char :: rate)
      with (("c"%char :: sep) ++ "@"%char :: rate).
    rewrite (buffer_after_terminator_first ("c"%char :: sep) rate "@").
    + destruct (str2double rate) as [r k] eqn:Er. cbn [snd fst] in *.
      rewrite Hr4. change (in_unit_interval r) with (rate_applies r).
      destruct (rate_applies r); reflexivity.
    + apply absent_not_in in Hr1. intros [E|E]; [discriminate|auto].
  - reflexivity.
Qed.

Lemma absent_cons (c b : ascii) (l : list ascii) :
  absent c (b :: l) = negb (ascii_eqb b c) && absent c l.
Proof.
  unfold absent. simpl. destruct (ascii_eqb b c); simpl; [reflexivity|].
  destruct (memchr l c); reflexivity.
Qed.

Lemma absent_app (c : ascii) (l k : list ascii) :
  absent c (l ++ k) = absent c l && absent c k.
Proof.
  induction l as [|b l IH]; [reflexivity|].
  change ((b :: l) ++ k) with (b :: (l ++ k)).
  rewrite !absent_cons, IH. apply andb_assoc.
Qed.

Lemma counter_line_one_line (name : list ascii) (s : counter_text) :
  well_formed_name name = true -> parses_as_counter s = true ->
  absent LF (counter_line name s) = true.
Proof.
  unfold well_formed_name, parses_as_counter, counter_line.
  intros Hn Hs.
  apply andb_prop in Hn as [_ Hn].
  apply andb_prop in Hs as [Hs Hr]. apply andb_prop in Hs as [Hs _].
  apply andb_prop in Hs as [_ Hv].
  rewrite absent_app, absent_cons, absent_app, !absent_cons, Hn, Hv.
  destruct (rate_text s) as [[sep rate]|].
  - apply andb_prop in Hr as [Hr _]. apply andb_prop in Hr as [Hr Hr3].
    apply andb_prop in Hr as [_ Hr2].
    rewrite absent_app, absent_cons, Hr2, Hr3. reflexivity.
  - reflexivity.
Qed.

(** A complete line that the text parser accepts is consumed with its
    terminator, and the loop goes on with what follows. *)
Lemma handle_ascii_client_connect_line (cfg : statsite_config)
  (line rest : list ascii) (calls : list metrics_call) :
  absent LF line = true ->
  handle_ascii_line cfg line = (END_LOOP, calls) ->
  handle_ascii_client_connect cfg (line ++ LF :: rest)
  = after_calls calls (handle_ascii_client_connect cfg rest).
Proof.
  intros Hl Hc. unfold handle_ascii_client_connect.
  apply while1_continue; [apply ascii_iteration_shrinking|].
  unfold ascii_iteration.
  rewrite extract_to_terminator_first by (apply absent_not_in; assumption).
  rewrite Hc. reflexivity.
Qed.

(** A line that the text parser rejects is consumed and ends the loop with
    -1, whatever follows it. *)
Lemma handle_ascii_client_connect_error (cfg : statsite_config)
  (line rest : list ascii) (calls : list metrics_call) :
  absent LF line = true ->
  handle_ascii_line cfg line = (ERR_RET, calls) ->
  handle_ascii_client_connect cfg (line ++ LF :: rest) = Some (-1, calls, rest).
Proof.
  intros Hl Hc. unfold handle_ascii_client_connect.
  cbn [while1]. unfold ascii_iteration.
  rewrite extract_to_terminator_first by (apply absent_not_in; assumption).
  rewrite Hc. reflexivity.
Qed.

Lemma add_sample_other (m : metrics) (type : metric_type)
  (name other : list ascii) (val : float) :
  other <> name -> add_sample m type other val !! name = m !! name.
Proof.
  intros Hne. unfold add_sample.
  destruct type, (m !! other) as [[]|]; try reflexivity;
    apply lookup_insert_ne; assumption.
Qed.

Lemma add_sample_counter (m : metrics) (name : list ascii) (c : counter)
  (val : float) :
  counter_at m name c ->
  add_sample m COUNTER name val !! name
  = Some (CounterAcc (counter_add_sample c val)).
Proof.
  intros [c' H|H]; unfold add_sample; rewrite H; apply lookup_insert_eq.
Qed.

Lemma handle_ascii_client_connect_counters (cfg : statsite_config)
  (name : list ascii) (samples : list counter_text) :
  well_formed_name name = true ->
  forallb parses_as_counter samples = true ->
  handle_ascii_client_connect cfg (counter_stream name samples)
  = Some (0, counter_calls cfg name samples, []).
Proof.
  intros Hn. induction samples as [|s samples IH]; intros Hs.
  - reflexivity.
  - cbn [forallb] in Hs. apply andb_prop in Hs as [Hs Hss].
    cbn [counter_stream counter_calls flat_map].
    rewrite <- app_assoc. cbn [app].
    rewrite (handle_ascii_client_connect_line cfg _ _
               (count_input cfg
                  ++ [metrics_add_sample COUNTER (c_str name) (scaled_value s)])).
    + fold (counter_stream name samples). rewrite (IH Hss). reflexivity.
    + apply counter_line_one_line; assumption.
    + apply handle_ascii_line_counter; assumption.
Qed.

Lemma count_input_apart (cfg : statsite_config) (name : list ascii)
  (m : metrics) :
  input_counter_apart cfg name = true ->
  fold_left apply_call (count_input cfg) m !! c_str name = m !! c_str name.
Proof.
  unfold input_counter_apart, count_input.
  destruct (input_counter cfg) as [ic|]; [|reflexivity].
  intros H. apply negb_true_iff, bool_decide_eq_false in H.
  cbn [fold_left apply_call]. apply add_sample_other. assumption.
Qed.

(** One sample of the stream: the registry stores the counter with the
    sample added. *)
Lemma counter_call_stored (cfg : statsite_config) (name : list ascii)
  (s : counter_text) (m : metrics) (c : counter) :
  input_counter_apart cfg name = true ->
  counter_at m (c_str name) c ->
  fold_left apply_call
    (count_input cfg ++ [metrics_add_sample COUNTER (c_str name) (scaled_value s)])
    m !! c_str name
  = Some (CounterAcc (counter_add_sample c (scaled_value s))).
Proof.
  intros Hic Hc. rewrite fold_left_app. cbn [fold_left apply_call].
  apply add_sample_counter. destruct Hc as [c H|H].
  - apply counter_at_stored. rewrite count_input_apart; assumption.
  - apply counter_at_absent. rewrite count_input_apart; assumption.
Qed.

Lemma counter_calls_stored (cfg : statsite_config) (name : list ascii) :
  input_counter_apart cfg name = true ->
  forall (samples : list counter_text) (m : metrics) (c : counter),
    (0 < length samples)%nat ->
    counter_at m (c_str name) c ->
    fold_left apply_call (counter_calls cfg name samples) m !! c_str name
    = Some (CounterAcc
              (fold_left counter_add_sample (map scaled_value samples) c)).
Proof.
  intros Hic. induction samples as [|s samples IH]; intros m c Hlen Hc.
  - simpl in Hlen. lia.
  - cbn [counter_calls flat_map map fold_left].
    rewrite fold_left_app. fold (counter_calls cfg name samples).
    pose proof (counter_call_stored cfg name s m c Hic Hc) as H1.
    destruct samples as [|s' samples'].
    + exact H1.
    + apply IH; [simpl; lia|]. apply counter_at_stored. exact H1.
Qed.

Lemma counter_sum_fold (vals : list float) (c : counter) :
  counter_sum (fold_left counter_add_sample vals c)
  = fold_left PrimFloat.add vals (counter_sum c)
  /\ counter_count (fold_left counter_add_sample vals c)
     = (counter_count c + N.of_nat (length vals))%N.
Proof.
  revert c. induction vals as [|v vals IH]; intros c.
  - cbn. split; [reflexivity|lia].
  - cbn [fold_left length]. destruct (IH (counter_add_sample c v)) as [-> ->].
    cbn [counter_add_sample counter_sum counter_count]. split; [reflexivity|lia].
Qed.

Lemma well_formed_counters_parse (samples : list counter_text) :
  forallb well_formed_counter samples = true ->
  forallb parses_as_counter samples = true.
Proof.
  induction samples as [|s samples IH]; [reflexivity|].
  cbn [forallb]. intros H. apply andb_prop in H as [Hs H].
  unfold well_formed_counter in Hs. apply andb_prop in Hs as [Hs _].
  rewrite Hs, (IH H). reflexivity.
Qed.

(** C1 (amended).  Counter additivity.  A stream of [n] well-formed text
    counter samples for one name, the input counter (if one is configured)
    being another metric, is consumed whole by the text parser, which
    ingests one counter sample per line: a rate in (0, 1] has the value
    multiplied by [1 / rate], in binary64, and any other rate leaves the
    value as it is.  After a rotation the retired registry holds for the
    name a counter whose sum is the binary64 sum of these values
    [v * (1 / r)] and whose count is [n], and the text formatter writes for
    it the line of the name, that sum with six decimals, and the seconds of
    the rotation. *)
Theorem C1_counter_additivity (cfg : statsite_config) (name : list ascii)
  (samples : list counter_text) (tv_sec : Z) :
  well_formed_name name = true ->
  forallb well_formed_counter samples = true ->
  input_counter_apart cfg name = true ->
  (0 < length samples)%nat ->
  handle_ascii_client_connect cfg (counter_stream name samples)
  = Some (0, counter_calls cfg name samples, [])
  /\ exists (m : metrics) (c : counter),
       detached (run init_metrics apply_call (init_conn_handler init_metrics)
                   (map Call (counter_calls cfg name samples) ++ [Rotate]))
       = [Some m]
       /\ m !! c_str name = Some (CounterAcc c)
       /\ counter_sum c
          = fold_left PrimFloat.add (map scaled_value samples) 0%float
       /\ counter_count c = N.of_nat (length samples)
       /\ stream_formatter tv_sec COUNTER name (counter_sum c)
          = (0,
             c_str name
               ++ "|"%char
                  :: printf_f 6
                       (fold_left PrimFloat.add (map scaled_value samples)
                          0%float)
               ++ "|"%char :: printf_lld tv_sec ++ [LF]).
Proof.
  intros Hn Hs Hic Hlen. apply well_formed_counters_parse in Hs.
  split; [apply handle_ascii_client_connect_counters; assumption|].
  exists (fold_left apply_call (counter_calls cfg name samples) init_metrics),
         (fold_left counter_add_sample (map scaled_value samples) init_counter).
  split.
  { unfold run. rewrite fold_left_app.
    fold (run init_metrics apply_call (init_conn_handler init_metrics)
            (map Call (counter_calls cfg name samples))).
    rewrite (run_calls init_metrics apply_call _ _ init_metrics) by reflexivity.
    reflexivity. }
  split.
  { apply counter_calls_stored; [assumption|assumption|].
    apply counter_at_absent. apply lookup_empty. }
  destruct (counter_sum_fold (map scaled_value samples) init_counter) as [-> ->].
  rewrite length_map. repeat split.
Qed.

(** C1, at the scenario S1: ["a:1|c\na:2|c\na:3|c@0.5\n"], then a rotation
    at the second 100: the samples 1, 2 and 6 are ingested, the sum is 9,
    the count 3, and the text record is ["a|9.000000|100"].  And on a stream
    whose rates are 2, 0, -0.5, 1 and 0.25: the first three are ignored,
    the values are 4, 5, 6, 8 and 4, the sum is 27 and the count 5. *)
Lemma C1_s1_text_counter :
  (handle_ascii_client_connect no_input_counter
     (bytes "a:1|c" ++ [LF] ++ bytes "a:2|c" ++ [LF] ++ bytes "a:3|c@0.5" ++ [LF])
   = Some (0, [metrics_add_sample COUNTER (bytes "a") 1%float;
               metrics_add_sample COUNTER (bytes "a") 2%float;
               metrics_add_sample COUNTER (bytes "a") 6%float], [])
   /\ exists (m : metrics) (c : counter),
        detached (run init_metrics apply_call (init_conn_handler init_metrics)
                    (map Call [metrics_add_sample COUNTER (bytes "a") 1%float;
                               metrics_add_sample COUNTER (bytes "a") 2%float;
                               metrics_add_sample COUNTER (bytes "a") 6%float]
                       ++ [Rotate]))
        = [Some m]
        /\ m !! bytes "a" = Some (CounterAcc c)
        /\ counter_sum c = 9%float
        /\ counter_count c = 3%N
        /\ stream_formatter 100 COUNTER (bytes "a") (counter_sum c)
           = (0, bytes "a|9.000000|100" ++ [LF]))
  /\ (handle_ascii_client_connect no_input_counter
        (bytes "a:4|c|@2" ++ [LF] ++ bytes "a:5|c|@0" ++ [LF]
           ++ bytes "a:6|c|@-0.5" ++ [LF] ++ bytes "a:8|c|@1" ++ [LF]
           ++ bytes "a:1|c|@0.25" ++ [LF])
      = Some (0, [metrics_add_sample COUNTER (bytes "a") 4%float;
                  metrics_add_sample COUNTER (bytes "a") 5%float;
                  metrics_add_sample COUNTER (bytes "a") 6%float;
                  metrics_add_sample COUNTER (bytes "a") 8%float;
                  metrics_add_sample COUNTER (bytes "a") 4%float], [])
      /\ exists (m : metrics) (c : counter),
           detached (run init_metrics apply_call
                       (init_conn_handler init_metrics)
                       (map Call
                          [metrics_add_sample COUNTER (bytes "a") 4%float;
                           metrics_add_sample COUNTER (bytes "a") 5%float;
                           metrics_add_sample COUNTER (bytes "a") 6%float;
                           metrics_add_sample COUNTER (bytes "a") 8%float;
                           metrics_add_sample COUNTER (bytes "a") 4%float]
                          ++ [Rotate]))
           = [Some m]
           /\ m !! bytes "a" = Some (CounterAcc c)
           /\ counter_sum c = 27%float
           /\ counter_count c = 5%N
           /\ stream_formatter 100 COUNTER (bytes "a") (counter_sum c)
              = (0, bytes "a|27.000000|100" ++ [LF])).
Proof.
  split.
  - exact (C1_counter_additivity no_input_counter (bytes "a")
             [ {| value_text := bytes "1"; rate_text := None |};
               {| value_text := bytes "2"; rate_text := None |};
               {| value_text := bytes "3";
                  rate_text := Some ([], bytes "0.5") |} ]
             100 eq_refl eq_refl eq_refl (Nat.lt_0_succ 2)).
  - exact (C1_counter_additivity no_input_counter (bytes "a")
             [ {| value_text := bytes "4";
                  rate_text := Some (bytes "|", bytes "2") |};
               {| value_text := bytes "5";
                  rate_text := Some (bytes "|", bytes "0") |};
               {| value_text := bytes "6";
                  rate_text := Some (bytes "|", bytes "-0.5") |};
               {| value_text := bytes "8";
                  rate_text := Some (bytes "|", bytes "1") |};
               {| value_text := bytes "1";
                  rate_text := Some (bytes "|", bytes "0.25") |} ]
             100 eq_refl eq_refl eq_refl (Nat.lt_0_succ 4)).
Defined.

(** C1, as first stated, fails.  With the input counter configured under
    the name of the counter itself, each line adds the count of the input
    and the sample to the same counter: the stream ["a:5|c\na:7|c\n"]
    reports the sum 14 and the count 4, where the samples have the sum 12
    and the count 2.  And the value is multiplied by the double [1 / rate],
    which is not always the value divided by the rate: ["a:7|c@0.07"] is
    ingested as 100, where 7 divided by the rate is 99.999999999999986. *)
Lemma C1_input_counter_is_the_counter :
  let cfg := {| input_counter := Some (bytes "a"); binary_stream := false |} in
  let calls :=
    [metrics_add_sample COUNTER (bytes "a") 1%float;
     metrics_add_sample COUNTER (bytes "a") 5%float;
     metrics_add_sample COUNTER (bytes "a") 1%float;
     metrics_add_sample COUNTER (bytes "a") 7%float] in
  handle_ascii_client_connect cfg (bytes "a:5|c" ++ [LF] ++ bytes "a:7|c" ++ [LF])
  = Some (0, calls, [])
  /\ match ingest init_metrics apply_call calls !! bytes "a" with
     | Some (CounterAcc c) => counter_sum c = 14%float /\ counter_count c = 4%N
     | _ => False
     end
  /\ handle_ascii_client_connect no_input_counter (bytes "a:7|c@0.07" ++ [LF])
     = Some (0, [metrics_add_sample COUNTER (bytes "a") 100%float], [])
  /\ PrimFloat.eqb (7 / fst (str2double (bytes "0.07"))) 100 = false
  /\ PrimFloat.eqb (7 / fst (str2double (bytes "0.07")))
       0x1.8ffffffffffffp+6 = true.
Proof.
  cbv zeta. split; [vm_compute; reflexivity|].
  split; [vm_compute; split; reflexivity|].
  repeat split; vm_compute; reflexivity.
Qed.

(** The text formatter on a gauge, a set and a timer with a histogram of
    four bins. *)
Example stream_formatter_lines :
  stream_formatter 100 GAUGE (bytes "g") 42%float
  = (0, bytes "g|42.000000|100" ++ [LF])
  /\ stream_formatter 100 SET (bytes "u") 1 = (0, bytes "u|1|100" ++ [LF])
  /\ stream_formatter 100 TIMER (bytes "t")
       ({| tm := {| m_sum := 3; m_squared_sum := 5; m_mean := 1.5;
                    m_count := 2; m_stddev := 0.5; m_min := 1; m_max := 2 |};
           timer_query := fun quantile => quantile;
           conf := Some {| min_val := 0; max_val := 10; bin_width := 5;
                           num_bins := 4 |};
           counts := [1; 2; 3; 4] |}, 2)
     = (0,
        flat_map (fun line => bytes line ++ [LF])
          [ "timers.t.sum|3.000000|100"; "timers.t.sum_sq|5.000000|100";
            "timers.t.mean|1.500000|100"; "timers.t.lower|1.000000|100";
            "timers.t.upper|2.000000|100"; "timers.t.count|2|100";
            "timers.t.stdev|0.500000|100"; "timers.t.median|0.500000|100";
            "timers.t.upper_90|0.900000|100"; "timers.t.upper_95|0.950000|100";
            "timers.t.upper_99|0.990000|100"; "t.histogram.bin_<0.00|1|100";
            "t.histogram.bin_0.00|2|100"; "t.histogram.bin_5.00|3|100";
            "t.histogram.bin_>10.00|4|100" ]%string).
Proof. repeat split; vm_compute; reflexivity. Qed.

(** A rate outside (0, 1] is ignored, and a rate that is no number is an
    error. *)
Example line_counter_rate_ignored :
  handle_ascii_line no_input_counter (bytes "a:3|c|@2")
  = (END_LOOP, [metrics_add_sample COUNTER (bytes "a") 3%float])
  /\ handle_ascii_line no_input_counter (bytes "a:3|c|@-0.5")
     = (END_LOOP, [metrics_add_sample COUNTER (bytes "a") 3%float])
  /\ handle_ascii_line no_input_counter (bytes "a:3|c|@x")
     = (ERR_RET, []).
Proof. repeat split; vm_compute; reflexivity. Qed.

(** ** Gauges on the text protocol *)

Lemma handle_ascii_line_split (cfg : statsite_config)
  (name value type_str : list ascii) :
  absent ":" name = true -> absent "|" value = true ->
  handle_ascii_line cfg (name ++ ":"%char :: value ++ "|"%char :: type_str)
  = match convert_type (hd NUL type_str) value with
    | None => (ERR_RET, [])
    | Some (type, val_str) =>
        if metric_type_eqb type SET
        then (END_LOOP,
              count_input cfg ++ [metrics_set_update (c_str name) (c_str val_str)])
        else
          let '(val, consumed) := str2double val_str in
          if Nat.eqb consumed 0 then (ERR_RET, count_input cfg)
          else match counter_sampling type type_str val with
               | None => (ERR_RET, count_input cfg)
               | Some val =>
                   (END_LOOP,
                    count_input cfg ++ [metrics_add_sample type (c_str name) val])
               end
    end.
Proof.
  intros Hn Hv. unfold handle_ascii_line.
  rewrite buffer_after_terminator_first by (apply absent_not_in; assumption).
  rewrite buffer_after_terminator_first by (apply absent_not_in; assumption).
  reflexivity.
Qed.

Lemma ingested_plain (cfg : statsite_config) (type : metric_type)
  (name text type_str : list ascii) :
  metric_type_eqb type SET = false ->
  metric_type_eqb type COUNTER = false ->
  (let '(val, consumed) := str2double text in
   if Nat.eqb consumed 0 then (ERR_RET, count_input cfg)
   else match counter_sampling type type_str val with
        | None => (ERR_RET, count_input cfg)
        | Some val =>
            (END_LOOP,
             count_input cfg ++ [metrics_add_sample type (c_str name) val])
        end)
  = ingested cfg type name text (fun v => v).
Proof.
  intros _ Hc. unfold ingested, reads_number, counter_sampling. rewrite Hc.
  destruct (str2double text) as [val consumed]. cbn [fst snd].
  destruct (Nat.eqb consumed 0); reflexivity.
Qed.

(** C2 (amended).  A text record whose type letter is ['g']: a leading
    ['+'] of the value is stepped over and a leading ['-'] is kept, and in
    both cases the sample is ingested with type [GAUGE_DELTA]; any other
    value is ingested with type [GAUGE]. *)
Theorem C2_gauge_sign_is_delta (cfg : statsite_config)
  (name value rest : list ascii) :
  absent ":" name = true -> absent "|" value = true ->
  (forall v, value = "+"%char :: v ->
     handle_ascii_line cfg (text_line name value ("g"%char :: rest))
     = ingested cfg GAUGE_DELTA name v (fun x => x))
  /\ (forall v, value = "-"%char :: v ->
     handle_ascii_line cfg (text_line name value ("g"%char :: rest))
     = ingested cfg GAUGE_DELTA name ("-"%char :: v) (fun x => x))
  /\ (hd NUL value <> "+"%char -> hd NUL value <> "-"%char ->
     handle_ascii_line cfg (text_line name value ("g"%char :: rest))
     = ingested cfg GAUGE name value (fun x => x)).
Proof.
  intros Hn Hv. unfold text_line.
  rewrite handle_ascii_line_split by assumption. cbn [hd].
  change (convert_type "g" value)
    with (if ascii_eqb (hd NUL value) "+" then Some (GAUGE_DELTA, tl value)
          else if ascii_eqb (hd NUL value) "-" then Some (GAUGE_DELTA, value)
          else Some (GAUGE, value)).
  split; [|split].
  - intros v ->. cbn [hd tl]. rewrite ascii_eqb_refl. cbn [metric_type_eqb].
    apply ingested_plain; reflexivity.
  - intros v ->. cbn [hd tl]. rewrite ascii_eqb_refl.
    change (ascii_eqb "-" "+") with false. cbn [metric_type_eqb].
    apply ingested_plain; reflexivity.
  - intros Hp Hm. apply ascii_eqb_neq in Hp, Hm. rewrite Hp, Hm.
    cbn [metric_type_eqb]. apply ingested_plain; reflexivity.
Qed.

(** C2, at the scenario S6 and at the samples of the gauge property: ["g:+5|g"] and
    ["x:-2|g"] are deltas, ["x:7|g"] is a plain gauge. *)
Lemma C2_gauge_lines :
  handle_ascii_line no_input_counter (bytes "g:+5|g")
  = (END_LOOP, [metrics_add_sample GAUGE_DELTA (bytes "g") 5%float])
  /\ handle_ascii_line no_input_counter (bytes "x:-2|g")
     = (END_LOOP, [metrics_add_sample GAUGE_DELTA (bytes "x") (-2)%float])
  /\ handle_ascii_line no_input_counter (bytes "x:7|g")
     = (END_LOOP, [metrics_add_sample GAUGE (bytes "x") 7%float]).
Proof.
  destruct (C2_gauge_sign_is_delta no_input_counter (bytes "g") (bytes "+5") []
              eq_refl eq_refl) as (Hplus & _ & _).
  destruct (C2_gauge_sign_is_delta no_input_counter (bytes "x") (bytes "-2") []
              eq_refl eq_refl) as (_ & Hminus & _).
  destruct (C2_gauge_sign_is_delta no_input_counter (bytes "x") (bytes "7") []
              eq_refl eq_refl) as (_ & _ & Hplain).
  split; [|split].
  - exact (Hplus (bytes "5") eq_refl).
  - exact (Hminus (bytes "2") eq_refl).
  - refine (Hplain _ _); discriminate.
Defined.

(** C2, as first stated, fails: the value of ["x:+7|g"] loses its ['+'], but
    the sample is ingested as a [GAUGE_DELTA], not as a [GAUGE]. *)
Lemma C2_plus_sign_not_a_plain_gauge :
  handle_ascii_line no_input_counter (bytes "x:+7|g")
  = (END_LOOP, [metrics_add_sample GAUGE_DELTA (bytes "x") 7%float])
  /\ handle_ascii_line no_input_counter (bytes "x:+7|g")
     <> (END_LOOP, [metrics_add_sample GAUGE (bytes "x") 7%float]).
Proof.
  split; [vm_compute; reflexivity|].
  intros H. vm_compute in H. discriminate H.
Qed.

(** In the registry of the specification a delta is added to the stored
    gauge and a plain gauge replaces it: after ["x:5|g"], the line
    ["x:+7|g"] leaves 12, and the samples of the gauge property leave 5, 1
    and 3. *)
Example gauge_registry_values :
  let after (stream : conn_info) (name : list ascii) :=
    match handle_ascii_client_connect no_input_counter stream with
    | Some (_, calls, _) => gauge_value (fold_left apply_call calls init_metrics) name
    | None => None
    end in
  after (bytes "x:5|g" ++ [LF] ++ bytes "x:+7|g" ++ [LF]) (bytes "x")
  = Some 12%float
  /\ after (bytes "x:5|g" ++ [LF] ++ bytes "x:7|g" ++ [LF] ++ bytes "x:-2|g" ++ [LF])
       (bytes "x") = Some 5%float
  /\ after (bytes "x:5|g" ++ [LF] ++ bytes "x:-2|g" ++ [LF] ++ bytes "x:-2|g" ++ [LF])
       (bytes "x") = Some 1%float
  /\ after (bytes "x:+3|g" ++ [LF]) (bytes "x") = Some 3%float.
Proof. repeat split; vm_compute; reflexivity. Qed.

(** ** Rotation *)

Section Rotation.

Context {M : Type}.
Variable fresh : M.
Variable apply : M -> metrics_call -> M.

Lemma run_app (d : daemon M) (t1 t2 : list event) :
  run fresh apply d (t1 ++ t2) = run fresh apply (run fresh apply d t1) t2.
Proof. unfold run. apply fold_left_app. Qed.

Lemma run_epochs (epochs : list (list metrics_call)) :
  forall d : daemon M,
    GLOBAL_METRICS d = Some fresh ->
    run fresh apply d
      (flat_map (fun samples => map Call samples ++ [Rotate]) epochs)
    = {| GLOBAL_METRICS := Some fresh;
         detached := detached d
                     ++ map (fun samples => Some (ingest fresh apply samples)) epochs;
         joined := joined d |}.
Proof.
  induction epochs as [|samples epochs IH]; intros d Hd.
  - cbn. rewrite app_nil_r. destruct d; simpl in *; congruence.
  - cbn [flat_map map]. rewrite !run_app.
    rewrite (run_calls fresh apply samples d fresh Hd).
    cbn [run fold_left step]. fold (run fresh apply).
    unfold flush_interval_trigger at 1. cbn [GLOBAL_METRICS detached joined].
    rewrite IH by reflexivity. cbn [GLOBAL_METRICS detached joined].
    rewrite <- app_assoc. reflexivity.
Qed.

(** C3.  Epoch isolation.  Let samples and rotations happen one after the
    other, in any number and order: [epochs] lists, for each rotation, the
    samples added since the rotation before it, and [current] the samples
    added after the last one.  Then the registry retired by the k-th
    rotation holds exactly the samples of the k-th epoch, in order, and the
    current registry exactly the samples added since: every sample is in
    the output of the first rotation that follows it and in no other. *)
Theorem C3_epoch_isolation (epochs : list (list metrics_call))
  (current : list metrics_call) :
  run fresh apply (init_conn_handler fresh) (epoch_trace epochs current)
  = {| GLOBAL_METRICS := Some (ingest fresh apply current);
       detached := map (fun samples => Some (ingest fresh apply samples)) epochs;
       joined := [] |}.
Proof.
  unfold epoch_trace. rewrite run_app.
  rewrite run_epochs by reflexivity.
  rewrite (run_calls fresh apply current _ fresh) by reflexivity.
  reflexivity.
Qed.


End Rotation.


(** ** The input counter *)

(** C5 (the source departs from it).  With an input counter
    configured, the text line ["a:x|c"], whose value is no number, is
    rejected with -1, and yet the input counter has been incremented for
    it; the binary parser, on a record it rejects, increments nothing. *)
Theorem C5_rejected_line_is_counted :
  handle_client_connect counting_inputs (bytes "a:x|c" ++ [LF])
  = Some (-1, [metrics_add_sample COUNTER (bytes "in") 1%float], [])
  /\ handle_client_connect counting_inputs (bytes "a:1|c@x" ++ [LF])
     = Some (-1, [metrics_add_sample COUNTER (bytes "in") 1%float], [])
  /\ handle_client_connect counting_inputs
       (map byte_of [170; 5; 2; 0; 0; 0; 0; 0; 0; 0; 69; 64; 103; 1])
     = Some (-1, [], []).
Proof. repeat split; vm_compute; reflexivity. Qed.

(** ** The connection driver *)


Lemma peek_client_bytes_enough (conn : conn_info) (n : nat) :
  (n <= length conn)%nat -> peek_client_bytes conn n = Some (firstn n conn).
Proof.
  intros H. unfold peek_client_bytes. apply Nat.leb_le in H. rewrite H.
  reflexivity.
Qed.

Lemma nth_firstn_below (l : list ascii) (i n : nat) :
  (i < n)%nat -> nth i (firstn n l) NUL = nth i l NUL.
Proof.
  revert i n. induction l as [|b l IH]; intros i n Hlt.
  - rewrite firstn_nil. reflexivity.
  - destruct n as [|n]; [lia|]. destruct i as [|i]; [reflexivity|].
    cbn [firstn nth]. apply IH. lia.
Qed.

Lemma byte_at_firstn (l : list ascii) (i n : nat) :
  (i < n)%nat -> byte_at (firstn n l) i = byte_at l i.
Proof. intros H. unfold byte_at. rewrite nth_firstn_below by assumption. reflexivity. Qed.

(** C6 (amended).  At each invocation the driver goes to the parser that
    the first buffered byte selects (0xAA the binary one, any other byte
    the text one), and that parser is kept until the invocation returns:
    the text parser reads every further complete line as text, whatever its
    first byte, and the binary parser takes a further command that does not
    start with 0xAA for an error.  Nothing is kept from one invocation to
    the next. *)
Theorem C6_mode_chosen_at_each_invocation (cfg : statsite_config) :
  (forall (magic : ascii) (rest : conn_info),
      handle_client_connect cfg (magic :: rest)
      = if Z.eqb (byte_val magic) 170
        then handle_binary_client_connect cfg (magic :: rest)
        else handle_ascii_client_connect cfg (magic :: rest))
  /\ (forall (line rest : list ascii) (calls : list metrics_call),
         absent LF line = true ->
         handle_ascii_line cfg line = (END_LOOP, calls) ->
         handle_ascii_client_connect cfg (line ++ LF :: rest)
         = after_calls calls (handle_ascii_client_connect cfg rest))
  /\ (forall conn : conn_info,
         (MIN_BINARY_HEADER_SIZE <= length conn)%nat ->
         byte_at conn 0 <> 170 ->
         handle_binary_client_connect cfg conn = Some (-1, [], conn))
  /\ (forall (buffered chunk : list ascii) (more : list (list ascii))
             (magic : ascii) (rest : conn_info),
         buffered ++ chunk = magic :: rest ->
         exists ret calls conn',
           handle_client_connect cfg (magic :: rest) = Some (ret, calls, conn')
           /\ conn_run cfg buffered (chunk :: more)
              = (mode_of_byte magic, ret, calls)
                  :: (if Z.eqb ret 0 then conn_run cfg conn' more else [])).
Proof.
  split; [|split; [|split]].
  - intros magic rest. unfold handle_client_connect, mode_of_byte.
    cbn [peek_client_byte]. fold BINARY_MAGIC_BYTE.
    destruct (Z.eqb (byte_val magic) BINARY_MAGIC_BYTE); reflexivity.
  - intros line rest calls. apply handle_ascii_client_connect_line.
  - intros conn Hlen Hmagic. unfold handle_binary_client_connect.
    cbn [while1]. unfold binary_iteration.
    rewrite peek_client_bytes_enough by assumption.
    rewrite byte_at_firstn by (unfold MIN_BINARY_HEADER_SIZE; lia).
    apply Z.eqb_neq in Hmagic. unfold BINARY_MAGIC_BYTE. rewrite Hmagic.
    reflexivity.
  - intros buffered chunk more magic rest E.
    destruct (handle_client_connect_returns cfg (magic :: rest))
      as [[[ret calls] conn'] Hr].
    exists ret, calls, conn'. split; [assumption|].
    cbn [conn_run]. rewrite E. cbn [peek_client_byte]. rewrite Hr. reflexivity.
Qed.

(** C6, at a connection that sends a text line and then the binary record
    of the scenario S3: the first invocation goes to the text parser, the
    second to the binary parser. *)
Lemma C6_text_then_binary :
  conn_run no_input_counter [] [bytes "a:1|c" ++ [LF]; s3_record]
  = [ (TextMode, 0, [metrics_add_sample COUNTER (bytes "a") 1%float]);
      (BinaryMode, 0, [metrics_add_sample GAUGE (bytes "g") 42%float]) ].
Proof.
  destruct (C6_mode_chosen_at_each_invocation no_input_counter)
    as (_ & _ & _ & Hrun).
  destruct (Hrun [] (bytes "a:1|c" ++ [LF]) [s3_record] "a"%char
              (bytes ":1|c" ++ [LF]) eq_refl) as (ret & calls & conn' & H1 & H2).
  rewrite H2. vm_compute in H1. injection H1 as <- <- <-.
  vm_compute. reflexivity.
Defined.

(** C6, as first stated, fails: a connection whose first byte selected the
    text parser has its later data handled by the binary parser. *)
Lemma C6_mode_is_not_fixed :
  ~ (forall (cfg : statsite_config) (arrivals : list (list ascii))
            (first later : parser_mode),
        hd_error (conn_modes cfg arrivals) = Some first ->
        In later (conn_modes cfg arrivals) -> later = first).
Proof.
  intros H.
  specialize (H no_input_counter [bytes "a:1|c" ++ [LF]; s3_record]
                TextMode BinaryMode).
  assert (E : conn_modes no_input_counter [bytes "a:1|c" ++ [LF]; s3_record]
              = [TextMode; BinaryMode]) by (vm_compute; reflexivity).
  rewrite E in H. specialize (H eq_refl (or_intror (or_introl eq_refl))).
  discriminate H.
Qed.

(** ** The binary parser *)

Lemma byte_val_zero (b : ascii) : byte_val b = 0 -> b = NUL.
Proof.
  unfold byte_val. intros H.
  assert (E : N_of_ascii b = 0%N) by lia.
  rewrite <- (ascii_N_embedding b), E. reflexivity.
Qed.

Lemma nth_skipn_at (l : list ascii) (a i : nat) :
  nth i (skipn a l) NUL = nth (a + i) l NUL.
Proof.
  revert a. induction l as [|x l IH]; intros a.
  - rewrite skipn_nil. destruct i, a; reflexivity.
  - destruct a as [|a]; [reflexivity|]. cbn [skipn Nat.add nth]. apply IH.
Qed.

Lemma c_str_firstn_nul (l : list ascii) :
  forall i n m : nat,
    (i < n)%nat -> (i < m)%nat -> nth i l NUL = NUL ->
    c_str (firstn n l) = c_str (firstn m l).
Proof.
  induction l as [|x l IH]; intros i n m Hn Hm Hnul.
  - rewrite !firstn_nil. reflexivity.
  - destruct n as [|n]; [lia|]. destruct m as [|m]; [lia|].
    cbn [firstn c_str]. destruct i as [|i].
    + cbn [nth] in Hnul. subst x. reflexivity.
    + destruct (ascii_eqb x NUL); [reflexivity|].
      f_equal. apply (IH i); [lia|lia|exact Hnul].
Qed.

Lemma c_str_cut (l : list ascii) (i m : nat) :
  (i < m)%nat -> nth i l NUL = NUL -> c_str l = c_str (firstn m l).
Proof.
  intros Hm Hnul.
  rewrite <- (firstn_all2 l (n := S (i + length l))) at 1 by lia.
  apply (c_str_firstn_nul l i); [lia|exact Hm|exact Hnul].
Qed.

(** A string of announced length [len] that ends in NUL within the command
    is read within the command. *)
Lemma c_str_in_command (conn : list ascii) (off len : nat) :
  (1 <= len)%nat -> byte_at conn (off + len - 1) = 0 ->
  c_str (skipn off conn) = c_str (firstn len (skipn off conn)).
Proof.
  intros Hlen Hnul. apply (c_str_cut _ (len - 1)); [lia|].
  rewrite nth_skipn_at. apply byte_val_zero.
  replace (off + (len - 1))%nat with (off + len - 1)%nat by lia. exact Hnul.
Qed.

Lemma firstn_skipn_firstn (l : list ascii) (a b n : nat) :
  (a + b <= n)%nat -> firstn b (skipn a (firstn n l)) = firstn b (skipn a l).
Proof.
  revert a n. induction l as [|x l IH]; intros a n Hle.
  - rewrite firstn_nil. reflexivity.
  - destruct a as [|a].
    + rewrite !skipn_O, firstn_firstn. f_equal. lia.
    + destruct n as [|n]; [lia|]. cbn [firstn skipn]. apply IH. lia.
Qed.

Lemma skipn_firstn_key (l : list ascii) (a b : nat) :
  skipn a (firstn (a + b) l) = firstn b (skipn a l).
Proof.
  revert a. induction l as [|x l IH]; intros a.
  - rewrite firstn_nil, !skipn_nil, firstn_nil. reflexivity.
  - destruct a as [|a]; [reflexivity|]. cbn [Nat.add firstn skipn]. apply IH.
Qed.

Lemma le_u16_firstn (l : list ascii) (off n : nat) :
  (off + 2 <= n)%nat -> le_u16 (firstn n l) off = le_u16 l off.
Proof.
  intros H. unfold le_u16. rewrite firstn_skipn_firstn by assumption.
  reflexivity.
Qed.


(** One iteration of the binary parser on a command that is not a set. *)
Lemma binary_iteration_sample (cfg : statsite_config) (conn : conn_info)
  (type : metric_type) (key_len : nat) :
  binary_preamble conn type key_len ->
  (1 <= key_len)%nat ->
  binary_iteration cfg conn
  = if Nat.ltb (length conn) (4 + 8 + key_len) then Return 0 [] conn
    else if negb (Z.eqb (byte_at conn (4 + 8 + key_len - 1)) 0)
    then Return (-1) [] (skipn (4 + 8 + key_len) conn)
    else Continue
           (count_input cfg
              ++ [metrics_add_sample type
                    (c_str (firstn key_len (skipn 12 conn)))
                    (double_of_bits (le_uint (firstn 8 (skipn 4 conn))))])
           (skipn (4 + 8 + key_len) conn).
Proof.
  intros (Hlen & Hmagic & Htype & Hkey) Hk. unfold binary_iteration.
  destruct (Nat.leb MIN_BINARY_HEADER_SIZE (length conn)) eqn:E6.
  - apply Nat.leb_le in E6. rewrite peek_client_bytes_enough by assumption.
    unfold MIN_BINARY_HEADER_SIZE in *.
    rewrite !byte_at_firstn by lia. rewrite Hmagic, Z.eqb_refl. cbn [negb].
    rewrite Htype. rewrite le_u16_firstn by lia. rewrite Hkey, Nat2Z.id.
    unfold read_client_bytes, MAX_BINARY_HEADER_SIZE.
    change (4 + 8 + key_len)%nat with (12 + key_len)%nat.
    destruct (Nat.leb (12 + key_len) (length conn)) eqn:En.
    + apply Nat.leb_le in En.
      assert (Hlt : Nat.ltb (length conn) (12 + key_len) = false)
        by (apply Nat.ltb_ge; lia).
      rewrite Hlt. rewrite byte_at_firstn by lia.
      destruct (negb (Z.eqb (byte_at conn (12 + key_len - 1)) 0)) eqn:E0;
        [reflexivity|].
      apply negb_false_iff, Z.eqb_eq in E0.
      unfold le_double. rewrite firstn_skipn_firstn by lia.
      rewrite (c_str_in_command conn 12 key_len Hk E0). reflexivity.
    + apply Nat.leb_gt in En.
      assert (Hlt : Nat.ltb (length conn) (12 + key_len) = true)
        by (apply Nat.ltb_lt; lia).
      rewrite Hlt. reflexivity.
  - apply Nat.leb_gt in E6. unfold peek_client_bytes. 
    apply Nat.leb_gt in E6. rewrite E6.
    apply Nat.leb_gt in E6. unfold MIN_BINARY_HEADER_SIZE in *.
    assert (Hlt : Nat.ltb (length conn) (4 + 8 + key_len) = true)
      by (apply Nat.ltb_lt; lia).
    rewrite Hlt. reflexivity.
Qed.

(** C7.  A binary command that is not a set, of key length [key_len] (at
    least 1), takes [4 + 8 + key_len] bytes.  With fewer bytes buffered the
    parser returns 0 and consumes nothing; with a last key byte that is not
    NUL it returns -1 and ingests nothing; otherwise it ingests one sample
    (after counting the input, if configured), whose key is the C string in
    the [key_len] bytes at offset 12 and whose value is the double stored
    little-endian in the 8 bytes at offset 4, and goes on with the bytes
    after the command. *)
Theorem C7_binary_sample_framing (cfg : statsite_config) (conn : conn_info)
  (type : metric_type) (key_len : nat) :
  binary_preamble conn type key_len ->
  (1 <= key_len)%nat ->
  ((length conn < 4 + 8 + key_len)%nat ->
     handle_binary_client_connect cfg conn = Some (0, [], conn))
  /\ ((4 + 8 + key_len <= length conn)%nat ->
      byte_at conn (4 + 8 + key_len - 1) <> 0 ->
      handle_binary_client_connect cfg conn
      = Some (-1, [], skipn (4 + 8 + key_len) conn))
  /\ ((4 + 8 + key_len <= length conn)%nat ->
      byte_at conn (4 + 8 + key_len - 1) = 0 ->
      handle_binary_client_connect cfg conn
      = after_calls
          (count_input cfg
             ++ [metrics_add_sample type
                   (c_str (firstn key_len (skipn 12 conn)))
                   (double_of_bits (le_uint (firstn 8 (skipn 4 conn))))])
          (handle_binary_client_connect cfg (skipn (4 + 8 + key_len) conn))).
Proof.
  intros Hpre Hk.
  pose proof (binary_iteration_sample cfg conn type key_len Hpre Hk) as Hit.
  split; [|split].
  - intros Hshort. apply Nat.ltb_lt in Hshort. rewrite Hshort in Hit.
    unfold handle_binary_client_connect. cbn [while1]. rewrite Hit. reflexivity.
  - intros Hlong Hnul. apply Nat.ltb_ge in Hlong. rewrite Hlong in Hit.
    apply Z.eqb_neq in Hnul. rewrite Hnul in Hit. cbn [negb] in Hit.
    unfold handle_binary_client_connect. cbn [while1]. rewrite Hit. reflexivity.
  - intros Hlong Hnul. apply Nat.ltb_ge in Hlong. rewrite Hlong in Hit.
    apply Z.eqb_eq in Hnul. rewrite Hnul in Hit. cbn [negb] in Hit.
    unfold handle_binary_client_connect.
    apply while1_continue; [apply binary_iteration_shrinking|exact Hit].
Qed.

(** C7, at the scenario S3: the gauge record is ingested as one sample of value
    42.0, and the same record without its last byte waits for more data. *)
Lemma C7_s3_binary_gauge :
  handle_binary_client_connect no_input_counter s3_record
  = Some (0, [metrics_add_sample GAUGE (bytes "g") 42%float], [])
  /\ handle_binary_client_connect no_input_counter (removelast s3_record)
     = Some (0, [], removelast s3_record).
Proof.
  assert (Hpre : binary_preamble s3_record GAUGE 2)
    by (repeat split; try (vm_compute; reflexivity); vm_compute; lia).
  assert (Hpre' : binary_preamble (removelast s3_record) GAUGE 2)
    by (repeat split; try (vm_compute; reflexivity); vm_compute; lia).
  destruct (C7_binary_sample_framing no_input_counter s3_record GAUGE 2 Hpre
              (Nat.le_succ_diag_r 1)) as (_ & _ & Hok).
  destruct (C7_binary_sample_framing no_input_counter (removelast s3_record)
              GAUGE 2 Hpre' (Nat.le_succ_diag_r 1)) as (Hshort & _ & _).
  split.
  - rewrite Hok; [vm_compute; reflexivity|vm_compute; lia|vm_compute; reflexivity].
  - apply Hshort. vm_compute. lia.
Defined.

(** C7, as first stated for every key length, fails at the key length 0.  A
    gauge record with [key_len = 0] has its [4 + 8 + 0] bytes buffered and
    no key byte that is not NUL, and it is a framing error all the same
    when its value is 42.0: at this length [*(key + key_len - 1)] is
    [cmd[11]], the last byte of the value.  With the value 0.0 the record is
    ingested, under a name that is not in the record: the one spelled by
    the bytes that follow it in the buffer, which stay buffered. *)
Lemma C7_key_length_zero :
  let gauge_42 := map byte_of [170; 5; 0; 0; 0; 0; 0; 0; 0; 0; 69; 64] in
  let gauge_0 := map byte_of [170; 5; 0; 0; 0; 0; 0; 0; 0; 0; 0; 0] in
  binary_preamble gauge_42 GAUGE 0
  /\ length gauge_42 = (4 + 8 + 0)%nat
  /\ le_double gauge_42 4 = 42%float
  /\ handle_binary_client_connect no_input_counter gauge_42
     = Some (-1, [], [])
  /\ binary_preamble (gauge_0 ++ bytes "x" ++ [NUL]) GAUGE 0
  /\ handle_binary_client_connect no_input_counter
       (gauge_0 ++ bytes "x" ++ [NUL])
     = Some (0, [metrics_add_sample GAUGE (bytes "x") 0%float],
             bytes "x" ++ [NUL]).
Proof.
  cbv zeta. unfold binary_preamble.
  repeat split; try (vm_compute; reflexivity); vm_compute; lia.
Qed.

(** ** Reading numbers *)

Lemma scan_digits_steps (s : list ascii) :
  forall (val : float) (n : nat),
    (n <= snd (fst (scan_digits s val n)))%nat
    /\ (is_digit (hd NUL s) = true -> (S n <= snd (fst (scan_digits s val n)))%nat)
    /\ (is_digit (hd NUL s) = false -> scan_digits s val n = (val, n, s)).
Proof.
  induction s as [|c s IH]; intros val n.
  - cbn. repeat split; [lia|discriminate].
  - cbn [scan_digits hd]. destruct (is_digit c) eqn:E.
    + destruct (IH (val * 10 + digit_val c)%float (S n)) as (Hle & _ & _).
      repeat split; [lia|intros _; exact Hle|discriminate].
    + cbn. repeat split; [lia|discriminate].
Qed.

(** [str2double] leaves [end] at [s] exactly when the first byte is
    neither ['-'], nor a digit, nor ['.']. *)
Lemma str2double_reads_nothing (s : list ascii) :
  snd (str2double s) = 0%nat
  <-> hd NUL s <> "-"%char /\ is_digit (hd NUL s) = false /\ hd NUL s <> "."%char.
Proof.
  unfold str2double. destruct s as [|c t].
  - cbn. split; [|reflexivity]. intros _. repeat split; discriminate.
  - cbn [hd]. destruct (ascii_eqb c "-") eqn:Em.
    + apply ascii_eqb_eq in Em.
      destruct (scan_digits t 0%float 0) as [[val k1] s2].
      destruct s2 as [|c2 s3];
        [|destruct (ascii_eqb c2 "."); [destruct (scan_digits s3 0%float 0) as [[frac digits] rest]|]];
        cbn [snd]; (split; [intros H; simpl in H; lia|intros (H & _); congruence]).
    + apply ascii_eqb_neq in Em.
      destruct (scan_digits_steps (c :: t) 0%float 0) as (_ & Hd & Hn).
      cbn [hd] in Hd, Hn. destruct (is_digit c) eqn:Ed.
      * specialize (Hd eq_refl).
        destruct (scan_digits (c :: t) 0%float 0) as [[val k1] s2].
        cbn [fst snd] in Hd.
        destruct s2 as [|c2 s3];
          [|destruct (ascii_eqb c2 "."); [destruct (scan_digits s3 0%float 0) as [[frac digits] rest]|]];
          cbn [snd]; (split; [intros H; simpl in H; lia|intros (_ & H & _); discriminate]).
      * rewrite (Hn eq_refl). destruct (ascii_eqb c ".") eqn:Ep.
        -- apply ascii_eqb_eq in Ep.
           destruct (scan_digits t 0%float 0) as [[frac digits] rest].
           cbn [snd]. split; [intros H; simpl in H; lia|intros (_ & _ & H); congruence].
        -- apply ascii_eqb_neq in Ep. cbn [snd]. split; [|reflexivity].
           intros _. repeat split; assumption.
Qed.

(** C8 (the source departs from it).  The text parser takes a value
    for a failed conversion exactly when its first byte is neither ['-'],
    nor a digit, nor ['.'].  So a value in which no digit is read is
    accepted when it starts with a sign or a point: ["a:-|c"] is ingested
    with value -0.0 and ["a:.|g"] with value 0.0.  A value such as ["x"]
    is rejected with -1, and an exponent is not read. *)
Theorem C8_signs_and_points_pass_for_numbers :
  (forall s : list ascii,
      reads_number s = false
      <-> hd NUL s <> "-"%char /\ is_digit (hd NUL s) = false
          /\ hd NUL s <> "."%char)
  /\ handle_client_connect no_input_counter (bytes "a:-|c" ++ [LF])
     = Some (0, [metrics_add_sample COUNTER (bytes "a") (-0)%float], [])
  /\ handle_client_connect no_input_counter (bytes "a:.|g" ++ [LF])
     = Some (0, [metrics_add_sample GAUGE (bytes "a") 0%float], [])
  /\ handle_client_connect no_input_counter (bytes "a:-.x|m" ++ [LF])
     = Some (0, [metrics_add_sample TIMER (bytes "a") (-0)%float], [])
  /\ handle_client_connect no_input_counter (bytes "a:x|c" ++ [LF])
     = Some (-1, [], [])
  /\ str2double (bytes "1e5") = (1%float, 1%nat)
  /\ str2double (bytes "-12.25") = ((-12.25)%float, 6%nat).
Proof.
  split.
  - intros s. unfold reads_number. rewrite negb_false_iff, Nat.eqb_eq.
    apply str2double_reads_nothing.
  - repeat split; vm_compute; reflexivity.
Qed.

(** ** The binary output *)

Lemma byte_val_byte_of (z : Z) : byte_val (byte_of z) = z mod 256.
Proof.
  unfold byte_val, byte_of.
  pose proof (Z.mod_pos_bound z 256 ltac:(lia)) as Hb.
  rewrite N_ascii_embedding by lia.
  apply Z2N.id. lia.
Qed.

Lemma le_uint_le_bytes (n : nat) :
  forall z : Z, le_uint (le_bytes n z) = z mod 256 ^ Z.of_nat n.
Proof.
  induction n as [|n IH]; intros z.
  - cbn [le_bytes le_uint]. change (256 ^ Z.of_nat 0) with 1.
    rewrite Z.mod_1_r. reflexivity.
  - cbn [le_bytes le_uint]. rewrite byte_val_byte_of, IH.
    rewrite Nat2Z.inj_succ, Z.pow_succ_r by lia.
    rewrite Z.rem_mul_r by lia. reflexivity.
Qed.

Lemma binary64_word_range (s : bool) (e m : Z) :
  0 <= binary64_word s e m < 2 ^ 64.
Proof.
  unfold binary64_word.
  pose proof (Z.mod_pos_bound e 2048 ltac:(lia)) as He.
  pose proof (Z.mod_pos_bound m (2 ^ 52) ltac:(lia)) as Hm.
  change (2 ^ 52) with 4503599627370496 in *.
  change (2 ^ 63) with 9223372036854775808.
  change (2 ^ 64) with 18446744073709551616.
  destruct s; cbn [Z.b2z]; lia.
Qed.

Lemma bits_of_double_range (f : float) : 0 <= bits_of_double f < 2 ^ 64.
Proof.
  unfold bits_of_double. destruct (Prim2SF f) as [s|s| |s m e];
    try apply binary64_word_range.
  destruct (Z.ltb (Z.pos m) (2 ^ 52)); apply binary64_word_range.
Qed.


Lemma last_snoc (l : list ascii) (x : ascii) : List.last (l ++ [x]) NUL = x.
Proof. apply last_last. Qed.

Lemma read_client_bytes_app (front back : list ascii) :
  read_client_bytes (front ++ back) (length front) = Some (front, back).
Proof.
  unfold read_client_bytes.
  assert (H : Nat.leb (length front) (length (front ++ back)) = true)
    by (apply Nat.leb_le; rewrite length_app; lia).
  rewrite H. rewrite firstn_app, Nat.sub_diag, firstn_all. cbn [firstn].
  rewrite app_nil_r. rewrite skipn_app, Nat.sub_diag, skipn_all. reflexivity.
Qed.

Lemma prefix_bytes_length (out : binary_out_prefix) :
  length (prefix_bytes out) = 20%nat.
Proof. reflexivity. Qed.

(** The fields a reader finds in the 20 bytes of a prefix. *)
Lemma prefix_bytes_fields (out : binary_out_prefix) :
  le_uint (firstn 8 (prefix_bytes out)) = bop_timestamp out mod 2 ^ 64
  /\ byte_at (prefix_bytes out) 8 = bop_type out mod 256
  /\ byte_at (prefix_bytes out) 9 = bop_value_type out mod 256
  /\ le_u16 (prefix_bytes out) 10 = bop_key_len out mod 65536
  /\ le_uint (firstn 8 (skipn 12 (prefix_bytes out))) = bop_val out mod 2 ^ 64.
Proof.
  unfold le_u16, byte_at, prefix_bytes.
  cbn [le_bytes app firstn skipn nth].
  repeat split.
  - exact (le_uint_le_bytes 8 (bop_timestamp out)).
  - apply byte_val_byte_of.
  - apply byte_val_byte_of.
  - exact (le_uint_le_bytes 2 (bop_key_len out)).
  - exact (le_uint_le_bytes 8 (bop_val out)).
Qed.

(** C9 (amended).  For a metric name whose length with its NUL fits in 16
    bits, the binary record is the packed little-endian prefix (timestamp,
    type, value type, key length, value) followed by the name and its NUL,
    [key_len] bytes in all, and the inverse parser applied to the record,
    whatever follows it, recovers the timestamp, the type code, the value
    type code, the name and the 64-bit word of the value. *)
Theorem C9_binary_record_round_trip (timestamp type val_type : Z)
  (val : float) (name rest : list ascii) :
  0 <= timestamp < 2 ^ 64 -> 0 <= type < 256 -> 0 <= val_type < 256 ->
  Z.of_nat (strlen name) + 1 < 65536 ->
  let out := {| bop_timestamp := timestamp; bop_type := type;
                bop_value_type := val_type;
                bop_key_len := Z.of_nat (strlen name) + 1;
                bop_val := bits_of_double val |} in
  stream_bin_writer timestamp type val_type val name
  = (0, prefix_bytes out ++ c_str name ++ [NUL])
  /\ read_bin_record
       (snd (stream_bin_writer timestamp type val_type val name) ++ rest)
     = Some ({| rec_timestamp := timestamp; rec_type := type;
                rec_value_type := val_type; rec_key := c_str name;
                rec_val := bits_of_double val |}, rest).
Proof.
  intros Hts Hty Hvt Hlen out.
  assert (Hw : stream_bin_writer timestamp type val_type val name
               = (0, prefix_bytes out ++ c_str name ++ [NUL])).
  { unfold stream_bin_writer.
    rewrite Z.mod_small by lia.
    assert (E : Z.eqb (Z.of_nat (strlen name) + 1) 0 = false)
      by (apply Z.eqb_neq; lia).
    rewrite E. fold out. f_equal. f_equal.
    replace (Z.to_nat (Z.of_nat (strlen name) + 1))
      with (length (c_str name ++ [NUL]))
      by (rewrite length_app; unfold strlen; simpl; lia).
    apply firstn_all. }
  split; [exact Hw|]. rewrite Hw. cbn [snd].
  unfold read_bin_record. rewrite <- app_assoc.
  rewrite <- (prefix_bytes_length out) at 1.
  rewrite read_client_bytes_app.
  destruct (prefix_bytes_fields out) as (Ets & Ety & Evt & Ekl & Eval).
  rewrite Ets, Ety, Evt, Ekl, Eval. cbn [bop_timestamp bop_type bop_value_type
    bop_key_len bop_val out].
  rewrite (Z.mod_small (Z.of_nat (strlen name) + 1)) by lia.
  replace (Z.to_nat (Z.of_nat (strlen name) + 1))
    with (length (c_str name ++ [NUL]))
    by (rewrite length_app; unfold strlen; simpl; lia).
  rewrite <- app_assoc.
  rewrite (app_assoc (c_str name) [NUL] rest).
  rewrite read_client_bytes_app.
  rewrite last_snoc, ascii_eqb_refl, removelast_last.
  assert (El : Nat.eqb (length (c_str name ++ [NUL])) 0 = false)
    by (apply Nat.eqb_neq; rewrite length_app; simpl; lia).
  rewrite El. cbn [orb negb].
  rewrite !Z.mod_small by (try apply bits_of_double_range; lia).
  reflexivity.
Qed.

(** C9, at the sum record of the counter of the scenario S1. *)
Lemma C9_counter_sum_record :
  stream_bin_writer 100 2 1 9%float (bytes "a")
  = (0, map byte_of [100; 0; 0; 0; 0; 0; 0; 0; 2; 1; 2; 0;
                     0; 0; 0; 0; 0; 0; 34; 64; 97; 0])
  /\ read_bin_record (snd (stream_bin_writer 100 2 1 9%float (bytes "a")) ++ [])
     = Some ({| rec_timestamp := 100; rec_type := 2; rec_value_type := 1;
                rec_key := bytes "a"; rec_val := 0x4022000000000000 |}, []).
Proof.
  exact (C9_binary_record_round_trip 100 2 1 9%float (bytes "a") []
           ltac:(lia) ltac:(lia) ltac:(lia) ltac:(vm_compute; reflexivity)).
Defined.

(** C9, as first stated, fails: for a name of 65536 bytes the key length
    wraps to 1, the record carries one byte of the name and no NUL, and the
    inverse parser does not recover the name. *)
Lemma C9_long_name_is_cut :
  stream_bin_writer 100 2 1 9%float long_name
  = (0, map byte_of [100; 0; 0; 0; 0; 0; 0; 0; 2; 1; 1; 0;
                     0; 0; 0; 0; 0; 0; 34; 64; 97])
  /\ read_bin_record (snd (stream_bin_writer 100 2 1 9%float long_name)) = None
  /\ strlen long_name = Z.to_nat 65536.
Proof. repeat split; vm_compute; reflexivity. Qed.

(** ** The type field and the rate of a text line *)

Lemma convert_type_counter (t : ascii) (value val_str : list ascii) :
  convert_type t value = Some (COUNTER, val_str) -> t = "c"%char.
Proof.
  unfold convert_type. destruct (ascii_eqb t "c") eqn:Ec.
  - intros _. apply ascii_eqb_eq. assumption.
  - repeat match goal with
           | |- context [if ?b then _ else _] => destruct b
           end; discriminate.
Qed.

Lemma counter_sampling_other (type : metric_type) (type_str : list ascii)
  (val : float) :
  type <> COUNTER -> counter_sampling type type_str val = Some val.
Proof.
  intros H. unfold counter_sampling.
  destruct type; first [reflexivity | congruence].
Qed.

Lemma counter_sampling_no_rate (type_str : list ascii) (val : float) :
  absent "@" type_str = true ->
  counter_sampling COUNTER type_str val = Some val.
Proof.
  intros H. unfold counter_sampling. cbn [metric_type_eqb].
  rewrite buffer_after_terminator_absent by (apply absent_not_in; assumption).
  reflexivity.
Qed.

Lemma counter_sampling_rate (sep rate : list ascii) (val : float) :
  absent "@" sep = true ->
  counter_sampling COUNTER ("c"%char :: sep ++ "@"%char :: rate) val
  = if reads_number rate then Some (with_rate rate val) else None.
Proof.
  intros H. unfold counter_sampling, reads_number, with_rate.
  cbn [metric_type_eqb].
  change ("c"%char :: sep ++ "@"%char :: rate)
    with (("c"%char :: sep) ++ "@"%char :: rate).
  rewrite buffer_after_terminator_first.
  - destruct (str2double rate) as [r k]. cbn [fst snd].
    destruct (Nat.eqb k 0); [reflexivity|].
    cbn [negb]. destruct (rate_applies r); reflexivity.
  - apply absent_not_in. rewrite absent_cons, H. reflexivity.
Qed.

(** C10.  In a text line, of the bytes after the ['|'] that ends the
    value, the first alone gives the metric type.  For a type other than
    counter what follows that byte is not looked at: the line is handled as
    if it ended there.  For a counter the bytes that follow are ignored when
    they hold no ['@'], and otherwise the rate is read after the first
    ['@'], whatever stands before it. *)
Theorem C10_type_byte_and_rate (cfg : statsite_config)
  (name value : list ascii) :
  absent ":" name = true -> absent "|" value = true ->
  (forall (t : ascii) (rest : list ascii),
      t <> "c"%char ->
      handle_ascii_line cfg (text_line name value (t :: rest))
      = handle_ascii_line cfg (text_line name value [t]))
  /\ (forall rest : list ascii,
         absent "@" rest = true ->
         handle_ascii_line cfg (text_line name value ("c"%char :: rest))
         = ingested cfg COUNTER name value (fun v => v))
  /\ (forall sep rate : list ascii,
         absent "@" sep = true ->
         handle_ascii_line cfg
           (text_line name value ("c"%char :: sep ++ "@"%char :: rate))
         = if reads_number rate
           then ingested cfg COUNTER name value (with_rate rate)
           else (ERR_RET, count_input cfg)).
Proof.
  intros Hn Hv. unfold text_line. split; [|split].
  - intros t rest Ht. rewrite !handle_ascii_line_split by assumption.
    cbn [hd].
    destruct (convert_type t value) as [[type val_str]|] eqn:E; [|reflexivity].
    assert (Hty : type <> COUNTER).
    { intros ->. apply convert_type_counter in E. contradiction. }
    destruct (metric_type_eqb type SET); [reflexivity|].
    destruct (str2double val_str) as [val consumed].
    rewrite !counter_sampling_other by assumption. reflexivity.
  - intros rest Hr. rewrite handle_ascii_line_split by assumption.
    cbn [hd]. change (convert_type "c" value) with (Some (COUNTER, value)).
    cbn [metric_type_eqb]. unfold ingested, reads_number.
    destruct (str2double value) as [val consumed]. cbn [fst snd].
    rewrite counter_sampling_no_rate by (rewrite absent_cons, Hr; reflexivity).
    destruct (Nat.eqb consumed 0); reflexivity.
  - intros sep rate Hs. rewrite handle_ascii_line_split by assumption.
    cbn [hd]. change (convert_type "c" value) with (Some (COUNTER, value)).
    cbn [metric_type_eqb]. unfold ingested, reads_number.
    destruct (str2double value) as [val consumed] eqn:Ev. cbn [fst snd].
    rewrite counter_sampling_rate by assumption. unfold reads_number.
    destruct (Nat.eqb consumed 0), (Nat.eqb (snd (str2double rate)) 0);
      reflexivity.
Qed.

(** C10, at three lines: ["a:1|cool"] is a counter sample of value 1; ["a:1|m|@x"] is handled
    as ["a:1|m"]; the rate of ["a:3|c@0.5"] is read. *)
Lemma C10_cool_is_a_counter :
  handle_ascii_line no_input_counter (bytes "a:1|cool")
  = (END_LOOP, [metrics_add_sample COUNTER (bytes "a") 1%float])
  /\ handle_ascii_line no_input_counter (bytes "a:1|m|@x")
     = handle_ascii_line no_input_counter (bytes "a:1|m")
  /\ handle_ascii_line no_input_counter (bytes "a:3|c@0.5")
     = (END_LOOP, [metrics_add_sample COUNTER (bytes "a") 6%float]).
Proof.
  destruct (C10_type_byte_and_rate no_input_counter (bytes "a") (bytes "1")
              eq_refl eq_refl) as (Hother & Hplain & _).
  destruct (C10_type_byte_and_rate no_input_counter (bytes "a") (bytes "3")
              eq_refl eq_refl) as (_ & _ & Hrate).
  split; [|split].
  - exact (Hplain (bytes "ool") eq_refl).
  - refine (Hother "m"%char (bytes "|@x") _). discriminate.
  - exact (Hrate [] (bytes "0.5") eq_refl).
Defined.

(** * Further properties of the handlers *)

(** ** Splitting a buffer at a terminator *)

Lemma memchr_found (buf : list ascii) (c : ascii) :
  forall i : nat,
    memchr buf c = Some i ->
    buf = firstn i buf ++ c :: skipn (S i) buf /\ ~ In c (firstn i buf).
Proof.
  induction buf as [|b buf IH]; intros i H; [discriminate|].
  cbn [memchr] in H. destruct (ascii_eqb b c) eqn:E.
  - injection H as <-. apply ascii_eqb_eq in E. subst b. cbn. auto.
  - destruct (memchr buf c) as [j|]; [|discriminate]. injection H as <-.
    destruct (IH j eq_refl) as [Hsplit Hnot]. cbn [firstn skipn app].
    split; [f_equal; exact Hsplit|].
    apply ascii_eqb_neq in E. intros [->|Hin]; [congruence|auto].
Qed.

Lemma memchr_none (buf : list ascii) (c : ascii) :
  memchr buf c = None -> ~ In c buf.
Proof.
  induction buf as [|b buf IH]; cbn [memchr]; intros H; [intros []|].
  destruct (ascii_eqb b c) eqn:E; [discriminate|].
  destruct (memchr buf c); [discriminate|].
  apply ascii_eqb_neq in E. intros [->|Hin]; [congruence|]. exact (IH eq_refl Hin).
Qed.

(** X1.  [buffer_after_terminator] finds the first occurrence of the
    terminator and nothing else: it yields [front] and [back] exactly when
    the buffer is [front], the terminator, [back], with no terminator in
    [front]; it fails exactly when the buffer holds no terminator.  No byte
    is lost: [after_len] is the buffer's length less [front] and the
    terminator. *)
Theorem buffer_after_terminator_splits (buf front back : list ascii)
  (terminator : ascii) :
  (buffer_after_terminator buf terminator = Some (front, back)
   <-> buf = front ++ terminator :: back /\ ~ In terminator front)
  /\ (buffer_after_terminator buf terminator = None <-> ~ In terminator buf)
  /\ (buffer_after_terminator buf terminator = Some (front, back) ->
      length back = (length buf - (length front + 1))%nat).
Proof.
  assert (Hfwd : buffer_after_terminator buf terminator = Some (front, back) ->
                 buf = front ++ terminator :: back /\ ~ In terminator front).
  { unfold buffer_after_terminator.
    destruct (memchr buf terminator) as [i|] eqn:E; [|discriminate].
    intros [= <- <-]. apply memchr_found. assumption. }
  split; [|split].
  - split; [exact Hfwd|]. intros [-> Hn].
    apply buffer_after_terminator_first. assumption.
  - split.
    + unfold buffer_after_terminator.
      destruct (memchr buf terminator) as [i|] eqn:E; [discriminate|].
      intros _. apply memchr_none. assumption.
    + apply buffer_after_terminator_absent.
  - intros H. destruct (Hfwd H) as [-> _].
    rewrite length_app. cbn [length]. lia.
Qed.

(** ** The text that [str2double] reads *)

Lemma scan_digits_run (s : list ascii) :
  forall (val : float) (n : nat),
  exists (ds rest : list ascii) (val' : float),
    scan_digits s val n = (val', (n + length ds)%nat, rest)
    /\ s = ds ++ rest
    /\ forallb is_digit ds = true
    /\ is_digit (hd NUL rest) = false.
Proof.
  induction s as [|c s IH]; intros val n.
  - exists [], [], val. cbn. rewrite Nat.add_0_r. auto.
  - cbn [scan_digits]. destruct (is_digit c) eqn:E.
    + destruct (IH (val * 10 + digit_val c)%float (S n))
        as (ds & rest & val' & Hs & -> & Hd & Hr).
      exists (c :: ds), rest, val'. cbn [length forallb app].
      rewrite Hs, E, Hd. repeat split; try assumption. f_equal. f_equal. lia.
    + exists [], (c :: s), val. cbn. rewrite Nat.add_0_r, E. auto.
Qed.

Lemma digits_no_nul (ds : list ascii) :
  forallb is_digit ds = true -> absent NUL ds = true.
Proof.
  induction ds as [|d ds IH]; [reflexivity|]. cbn [forallb]. intros H.
  apply andb_prop in H as [Hd Hds]. rewrite absent_cons, (IH Hds).
  destruct (ascii_eqb d NUL) eqn:E; [|reflexivity].
  apply ascii_eqb_eq in E. subst d. discriminate Hd.
Qed.

Lemma c_str_app_no_nul (p q : list ascii) :
  absent NUL p = true -> c_str (p ++ q) = p ++ c_str q.
Proof.
  induction p as [|c p IH]; [reflexivity|]. rewrite absent_cons. intros H.
  apply andb_prop in H as [Hc Hp]. apply negb_true_iff in Hc.
  cbn [app c_str]. rewrite Hc, (IH Hp). reflexivity.
Qed.

(** X2.  What [str2double] steps over is a decimal and nothing more: an
    optional ['-'] (taken whenever the text starts with one), a run of
    digits, and an optional ['.'] with a run of digits, each run as long as
    it can be; the byte where it stops is no digit, and no ['.'] unless a
    fraction has been read.  It never steps over a NUL, so [end] stays
    within the C string. *)
Theorem str2double_reads_a_decimal (s : list ascii) :
  exists (neg : bool) (ds : list ascii) (frac : option (list ascii))
         (rest : list ascii),
    s = sign_text neg ++ ds ++ frac_text frac ++ rest
    /\ snd (str2double s) = length (sign_text neg ++ ds ++ frac_text frac)
    /\ neg = ascii_eqb (hd NUL s) "-"
    /\ forallb is_digit ds = true
    /\ match frac with
       | Some fs => forallb is_digit fs = true
       | None => hd NUL rest <> "."%char
       end
    /\ is_digit (hd NUL rest) = false
    /\ (snd (str2double s) <= strlen s)%nat.
Proof.
  assert (Hgen : forall (neg : bool) (s1 : list ascii),
    exists ds frac rest,
      s1 = ds ++ frac_text frac ++ rest
      /\ snd (let '(val, k1, s2) := scan_digits s1 0%float 0 in
              let '(val0, k2) :=
                match s2 with
                | [] => (val, k1)
                | c :: s3 =>
                    if ascii_eqb c "."
                    then let '(frac, digits, _) := scan_digits s3 0%float 0 in
                         ((val + frac / pow10 digits)%float,
                          (k1 + 1 + digits)%nat)
                    else (val, k1)
                end in
              ((if neg then (val0 * -1)%float else val0),
               ((if neg then 1 else 0) + k2)%nat))
         = ((if neg then 1 else 0) + length (ds ++ frac_text frac))%nat
      /\ forallb is_digit ds = true
      /\ match frac with
         | Some fs => forallb is_digit fs = true
         | None => hd NUL rest <> "."%char
         end
      /\ is_digit (hd NUL rest) = false).
  { intros neg s1.
    destruct (scan_digits_run s1 0%float 0) as (ds & s2 & val & Hs & -> & Hd & Hr).
    rewrite Hs. destruct s2 as [|c s3].
    - exists ds, None, []. cbn [frac_text app snd hd]. rewrite !app_nil_r.
      repeat split; try assumption. discriminate.
    - destruct (ascii_eqb c ".") eqn:Ec.
      + apply ascii_eqb_eq in Ec. subst c.
        destruct (scan_digits_run s3 0%float 0)
          as (fs & rest & frac & Hf & -> & Hfd & Hfr).
        rewrite Hf. exists ds, (Some fs), rest. cbn [frac_text snd].
        repeat split; try assumption.
        rewrite length_app. cbn [length]. lia.
      + exists ds, None, (c :: s3). cbn [frac_text app snd hd] in *.
        rewrite app_nil_r. repeat split; try assumption.
        apply ascii_eqb_neq. assumption. }
  assert (Hlen : forall neg ds frac rest,
             forallb is_digit ds = true ->
             match frac with
             | Some fs => forallb is_digit fs = true
             | None => True
             end ->
             (length (sign_text neg ++ ds ++ frac_text frac)
              <= strlen (sign_text neg ++ ds ++ frac_text frac ++ rest))%nat).
  { intros neg ds frac rest Hd Hf. unfold strlen.
    rewrite !app_assoc. rewrite c_str_app_no_nul.
    - rewrite !length_app. lia.
    - rewrite !absent_app, (digits_no_nul ds Hd).
      destruct neg, frac as [fs|]; cbn [sign_text frac_text];
        rewrite ?absent_cons, ?(digits_no_nul fs Hf); reflexivity. }
  unfold str2double. destruct s as [|c t].
  - destruct (Hgen false []) as (ds & frac & rest & Hs & Hk & Hd & Hf & Hr).
    exists false, ds, frac, rest. cbn [sign_text app hd].
    change (ascii_eqb NUL "-") with false.
    rewrite Hk. repeat split; try assumption.
    rewrite Hs. apply (Hlen false); [assumption|]. destruct frac; auto.
  - cbn [hd]. destruct (ascii_eqb c "-") eqn:Em.
    + apply ascii_eqb_eq in Em. subst c.
      destruct (Hgen true t) as (ds & frac & rest & Hs & Hk & Hd & Hf & Hr).
      exists true, ds, frac, rest. cbn [sign_text app].
      rewrite Hk. cbn [length]. repeat split; try assumption.
      * f_equal. exact Hs.
      * rewrite Hs. apply (Hlen true); [assumption|]. destruct frac; auto.
    + destruct (Hgen false (c :: t)) as (ds & frac & rest & Hs & Hk & Hd & Hf & Hr).
      exists false, ds, frac, rest. cbn [sign_text app].
      rewrite Hk. repeat split; try assumption.
      rewrite Hs. apply (Hlen false); [assumption|]. destruct frac; auto.
Qed.

(** ** Partial reads *)

Lemma after_calls_nil (r : option handled) : after_calls [] r = r.
Proof. destruct r as [[[ret calls] conn]|]; reflexivity. Qed.

Lemma after_calls_app (calls1 calls2 : list metrics_call) (r : option handled) :
  after_calls calls1 (after_calls calls2 r) = after_calls (calls1 ++ calls2) r.
Proof.
  destruct r as [[[ret calls] conn]|]; [|reflexivity].
  cbn. rewrite app_assoc. reflexivity.
Qed.

Lemma firstn_app_le (a b : list ascii) (n : nat) :
  (n <= length a)%nat -> firstn n (a ++ b) = firstn n a.
Proof.
  intros H. rewrite firstn_app.
  replace (n - length a)%nat with 0%nat by lia. cbn [firstn].
  apply app_nil_r.
Qed.

Lemma skipn_app_le (a b : list ascii) (n : nat) :
  (n <= length a)%nat -> skipn n (a ++ b) = skipn n a ++ b.
Proof.
  intros H. rewrite skipn_app.
  replace (n - length a)%nat with 0%nat by lia. rewrite skipn_O. reflexivity.
Qed.

Lemma read_client_bytes_more (conn more cmd rest : list ascii) (n : nat) :
  read_client_bytes conn n = Some (cmd, rest) ->
  read_client_bytes (conn ++ more) n = Some (cmd, rest ++ more).
Proof.
  intros H. apply read_client_bytes_some in H as (Hle & -> & ->).
  unfold read_client_bytes.
  assert (E : Nat.leb n (length (conn ++ more)) = true)
    by (apply Nat.leb_le; rewrite length_app; lia).
  rewrite E, firstn_app_le, skipn_app_le by assumption. reflexivity.
Qed.

Lemma read_client_bytes_none (conn : conn_info) (n : nat) :
  read_client_bytes conn n = None <-> (length conn < n)%nat.
Proof.
  unfold read_client_bytes. destruct (Nat.leb n (length conn)) eqn:E.
  - apply Nat.leb_le in E. split; [discriminate|lia].
  - apply Nat.leb_gt in E. tauto.
Qed.

Lemma extract_to_terminator_more (conn more buf rest : list ascii) (c : ascii) :
  extract_to_terminator conn c = Some (buf, rest) ->
  extract_to_terminator (conn ++ more) c = Some (buf, rest ++ more).
Proof.
  unfold extract_to_terminator.
  destruct (memchr conn c) as [i|] eqn:E; [|discriminate].
  intros [= <- <-]. destruct (memchr_found conn c i E) as [Hsplit Hnot].
  pose proof (memchr_lt conn c i E) as Hlt.
  rewrite Hsplit at 1. rewrite <- app_assoc. cbn [app].
  rewrite memchr_first by assumption.
  assert (Hl : length (firstn i conn) = i) by (rewrite length_firstn; lia).
  rewrite Hl.
  rewrite firstn_app_le, skipn_app_le by lia. reflexivity.
Qed.

Section Loops.

Variable body : conn_info -> iteration.
Hypothesis body_shrinking : shrinking body.
Hypothesis body_stable : prefix_stable body.

Lemma while1_unfold (conn : conn_info) :
  while1 body (S (length conn)) conn
  = match body conn with
    | Return ret calls conn' => Some (ret, calls, conn')
    | Continue calls conn' =>
        after_calls calls (while1 body (S (length conn')) conn')
    end.
Proof.
  destruct (body conn) as [ret calls conn'|calls conn'] eqn:E.
  - cbn [while1]. rewrite E. reflexivity.
  - apply while1_continue; assumption.
Qed.

(** What the loop does on a buffer it does again when more bytes stand
    behind it, and then goes on with what it had leftover and those bytes. *)
Lemma while1_chunked (more : conn_info) :
  forall (n : nat) (conn : conn_info),
    (length conn < n)%nat ->
    match while1 body (S (length conn)) conn with
    | Some (ret, calls, leftover) =>
        while1 body (S (length (conn ++ more))) (conn ++ more)
        = if Z.eqb ret 0
          then after_calls calls
                 (while1 body (S (length (leftover ++ more))) (leftover ++ more))
          else Some (ret, calls, leftover ++ more)
    | None => False
    end.
Proof.
  induction n as [|n IH]; intros conn Hlen; [lia|].
  rewrite (while1_unfold conn). pose proof (body_stable conn more) as Hst.
  destruct (body conn) as [ret calls conn'|calls conn'] eqn:E.
  - destruct (Z.eqb ret 0) eqn:Er.
    + destruct Hst as [-> ->]. rewrite after_calls_nil. reflexivity.
    + destruct Hst as [_ Hst]. rewrite (while1_unfold (conn ++ more)), Hst.
      reflexivity.
  - pose proof (body_shrinking _ _ _ E) as Hlt.
    specialize (IH conn' ltac:(lia)).
    destruct (while1 body (S (length conn')) conn') as [[[ret calls'] leftover]|];
      [|contradiction].
    cbn [after_calls]. rewrite (while1_unfold (conn ++ more)), Hst, IH.
    destruct (Z.eqb ret 0); [apply after_calls_app|reflexivity].
Qed.

(** The same, when only the iterations that the loop makes are known to
    be stable. *)
Lemma while1_chunked_run (more : conn_info) :
  forall conn : conn_info,
    stable_run body conn ->
    match while1 body (S (length conn)) conn with
    | Some (ret, calls, leftover) =>
        while1 body (S (length (conn ++ more))) (conn ++ more)
        = if Z.eqb ret 0
          then after_calls calls
                 (while1 body (S (length (leftover ++ more))) (leftover ++ more))
          else Some (ret, calls, leftover ++ more)
    | None => False
    end.
Proof.
  intros conn Hrun.
  induction Hrun as [conn ret calls conn' E Hat|conn calls conn' E Hat Hrun IH];
    rewrite (while1_unfold conn); specialize (Hat more); rewrite E in Hat |- *.
  - destruct (Z.eqb ret 0) eqn:Er.
    + destruct Hat as [-> ->]. rewrite after_calls_nil. reflexivity.
    + destruct Hat as [_ Hat]. rewrite (while1_unfold (conn ++ more)), Hat.
      reflexivity.
  - destruct (while1 body (S (length conn')) conn') as [[[ret calls'] leftover]|];
      [|contradiction].
    cbn [after_calls]. rewrite (while1_unfold (conn ++ more)), Hat, IH.
    destruct (Z.eqb ret 0); [apply after_calls_app|reflexivity].
Qed.

Hypothesis body_consuming : consuming body.
Hypothesis body_clean : returns_clean body.

(** The loop returns 0 or -1 and leaves a suffix of the buffer; when it
    returns 0, an iteration on what is leftover returns 0 at once. *)
Lemma while1_exhausts :
  forall (n : nat) (conn : conn_info),
    (length conn < n)%nat ->
    match while1 body (S (length conn)) conn with
    | Some (ret, calls, leftover) =>
        (ret = 0 \/ ret = -1)
        /\ (exists consumed, conn = consumed ++ leftover)
        /\ (ret = 0 -> body leftover = Return 0 [] leftover)
    | None => False
    end.
Proof.
  induction n as [|n IH]; intros conn Hlen; [lia|].
  rewrite (while1_unfold conn). pose proof (body_clean conn) as Hst.
  pose proof (body_consuming conn) as Hco.
  destruct (body conn) as [ret calls conn'|calls conn'] eqn:E.
  - split; [|split; [exact Hco|]].
    + destruct (Z.eqb ret 0) eqn:Er; [apply Z.eqb_eq in Er|]; tauto.
    + intros ->. cbn in Hst. destruct Hst as [-> ->]. exact E.
  - pose proof (body_shrinking _ _ _ E) as Hlt.
    specialize (IH conn' ltac:(lia)).
    destruct (while1 body (S (length conn')) conn') as [[[ret calls'] leftover]|];
      [|contradiction].
    destruct IH as (Hret & (consumed' & Hsuf) & Hzero).
    destruct Hco as (consumed & Hco).
    cbn [after_calls]. split; [exact Hret|]. split; [|exact Hzero].
    exists (consumed ++ consumed'). rewrite <- app_assoc, <- Hsuf. exact Hco.
Qed.

End Loops.

Lemma ascii_iteration_stable (cfg : statsite_config) :
  prefix_stable (ascii_iteration cfg).
Proof.
  intros conn more. unfold ascii_iteration.
  destruct (extract_to_terminator conn LF) as [[buf rest]|] eqn:E.
  - rewrite (extract_to_terminator_more conn more buf rest LF E).
    destruct (handle_ascii_line cfg buf) as [[] calls]; cbn; auto.
  - cbn. auto.
Qed.

Lemma ascii_iteration_consuming (cfg : statsite_config) :
  consuming (ascii_iteration cfg).
Proof.
  intros conn. unfold ascii_iteration, extract_to_terminator.
  destruct (memchr conn LF) as [i|].
  - exists (firstn (S i) conn).
    destruct (handle_ascii_line cfg (firstn i conn)) as [[] calls];
      symmetry; apply firstn_skipn.
  - exists []. reflexivity.
Qed.

Lemma peek_client_bytes_more (conn more cmd : list ascii) (n : nat) :
  peek_client_bytes conn n = Some cmd ->
  peek_client_bytes (conn ++ more) n = Some cmd.
Proof.
  unfold peek_client_bytes. destruct (Nat.leb n (length conn)) eqn:E;
    [|discriminate].
  apply Nat.leb_le in E. intros [= <-].
  assert (E' : Nat.leb n (length (conn ++ more)) = true)
    by (apply Nat.leb_le; rewrite length_app; lia).
  rewrite E', firstn_app_le by assumption. reflexivity.
Qed.

Lemma prefix_stable_clean (body : conn_info -> iteration) :
  prefix_stable body -> returns_clean body.
Proof.
  intros H conn. specialize (H conn []).
  destruct (body conn) as [ret calls conn'|]; [|exact I].
  destruct (Z.eqb ret 0); tauto.
Qed.

Lemma binary_iteration_clean (cfg : statsite_config) :
  returns_clean (binary_iteration cfg).
Proof.
  intros conn. unfold binary_iteration.
  destruct (peek_client_bytes conn MIN_BINARY_HEADER_SIZE) as [cmd|];
    [|cbn; auto].
  destruct (negb (Z.eqb (byte_at cmd 0) BINARY_MAGIC_BYTE)); [cbn; auto|].
  destruct (convert_bin_type (byte_at cmd 1)) as [type| |]; [| |cbn; auto].
  - destruct (read_client_bytes conn _) as [[cmd' rest]|]; [|cbn; auto].
    destruct (negb _); cbn; auto.
  - unfold handle_binary_set.
    destruct (read_client_bytes conn _) as [[cmd' rest]|]; [|cbn; auto].
    destruct (negb (Z.eqb (byte_at cmd' _) 0)); [cbn; auto|].
    destruct (negb (Z.eqb (byte_at cmd' _) 0)); cbn; auto.
Qed.

Lemma firstn_app_length (l more : list ascii) :
  firstn (length l) (l ++ more) = l.
Proof.
  induction l as [|x l IH]; cbn [length app firstn].
  - apply firstn_O.
  - rewrite IH. reflexivity.
Qed.

(** A string that ends within the command is read the same with more bytes
    behind the buffer. *)
Lemma c_str_in_command_more (conn more : list ascii) (off len : nat) :
  (1 <= len)%nat -> (off + len <= length conn)%nat ->
  byte_at conn (off + len - 1) = 0 ->
  c_str (skipn off (conn ++ more)) = c_str (skipn off conn).
Proof.
  intros Hlen Hin Hnul.
  rewrite (c_str_in_command conn off len Hlen Hnul).
  rewrite (c_str_in_command (conn ++ more) off len Hlen).
  - f_equal.
    rewrite <- (firstn_skipn_firstn (conn ++ more) off len (length conn)) by lia.
    rewrite firstn_app_length. reflexivity.
  - unfold byte_at in *. rewrite app_nth1 by lia. exact Hnul.
Qed.

Lemma convert_bin_type_code (code : Z) :
  match convert_bin_type code with
  | BinSet => code = BIN_TYPE_SET
  | BinSample type => code <> BIN_TYPE_SET /\ 1 <= code <= 6
  | BinUnknown => ~ (1 <= code <= 6)
  end.
Proof.
  unfold convert_bin_type, BIN_TYPE_KV, BIN_TYPE_COUNTER, BIN_TYPE_TIMER,
    BIN_TYPE_GAUGE, BIN_TYPE_GAUGE_DELTA, BIN_TYPE_SET.
  repeat match goal with
         | |- context [Z.eqb code ?k] =>
             let E := fresh "E" in
             destruct (Z.eqb code k) eqn:E;
             [apply Z.eqb_eq in E|apply Z.eqb_neq in E]
         end; lia.
Qed.

(** An iteration of the binary parser that returns does the same with more
    bytes behind the buffer. *)
Lemma binary_iteration_return_stable (cfg : statsite_config)
  (conn more : conn_info) :
  match binary_iteration cfg conn with
  | Continue _ _ => True
  | Return ret calls conn' =>
      if Z.eqb ret 0 then calls = [] /\ conn' = conn
      else ret = -1
           /\ binary_iteration cfg (conn ++ more)
              = Return ret calls (conn' ++ more)
  end.
Proof.
  unfold binary_iteration.
  destruct (peek_client_bytes conn MIN_BINARY_HEADER_SIZE) as [cmd|] eqn:Ep;
    [|cbn; auto].
  rewrite (peek_client_bytes_more conn more cmd _ Ep).
  destruct (negb (Z.eqb (byte_at cmd 0) BINARY_MAGIC_BYTE)); [cbn; auto|].
  destruct (convert_bin_type (byte_at cmd 1)) as [type| |]; [| |cbn; auto].
  - destruct (read_client_bytes conn _) as [[cmd' rest]|] eqn:Er; [|cbn; auto].
    rewrite (read_client_bytes_more conn more cmd' rest _ Er).
    destruct (negb _); cbn; auto.
  - unfold handle_binary_set.
    destruct (read_client_bytes conn _) as [[cmd' rest]|] eqn:Er; [|cbn; auto].
    rewrite (read_client_bytes_more conn more cmd' rest _ Er).
    destruct (negb (Z.eqb (byte_at cmd' _) 0)); [cbn; auto|].
    destruct (negb (Z.eqb (byte_at cmd' _) 0)); cbn; auto.
Qed.

(** An iteration of the binary parser on a command whose strings have at
    least one byte does the same with more bytes behind the buffer. *)
Lemma binary_iteration_keyed_stable (cfg : statsite_config) (conn : conn_info) :
  1 <= le_u16 conn 2 ->
  (byte_at conn 1 = BIN_TYPE_SET -> 1 <= le_u16 conn 4) ->
  stable_at (binary_iteration cfg) conn.
Proof.
  intros Hk Hs more. unfold binary_iteration.
  destruct (peek_client_bytes conn MIN_BINARY_HEADER_SIZE) as [cmd|] eqn:Ep;
    [|cbn; auto].
  rewrite (peek_client_bytes_more conn more cmd _ Ep).
  unfold peek_client_bytes in Ep.
  destruct (Nat.leb MIN_BINARY_HEADER_SIZE (length conn)) eqn:E6;
    [|discriminate].
  apply Nat.leb_le in E6. injection Ep as <-.
  unfold MIN_BINARY_HEADER_SIZE in *.
  rewrite !byte_at_firstn by lia.
  destruct (negb (Z.eqb (byte_at conn 0) BINARY_MAGIC_BYTE)); [cbn; auto|].
  pose proof (convert_bin_type_code (byte_at conn 1)) as Hcode.
  destruct (convert_bin_type (byte_at conn 1)) as [type| |]; [| |cbn; auto].
  - rewrite le_u16_firstn by lia.
    destruct (read_client_bytes conn _) as [[cmd' rest]|] eqn:Er; [|cbn; auto].
    rewrite (read_client_bytes_more conn more cmd' rest _ Er).
    apply read_client_bytes_some in Er as (Hle & -> & ->).
    unfold MAX_BINARY_HEADER_SIZE in *.
    rewrite byte_at_firstn by lia.
    destruct (negb (Z.eqb (byte_at conn _) 0)) eqn:E0; [cbn; auto|].
    apply negb_false_iff, Z.eqb_eq in E0.
    rewrite (c_str_in_command_more conn more 12 (Z.to_nat (le_u16 conn 2)))
      by (assumption || lia).
    reflexivity.
  - specialize (Hs Hcode).
    unfold handle_binary_set, MIN_BINARY_HEADER_SIZE.
    rewrite !le_u16_firstn by lia.
    destruct (read_client_bytes conn _) as [[cmd' rest]|] eqn:Er; [|cbn; auto].
    rewrite (read_client_bytes_more conn more cmd' rest _ Er).
    apply read_client_bytes_some in Er as (Hle & -> & ->).
    rewrite !byte_at_firstn by lia.
    destruct (negb (Z.eqb (byte_at conn (6 + Z.to_nat (le_u16 conn 2) - 1)) 0))
      eqn:E1; [cbn; auto|].
    destruct (negb (Z.eqb (byte_at conn
                             (6 + (Z.to_nat (le_u16 conn 2)
                                   + Z.to_nat (le_u16 conn 4)) - 1)) 0))
      eqn:E2; [cbn; auto|].
    apply negb_false_iff, Z.eqb_eq in E1. apply negb_false_iff, Z.eqb_eq in E2.
    cbn [Z.eqb]. rewrite !skipn_skipn.
    rewrite (c_str_in_command_more conn more 6 (Z.to_nat (le_u16 conn 2)))
      by (assumption || lia).
    rewrite (c_str_in_command_more conn more (Z.to_nat (le_u16 conn 2) + 6)
               (Z.to_nat (le_u16 conn 4))).
    + reflexivity.
    + lia.
    + lia.
    + replace (Z.to_nat (le_u16 conn 2) + 6 + Z.to_nat (le_u16 conn 4) - 1)%nat
        with (6 + (Z.to_nat (le_u16 conn 2) + Z.to_nat (le_u16 conn 4)) - 1)%nat
        by lia.
      exact E2.
Qed.

Lemma keyed_stable_run (cfg : statsite_config) (conn : conn_info) :
  keyed cfg conn -> stable_run (binary_iteration cfg) conn.
Proof.
  induction 1 as [conn ret calls conn' E|conn calls conn' E Hk Hs _ IH].
  - apply (stable_return _ conn ret calls conn' E). intros more.
    pose proof (binary_iteration_return_stable cfg conn more) as H.
    rewrite E in H |- *. exact H.
  - apply (stable_continue _ conn calls conn' E); [|exact IH].
    apply binary_iteration_keyed_stable; assumption.
Qed.

Lemma binary_iteration_consuming (cfg : statsite_config) :
  consuming (binary_iteration cfg).
Proof.
  intros conn. unfold binary_iteration.
  destruct (peek_client_bytes conn MIN_BINARY_HEADER_SIZE) as [cmd|];
    [|exists []; reflexivity].
  destruct (negb (Z.eqb (byte_at cmd 0) BINARY_MAGIC_BYTE));
    [exists []; reflexivity|].
  destruct (convert_bin_type (byte_at cmd 1)) as [type| |];
    [| |exists []; reflexivity].
  - destruct (read_client_bytes conn _) as [[cmd' rest]|] eqn:Er;
      [|exists []; reflexivity].
    apply read_client_bytes_some in Er as (_ & -> & ->).
    eexists. destruct (negb _); symmetry; apply firstn_skipn.
  - unfold handle_binary_set.
    destruct (read_client_bytes conn _) as [[cmd' rest]|] eqn:Er;
      [|exists []; reflexivity].
    apply read_client_bytes_some in Er as (_ & -> & ->).
    eexists.
    destruct (negb (Z.eqb (byte_at _ _) 0));
      [cbn; symmetry; apply firstn_skipn|].
    destruct (negb (Z.eqb (byte_at _ _) 0)); cbn; symmetry; apply firstn_skipn.
Qed.

(** X3.  Partial reads of the text parser.  Whatever the text parser does
    on the buffered bytes [a], it does on [a] followed by [b] as well: if it
    returned 0 and left [leftover], it makes the same calls and then goes on
    as on [leftover] followed by [b]; if it returned an error, it returns
    the same error after the same calls and leaves [b] untouched.  So a
    stream fed in pieces gives the calls of the stream fed at once. *)
Theorem handle_ascii_client_connect_chunked (cfg : statsite_config)
  (a b : conn_info) :
  match handle_ascii_client_connect cfg a with
  | Some (ret, calls, leftover) =>
      handle_ascii_client_connect cfg (a ++ b)
      = if Z.eqb ret 0
        then after_calls calls (handle_ascii_client_connect cfg (leftover ++ b))
        else Some (ret, calls, leftover ++ b)
  | None => False
  end.
Proof.
  unfold handle_ascii_client_connect.
  apply (while1_chunked (ascii_iteration cfg) (ascii_iteration_shrinking cfg)
           (ascii_iteration_stable cfg) b (S (length a)) a).
  lia.
Qed.

(** X4.  Partial reads of the binary parser.  When every command that the
    parser handles in [a] announces a key of at least one byte (and a set
    command a member of at least one byte), the parser does on [a] followed
    by [b] what it does on [a]: the commands complete in [a] are handled in
    the same way, an incomplete command at the end of [a] is left whole and
    handled once [b] completes it, and a framing error in [a] is the same
    error.  (A command of key length 0 takes its name from the bytes behind
    it, so what follows it matters.) *)
Theorem handle_binary_client_connect_chunked (cfg : statsite_config)
  (a b : conn_info) :
  keyed cfg a ->
  match handle_binary_client_connect cfg a with
  | Some (ret, calls, leftover) =>
      handle_binary_client_connect cfg (a ++ b)
      = if Z.eqb ret 0
        then after_calls calls (handle_binary_client_connect cfg (leftover ++ b))
        else Some (ret, calls, leftover ++ b)
  | None => False
  end.
Proof.
  intros Hkeyed. unfold handle_binary_client_connect.
  apply (while1_chunked_run (binary_iteration cfg)
           (binary_iteration_shrinking cfg) b a).
  apply keyed_stable_run. exact Hkeyed.
Qed.

(** X4, on the gauge record of S3 followed by the set record of S4 that
    arrives without its last byte and is completed by it: the gauge is
    ingested from the first piece, the set once the second is there.  And a
    gauge record of key length 0 is named by what follows it. *)
Lemma handle_binary_client_connect_chunked_s3_s4 :
  keyed no_input_counter (s3_record ++ removelast s4_record)
  /\ handle_binary_client_connect no_input_counter
       (s3_record ++ removelast s4_record)
     = Some (0, [metrics_add_sample GAUGE (bytes "g") 42%float],
             removelast s4_record)
  /\ handle_binary_client_connect no_input_counter
       ((s3_record ++ removelast s4_record) ++ [NUL])
     = after_calls [metrics_add_sample GAUGE (bytes "g") 42%float]
         (handle_binary_client_connect no_input_counter
            (removelast s4_record ++ [NUL])).
Proof.
  assert (Hk : keyed no_input_counter (s3_record ++ removelast s4_record)).
  { apply (keyed_continue no_input_counter _
             [metrics_add_sample GAUGE (bytes "g") 42%float]
             (removelast s4_record)).
    - vm_compute. reflexivity.
    - vm_compute. discriminate.
    - vm_compute. discriminate.
    - apply (keyed_return no_input_counter _ 0 [] (removelast s4_record)).
      vm_compute. reflexivity. }
  split; [exact Hk|]. split; [vm_compute; reflexivity|].
  pose proof (handle_binary_client_connect_chunked no_input_counter
                (s3_record ++ removelast s4_record) [NUL] Hk) as H.
  assert (E : handle_binary_client_connect no_input_counter
                (s3_record ++ removelast s4_record)
              = Some (0, [metrics_add_sample GAUGE (bytes "g") 42%float],
                      removelast s4_record)) by (vm_compute; reflexivity).
  rewrite E in H. exact H.
Defined.

(** Without the proviso: a gauge command of key length 0 and value 0.0 is
    ingested under the name that the bytes behind it spell, so that it is
    another sample when other bytes follow. *)
Example zero_key_length_reads_on :
  let cmd := map byte_of [170; 5; 0; 0; 0; 0; 0; 0; 0; 0; 0; 0] in
  handle_binary_client_connect no_input_counter (cmd ++ bytes "x" ++ [NUL])
  = Some (0, [metrics_add_sample GAUGE (bytes "x") 0%float],
          bytes "x" ++ [NUL])
  /\ handle_binary_client_connect no_input_counter (cmd ++ bytes "yz" ++ [NUL])
     = Some (0, [metrics_add_sample GAUGE (bytes "yz") 0%float],
             bytes "yz" ++ [NUL]).
Proof. split; vm_compute; reflexivity. Qed.

(** X5.  Both parsers consume all the input they can.  They return 0 or
    -1 and leave a suffix of the buffer.  When they return 0, calling them
    again on what is left, with no new data, makes no call and consumes
    nothing; what the text parser leaves holds no line terminator, and what
    the binary parser leaves is shorter than the header or than the command
    its header announces. *)
Theorem handlers_exhaust_the_buffer (cfg : statsite_config) (conn : conn_info) :
  match handle_ascii_client_connect cfg conn with
  | Some (ret, calls, leftover) =>
      (ret = 0 \/ ret = -1)
      /\ (exists consumed, conn = consumed ++ leftover)
      /\ (ret = 0 ->
          absent LF leftover = true
          /\ handle_ascii_client_connect cfg leftover = Some (0, [], leftover))
  | None => False
  end
  /\ match handle_binary_client_connect cfg conn with
     | Some (ret, calls, leftover) =>
         (ret = 0 \/ ret = -1)
         /\ (exists consumed, conn = consumed ++ leftover)
         /\ (ret = 0 ->
             ((length leftover < MIN_BINARY_HEADER_SIZE)%nat
              \/ (byte_at leftover 1 <> BIN_TYPE_SET
                  /\ (length leftover
                      < MAX_BINARY_HEADER_SIZE
                        + Z.to_nat (le_u16 leftover 2))%nat)
              \/ (byte_at leftover 1 = BIN_TYPE_SET
                  /\ (length leftover
                      < MIN_BINARY_HEADER_SIZE
                        + (Z.to_nat (le_u16 leftover 2)
                           + Z.to_nat (le_u16 leftover 4)))%nat))
             /\ handle_binary_client_connect cfg leftover
                = Some (0, [], leftover))
     | None => False
     end.
Proof.
  split.
  - pose proof (while1_exhausts (ascii_iteration cfg)
                  (ascii_iteration_shrinking cfg) (ascii_iteration_consuming cfg)
                  (prefix_stable_clean _ (ascii_iteration_stable cfg))
                  (S (length conn)) conn
                  ltac:(lia)) as H.
    unfold handle_ascii_client_connect.
    destruct (while1 (ascii_iteration cfg) (S (length conn)) conn)
      as [[[ret calls] leftover]|]; [|contradiction].
    destruct H as (Hret & Hsuf & Hzero). split; [exact Hret|].
    split; [exact Hsuf|]. intros Hr. specialize (Hzero Hr).
    split.
    + unfold ascii_iteration, extract_to_terminator in Hzero. unfold absent.
      destruct (memchr leftover LF); [|reflexivity].
      destruct (handle_ascii_line cfg _) as [[] ?]; discriminate.
    + cbn [while1]. rewrite Hzero. reflexivity.
  - pose proof (while1_exhausts (binary_iteration cfg)
                  (binary_iteration_shrinking cfg)
                  (binary_iteration_consuming cfg) (binary_iteration_clean cfg)
                  (S (length conn)) conn
                  ltac:(lia)) as H.
    unfold handle_binary_client_connect.
    destruct (while1 (binary_iteration cfg) (S (length conn)) conn)
      as [[[ret calls] leftover]|]; [|contradiction].
    destruct H as (Hret & Hsuf & Hzero). split; [exact Hret|].
    split; [exact Hsuf|]. intros Hr. specialize (Hzero Hr).
    split; [|cbn [while1]; rewrite Hzero; reflexivity].
    unfold binary_iteration in Hzero.
    destruct (peek_client_bytes leftover MIN_BINARY_HEADER_SIZE) as [cmd|] eqn:Ep.
    + right. unfold peek_client_bytes in Ep.
      destruct (Nat.leb MIN_BINARY_HEADER_SIZE (length leftover)) eqn:El;
        [|discriminate].
      apply Nat.leb_le in El. injection Ep as <-.
      unfold MIN_BINARY_HEADER_SIZE in *.
      rewrite !byte_at_firstn in Hzero by lia.
      destruct (negb (Z.eqb (byte_at leftover 0) BINARY_MAGIC_BYTE));
        [discriminate|].
      pose proof (convert_bin_type_code (byte_at leftover 1)) as Hcode.
      destruct (convert_bin_type (byte_at leftover 1)) as [type| |];
        [| |discriminate].
      * left. split; [tauto|]. rewrite le_u16_firstn in Hzero by lia.
        destruct (read_client_bytes leftover _) as [[cmd' rest]|] eqn:Er.
        -- destruct (negb _); discriminate.
        -- apply read_client_bytes_none in Er. exact Er.
      * right. split; [exact Hcode|]. unfold handle_binary_set in Hzero.
        rewrite !le_u16_firstn in Hzero by lia.
        destruct (read_client_bytes leftover _) as [[cmd' rest]|] eqn:Er.
        -- destruct (negb (Z.eqb (byte_at cmd' _) 0)); [discriminate|].
           destruct (negb (Z.eqb (byte_at cmd' _) 0)); discriminate.
        -- apply read_client_bytes_none in Er. exact Er.
    + left. unfold peek_client_bytes in Ep.
      destruct (Nat.leb MIN_BINARY_HEADER_SIZE (length leftover)) eqn:El;
        [discriminate|]. apply Nat.leb_gt in El. exact El.
Qed.

(** ** The calls the parsers make *)

Lemma c_str_is_c_string (p : list ascii) : absent NUL (c_str p) = true.
Proof.
  induction p as [|c p IH]; [reflexivity|]. cbn [c_str].
  destruct (ascii_eqb c NUL) eqn:E; [reflexivity|].
  rewrite absent_cons, E, IH. reflexivity.
Qed.

Lemma convert_type_sample (t : ascii) (value val_str : list ascii)
  (type : metric_type) :
  convert_type t value = Some (type, val_str) ->
  type = SET \/ sample_type type = true.
Proof.
  unfold convert_type.
  repeat match goal with
         | |- context [if ?b then _ else _] => destruct b
         end; intros [= <- <-]; auto.
Qed.

Lemma handle_ascii_line_calls (cfg : statsite_config) (buf : list ascii) :
  match handle_ascii_line cfg buf with
  | (END_LOOP, calls) =>
      exists call, well_formed_call call = true
                   /\ calls = count_input cfg ++ [call]
  | (ERR_RET, calls) => calls = [] \/ calls = count_input cfg
  end.
Proof.
  unfold handle_ascii_line.
  destruct (buffer_after_terminator buf ":") as [[key after_colon]|]; [|auto].
  destruct (buffer_after_terminator after_colon "|") as [[val_str type_str]|];
    [|auto].
  destruct (convert_type (hd NUL type_str) val_str) as [[type v]|] eqn:Et;
    [|auto].
  apply convert_type_sample in Et.
  destruct (metric_type_eqb type SET) eqn:Es.
  - eexists. split; [|reflexivity]. cbn [well_formed_call].
    rewrite !c_str_is_c_string. reflexivity.
  - assert (Hty : sample_type type = true)
      by (destruct Et as [->|]; [discriminate|assumption]).
    destruct (str2double v) as [val consumed].
    destruct (Nat.eqb consumed 0); [auto|].
    destruct (counter_sampling type type_str val) as [val'|]; [|auto].
    eexists. split; [|reflexivity]. cbn [well_formed_call].
    rewrite Hty, c_str_is_c_string. reflexivity.
Qed.

Lemma handle_ascii_client_connect_partial (cfg : statsite_config)
  (partial : list ascii) :
  absent LF partial = true ->
  handle_ascii_client_connect cfg partial = Some (0, [], partial).
Proof.
  intros H. unfold handle_ascii_client_connect. cbn [while1].
  unfold ascii_iteration, extract_to_terminator. unfold absent in H.
  destruct (memchr partial LF); [discriminate H|reflexivity].
Qed.

Lemma lines_stream_cons (line : list ascii) (lines : list (list ascii))
  (rest : list ascii) :
  lines_stream (line :: lines) ++ rest
  = line ++ LF :: (lines_stream lines ++ rest).
Proof.
  unfold lines_stream. cbn [flat_map]. rewrite <- !app_assoc. reflexivity.
Qed.

(** X6.  The calls of the text parser, line by line.  On a stream of
    complete lines that it accepts, the parser makes for each line, in
    order, the calls of that line: one sample (or one set update), preceded
    by the count of the input if the input counter is configured.  Every
    sample has a sample type (never [SET] or [UNKNOWN]) and its strings
    hold no NUL.  When a partial line follows, the parser returns 0 after
    these calls and leaves the partial line; when a line follows that it
    rejects, it returns -1 after these calls and the calls of the rejected
    line, which are none or the count of the input alone, and leaves what
    comes after that line. *)
Theorem handle_ascii_client_connect_calls (cfg : statsite_config)
  (lines : list (list ascii)) :
  forallb (fun line => absent LF line && accepts cfg line) lines = true ->
  exists samples : list metrics_call,
    Forall2 (fun line call =>
               snd (handle_ascii_line cfg line) = count_input cfg ++ [call])
      lines samples
    /\ forallb well_formed_call samples = true
    /\ (forall partial : list ascii,
          absent LF partial = true ->
          handle_ascii_client_connect cfg (lines_stream lines ++ partial)
          = Some (0, counted cfg samples, partial))
    /\ (forall bad later : list ascii,
          absent LF bad = true -> accepts cfg bad = false ->
          (snd (handle_ascii_line cfg bad) = []
           \/ snd (handle_ascii_line cfg bad) = count_input cfg)
          /\ handle_ascii_client_connect cfg
               (lines_stream lines ++ bad ++ LF :: later)
             = Some (-1,
                     counted cfg samples ++ snd (handle_ascii_line cfg bad),
                     later)).
Proof.
  induction lines as [|line lines IH]; intros Hall.
  - exists []. split; [constructor|]. split; [reflexivity|]. split.
    + intros partial Hp. apply handle_ascii_client_connect_partial. exact Hp.
    + intros bad later Hb Hrej. unfold accepts in Hrej.
      pose proof (handle_ascii_line_calls cfg bad) as Hc.
      destruct (handle_ascii_line cfg bad) as [[] calls] eqn:E;
        [discriminate Hrej|].
      cbn [fst snd] in *. split; [exact Hc|].
      apply (handle_ascii_client_connect_error cfg bad later calls Hb E).
  - cbn [forallb] in Hall. apply andb_prop in Hall as [Hline Hall].
    apply andb_prop in Hline as [Hlf Hacc].
    destruct (IH Hall) as (samples & Hsamples & Hwf & Hpart & Hbad).
    unfold accepts in Hacc.
    pose proof (handle_ascii_line_calls cfg line) as Hc.
    destruct (handle_ascii_line cfg line) as [[] calls] eqn:E;
      [|discriminate Hacc].
    destruct Hc as (call & Hcall & ->).
    exists (call :: samples). split; [|split; [|split]].
    + constructor; [rewrite E; reflexivity|exact Hsamples].
    + cbn [forallb]. rewrite Hcall, Hwf. reflexivity.
    + intros partial Hp. rewrite lines_stream_cons.
      rewrite (handle_ascii_client_connect_line cfg line _ _ Hlf E).
      rewrite (Hpart partial Hp). cbn [after_calls counted flat_map].
      reflexivity.
    + intros bad later Hb Hrej. destruct (Hbad bad later Hb Hrej) as [Ht Hr].
      split; [exact Ht|]. rewrite lines_stream_cons.
      rewrite (handle_ascii_client_connect_line cfg line _ _ Hlf E).
      rewrite Hr. cbn [after_calls counted flat_map].
      rewrite <- !app_assoc. reflexivity.
Qed.

(** X6, on three lines with the input counter configured: each line is
    counted and ingested, a partial line is left, and a rejected line ends
    the parser after it has been counted. *)
Lemma handle_ascii_client_connect_calls_counted :
  let lines := [bytes "a:1|c"; bytes "g:+5|g"; bytes "u:alice|s"] in
  let calls :=
    [metrics_add_sample COUNTER (bytes "in") 1%float;
     metrics_add_sample COUNTER (bytes "a") 1%float;
     metrics_add_sample COUNTER (bytes "in") 1%float;
     metrics_add_sample GAUGE_DELTA (bytes "g") 5%float;
     metrics_add_sample COUNTER (bytes "in") 1%float;
     metrics_set_update (bytes "u") (bytes "alice")] in
  handle_ascii_client_connect counting_inputs (lines_stream lines ++ bytes "b:2")
  = Some (0, calls, bytes "b:2")
  /\ handle_ascii_client_connect counting_inputs
       (lines_stream lines ++ bytes "b:x|c" ++ LF :: bytes "c:1|c")
     = Some (-1, calls ++ [metrics_add_sample COUNTER (bytes "in") 1%float],
             bytes "c:1|c").
Proof.
  intros lines calls.
  destruct (handle_ascii_client_connect_calls counting_inputs lines eq_refl)
    as (samples & Hsamples & _ & Hpart & Hbad).
  assert (Hcalls : counted counting_inputs samples = calls).
  { inversion Hsamples as [|? c1 ? l1 H1 Hs1]; subst.
    inversion Hs1 as [|? c2 ? l2 H2 Hs2]; subst.
    inversion Hs2 as [|? c3 ? l3 H3 Hs3]; subst.
    inversion Hs3; subst.
    vm_compute in H1, H2, H3.
    injection H1 as <-. injection H2 as <-. injection H3 as <-.
    reflexivity. }
  split.
  - rewrite (Hpart (bytes "b:2") eq_refl), Hcalls. reflexivity.
  - destruct (Hbad (bytes "b:x|c") (bytes "c:1|c") eq_refl eq_refl) as [_ Hr].
    rewrite Hr, Hcalls. reflexivity.
Defined.

(** ** The binary set command and the header of a command *)

(** One iteration of the binary parser on a set command. *)
Lemma binary_iteration_set (cfg : statsite_config) (conn : conn_info)
  (key_len set_len : nat) :
  set_preamble conn key_len set_len ->
  (1 <= key_len)%nat -> (1 <= set_len)%nat ->
  binary_iteration cfg conn
  = if Nat.ltb (length conn) (6 + key_len + set_len) then Return 0 [] conn
    else if negb (Z.eqb (byte_at conn (6 + key_len - 1)) 0)
              || negb (Z.eqb (byte_at conn (6 + key_len + set_len - 1)) 0)
    then Return (-1) [] (skipn (6 + key_len + set_len) conn)
    else Continue
           (count_input cfg
              ++ [metrics_set_update
                    (c_str (firstn key_len (skipn 6 conn)))
                    (c_str (firstn set_len (skipn (6 + key_len) conn)))])
           (skipn (6 + key_len + set_len) conn).
Proof.
  intros (Hlen & Hmagic & Htype & Hkey & Hset) Hk Hs.
  unfold binary_iteration. rewrite peek_client_bytes_enough by assumption.
  unfold MIN_BINARY_HEADER_SIZE in *.
  rewrite !byte_at_firstn by lia. rewrite Hmagic, Z.eqb_refl. cbn [negb].
  rewrite Htype. change (convert_bin_type BIN_TYPE_SET) with BinSet.
  unfold handle_binary_set, MIN_BINARY_HEADER_SIZE.
  rewrite !le_u16_firstn by lia. rewrite Hkey, Hset, !Nat2Z.id.
  replace (6 + (key_len + set_len))%nat with (6 + key_len + set_len)%nat by lia.
  unfold read_client_bytes.
  destruct (Nat.leb (6 + key_len + set_len) (length conn)) eqn:En.
  - apply Nat.leb_le in En.
    assert (Hlt : Nat.ltb (length conn) (6 + key_len + set_len) = false)
      by (apply Nat.ltb_ge; lia).
    rewrite Hlt. rewrite !byte_at_firstn by lia.
    destruct (negb (Z.eqb (byte_at conn (6 + key_len - 1)) 0)) eqn:E1;
      [reflexivity|].
    destruct (negb (Z.eqb (byte_at conn (6 + key_len + set_len - 1)) 0)) eqn:E2;
      [reflexivity|].
    apply negb_false_iff, Z.eqb_eq in E1. apply negb_false_iff, Z.eqb_eq in E2.
    cbn [orb]. cbn [Z.eqb]. f_equal. f_equal. f_equal. f_equal.
    + apply (c_str_in_command conn 6 key_len Hk E1).
    + rewrite skipn_skipn.
      replace (key_len + 6)%nat with (6 + key_len)%nat by lia.
      apply (c_str_in_command conn (6 + key_len) set_len Hs E2).
  - apply Nat.leb_gt in En.
    assert (Hlt : Nat.ltb (length conn) (6 + key_len + set_len) = true)
      by (apply Nat.ltb_lt; lia).
    rewrite Hlt. reflexivity.
Qed.

(** X8.  A binary set command of key length [key_len] and set length
    [set_len] (both at least 1) takes [6 + key_len + set_len] bytes.  With
    fewer bytes buffered the parser returns 0 and consumes nothing; when the
    key or the member does not end in NUL at its announced length it returns
    -1 and updates nothing; otherwise it makes one set update (after
    counting the input, if configured) with the key and the member read as
    C strings, and goes on with the bytes after the command. *)
Theorem binary_set_framing (cfg : statsite_config) (conn : conn_info)
  (key_len set_len : nat) :
  set_preamble conn key_len set_len ->
  (1 <= key_len)%nat -> (1 <= set_len)%nat ->
  ((length conn < 6 + key_len + set_len)%nat ->
     handle_binary_client_connect cfg conn = Some (0, [], conn))
  /\ ((6 + key_len + set_len <= length conn)%nat ->
      byte_at conn (6 + key_len - 1) <> 0
      \/ byte_at conn (6 + key_len + set_len - 1) <> 0 ->
      handle_binary_client_connect cfg conn
      = Some (-1, [], skipn (6 + key_len + set_len) conn))
  /\ ((6 + key_len + set_len <= length conn)%nat ->
      byte_at conn (6 + key_len - 1) = 0 ->
      byte_at conn (6 + key_len + set_len - 1) = 0 ->
      handle_binary_client_connect cfg conn
      = after_calls
          (count_input cfg
             ++ [metrics_set_update
                   (c_str (firstn key_len (skipn 6 conn)))
                   (c_str (firstn set_len (skipn (6 + key_len) conn)))])
          (handle_binary_client_connect cfg
             (skipn (6 + key_len + set_len) conn))).
Proof.
  intros Hpre Hk Hs.
  pose proof (binary_iteration_set cfg conn key_len set_len Hpre Hk Hs) as Hit.
  split; [|split].
  - intros Hshort. apply Nat.ltb_lt in Hshort. rewrite Hshort in Hit.
    unfold handle_binary_client_connect. cbn [while1]. rewrite Hit. reflexivity.
  - intros Hlong Hnul. apply Nat.ltb_ge in Hlong. rewrite Hlong in Hit.
    assert (E : negb (Z.eqb (byte_at conn (6 + key_len - 1)) 0)
                || negb (Z.eqb (byte_at conn (6 + key_len + set_len - 1)) 0)
                = true).
    { apply orb_true_iff. destruct Hnul as [H|H]; [left|right];
        apply negb_true_iff, Z.eqb_neq; exact H. }
    rewrite E in Hit.
    unfold handle_binary_client_connect. cbn [while1]. rewrite Hit. reflexivity.
  - intros Hlong Hnul1 Hnul2. apply Nat.ltb_ge in Hlong. rewrite Hlong in Hit.
    apply Z.eqb_eq in Hnul1, Hnul2. rewrite Hnul1, Hnul2 in Hit.
    cbn [negb orb] in Hit.
    unfold handle_binary_client_connect.
    apply while1_continue; [apply binary_iteration_shrinking|exact Hit].
Qed.

(** X8, at the scenario S4: the set command updates the set ["u"] with
    ["alice"]; without its last byte it waits for more data. *)
Lemma binary_set_framing_s4 :
  handle_binary_client_connect no_input_counter s4_record
  = Some (0, [metrics_set_update (bytes "u") (bytes "alice")], [])
  /\ handle_binary_client_connect no_input_counter (removelast s4_record)
     = Some (0, [], removelast s4_record).
Proof.
  assert (Hpre : set_preamble s4_record 2 6)
    by (repeat split; try (vm_compute; reflexivity); vm_compute; lia).
  assert (Hpre' : set_preamble (removelast s4_record) 2 6)
    by (repeat split; try (vm_compute; reflexivity); vm_compute; lia).
  destruct (binary_set_framing no_input_counter s4_record 2 6 Hpre
              (Nat.le_succ_diag_r 1) ltac:(lia)) as (_ & _ & Hok).
  destruct (binary_set_framing no_input_counter (removelast s4_record) 2 6
              Hpre' (Nat.le_succ_diag_r 1) ltac:(lia)) as (Hshort & _ & _).
  split.
  - rewrite Hok; [vm_compute; reflexivity|vm_compute; lia
                 |vm_compute; reflexivity|vm_compute; reflexivity].
  - apply Hshort. vm_compute. lia.
Defined.

(** X9.  The header of a binary command.  With fewer than 6 bytes
    buffered the binary parser returns 0 and consumes nothing, whatever the
    bytes are; with 6 bytes or more, a first byte that is not 0xAA or a
    type code outside 1..6 makes it return -1 with nothing consumed and no
    call made. *)
Theorem binary_header_errors (cfg : statsite_config) (conn : conn_info) :
  ((length conn < MIN_BINARY_HEADER_SIZE)%nat ->
     handle_binary_client_connect cfg conn = Some (0, [], conn))
  /\ ((MIN_BINARY_HEADER_SIZE <= length conn)%nat ->
      byte_at conn 0 <> BINARY_MAGIC_BYTE \/ ~ (1 <= byte_at conn 1 <= 6) ->
      handle_binary_client_connect cfg conn = Some (-1, [], conn)).
Proof.
  unfold handle_binary_client_connect. cbn [while1]. unfold binary_iteration.
  split.
  - intros Hshort. unfold peek_client_bytes.
    apply Nat.leb_gt in Hshort. rewrite Hshort. reflexivity.
  - intros Hlen Hbad. rewrite peek_client_bytes_enough by assumption.
    unfold MIN_BINARY_HEADER_SIZE in *. rewrite !byte_at_firstn by lia.
    destruct (Z.eqb (byte_at conn 0) BINARY_MAGIC_BYTE) eqn:Em; [|reflexivity].
    apply Z.eqb_eq in Em. cbn [negb].
    pose proof (convert_bin_type_code (byte_at conn 1)) as Hcode.
    destruct (convert_bin_type (byte_at conn 1)); [|  |reflexivity].
    + exfalso. destruct Hbad as [H|H]; [exact (H Em)|]. apply H. tauto.
    + exfalso. destruct Hbad as [H|H]; [exact (H Em)|]. apply H.
      unfold BIN_TYPE_SET in Hcode. lia.
Qed.

(** ** Partial reads through the driver *)

Lemma handle_client_connect_as_parser (cfg : statsite_config)
  (magic : ascii) (conn : conn_info) :
  peek_client_byte conn = Some magic \/ conn = [] ->
  handle_client_connect cfg conn
  = match mode_of_byte magic with
    | BinaryMode => handle_binary_client_connect cfg conn
    | TextMode => handle_ascii_client_connect cfg conn
    end.
Proof.
  intros [H| ->].
  - unfold handle_client_connect. rewrite H. reflexivity.
  - destruct (mode_of_byte magic); reflexivity.
Qed.

(** X10.  Partial reads through the driver.  When the driver has handled
    the buffered bytes [a] and left [leftover], handling [a] followed by [b]
    at once makes the same calls and goes on as the driver does on
    [leftover] followed by [b], provided that data starts with a byte that
    selects the same parser as the first byte of [a] did (or there is none)
    and, when that parser is the binary one, that the commands it handles in
    [a] have keys and members of at least one byte; an error on [a] is the
    same error.  The parser is chosen again at each call, so without the
    first proviso the two can differ; a binary command of key length 0 is
    named by the bytes behind it, so without the second they can as well. *)
Theorem handle_client_connect_chunked (cfg : statsite_config)
  (a b : conn_info) :
  match handle_client_connect cfg a with
  | Some (ret, calls, leftover) =>
      (forall first next : ascii,
          peek_client_byte a = Some first ->
          peek_client_byte (leftover ++ b) = Some next ->
          mode_of_byte next = mode_of_byte first) ->
      (forall first : ascii,
          peek_client_byte a = Some first ->
          mode_of_byte first = BinaryMode -> keyed cfg a) ->
      handle_client_connect cfg (a ++ b)
      = if Z.eqb ret 0
        then after_calls calls (handle_client_connect cfg (leftover ++ b))
        else Some (ret, calls, leftover ++ b)
  | None => False
  end.
Proof.
  destruct a as [|first a'].
  - cbn. intros _ _. rewrite after_calls_nil. reflexivity.
  - rewrite (handle_client_connect_as_parser cfg first (first :: a'))
      by (left; reflexivity).
    rewrite (handle_client_connect_as_parser cfg first ((first :: a') ++ b))
      by (left; reflexivity).
    assert (Ht : match handle_ascii_client_connect cfg (first :: a') with
                 | Some (ret, calls, leftover) =>
                     handle_ascii_client_connect cfg ((first :: a') ++ b)
                     = if Z.eqb ret 0
                       then after_calls calls
                              (handle_ascii_client_connect cfg (leftover ++ b))
                       else Some (ret, calls, leftover ++ b)
                 | None => False
                 end).
    { unfold handle_ascii_client_connect.
      apply (while1_chunked (ascii_iteration cfg)
               (ascii_iteration_shrinking cfg) (ascii_iteration_stable cfg)
               b (S (length (first :: a'))) (first :: a')). lia. }
    assert (Hb : keyed cfg (first :: a') ->
                 match handle_binary_client_connect cfg (first :: a') with
                 | Some (ret, calls, leftover) =>
                     handle_binary_client_connect cfg ((first :: a') ++ b)
                     = if Z.eqb ret 0
                       then after_calls calls
                              (handle_binary_client_connect cfg (leftover ++ b))
                       else Some (ret, calls, leftover ++ b)
                 | None => False
                 end).
    { intros Hkeyed. unfold handle_binary_client_connect.
      apply (while1_chunked_run (binary_iteration cfg)
               (binary_iteration_shrinking cfg) b (first :: a')).
      apply keyed_stable_run. exact Hkeyed. }
    destruct (mode_of_byte first) eqn:Em.
    + pose proof (handle_binary_client_connect_returns cfg (first :: a'))
        as Hret.
      destruct (handle_binary_client_connect cfg (first :: a'))
        as [[[ret calls] leftover]|] eqn:Eh.
      * intros Hsame Hkeyed.
        assert (Hk : keyed cfg (first :: a'))
          by (apply (Hkeyed first); [reflexivity|assumption || reflexivity]).
        specialize (Hb Hk).
        cbn beta iota in Hb. rewrite Hb.
        destruct (Z.eqb ret 0); [|reflexivity].
        f_equal. symmetry.
        destruct (leftover ++ b) as [|next rest] eqn:El; [reflexivity|].
        rewrite (handle_client_connect_as_parser cfg next)
          by (left; reflexivity).
        rewrite (Hsame first next eq_refl eq_refl), Em. reflexivity.
      * destruct Hret as (r & Hr). discriminate Hr.
    + destruct (handle_ascii_client_connect cfg (first :: a'))
        as [[[ret calls] leftover]|]; [|contradiction].
      intros Hsame _. rewrite Ht. destruct (Z.eqb ret 0); [|reflexivity].
      f_equal. symmetry.
      destruct (leftover ++ b) as [|next rest] eqn:El; [reflexivity|].
      rewrite (handle_client_connect_as_parser cfg next) by (left; reflexivity).
      rewrite (Hsame first next eq_refl eq_refl), Em. reflexivity.
Qed.

(** Without the proviso: a text line and the binary record of S3, handled
    at once, leave the record in the buffer of the text parser; handled one
    after the other, the record is ingested. *)
Example driver_chunks_differ :
  handle_client_connect no_input_counter (bytes "a:1|c" ++ [LF] ++ s3_record)
  = Some (0, [metrics_add_sample COUNTER (bytes "a") 1%float], s3_record)
  /\ handle_client_connect no_input_counter (bytes "a:1|c" ++ [LF])
     = Some (0, [metrics_add_sample COUNTER (bytes "a") 1%float], [])
  /\ handle_client_connect no_input_counter ([] ++ s3_record)
     = Some (0, [metrics_add_sample GAUGE (bytes "g") 42%float], []).
Proof. repeat split; vm_compute; reflexivity. Qed.

(** ** The commands of a binary stream *)

Lemma c_str_terminated (s : list ascii) : c_str (s ++ [NUL]) = c_str s.
Proof.
  induction s as [|c s IH]; [reflexivity|].
  cbn [app c_str]. rewrite IH. reflexivity.
Qed.

Lemma firstn_terminated (s post : list ascii) :
  firstn (S (length s)) (s ++ NUL :: post) = s ++ [NUL].
Proof.
  induction s as [|c s IH]; [reflexivity|].
  cbn [length app]. cbn [firstn]. cbn [length app] in IH. rewrite IH.
  reflexivity.
Qed.

(** A string that stands with its NUL behind [pre] is read there. *)
Lemma string_at (pre s post : list ascii) (off : nat) :
  length pre = off ->
  byte_at (pre ++ s ++ NUL :: post) (off + S (length s) - 1) = 0
  /\ c_str (firstn (S (length s)) (skipn off (pre ++ s ++ NUL :: post)))
     = c_str s.
Proof.
  intros <-. split.
  - unfold byte_at. rewrite app_assoc.
    replace (length pre + S (length s) - 1)%nat with (length (pre ++ s))
      by (rewrite length_app; lia).
    rewrite nth_middle. reflexivity.
  - rewrite skipn_app_le by lia. rewrite skipn_all. cbn [app].
    rewrite firstn_terminated. apply c_str_terminated.
Qed.

Lemma le_u16_le_bytes (z : Z) (rest : list ascii) :
  0 <= z < 65536 -> le_uint (firstn 2 (le_bytes 2 z ++ rest)) = z.
Proof.
  intros Hz. change (firstn 2 (le_bytes 2 z ++ rest)) with (le_bytes 2 z).
  rewrite le_uint_le_bytes. apply Z.mod_small. exact Hz.
Qed.

Lemma command_type_code (code : Z) (type : metric_type) :
  command_type code = Some type ->
  convert_bin_type (byte_val (byte_of code)) = BinSample type.
Proof.
  unfold command_type.
  repeat match goal with
         | |- context [Z.eqb code ?k] =>
             let E := fresh "E" in
             destruct (Z.eqb code k) eqn:E;
             [apply Z.eqb_eq in E; subst code; intros [= <-];
              vm_compute; reflexivity|]
         end.
  discriminate.
Qed.

(** One iteration of the binary parser on a command as a client sends it:
    the call of the command, counted, and the bytes behind it. *)
Lemma binary_iteration_command (cfg : statsite_config) (c : command)
  (rest : list ascii) :
  command_ok c = true ->
  binary_iteration cfg (command_bytes c ++ rest)
  = Continue (count_input cfg ++ [command_call c]) rest.
Proof.
  destruct c as [code value name|name member]; cbn [command_ok command_call].
  - intros H. apply andb_prop in H as [H Hname]. apply andb_prop in H as [Hc Hv].
    apply Nat.eqb_eq in Hv. apply Z.ltb_lt in Hname.
    destruct (command_type code) as [type|] eqn:Et; [|discriminate Hc].
    set (pre := byte_of BINARY_MAGIC_BYTE :: byte_of code
                  :: le_bytes 2 (Z.of_nat (length name) + 1) ++ value).
    assert (Hconn : command_bytes (sample_command code value name) ++ rest
                    = pre ++ name ++ NUL :: rest).
    { unfold pre. cbn [command_bytes app]. rewrite <- !app_assoc.
      reflexivity. }
    assert (Hpre : length pre = 12%nat)
      by (unfold pre; cbn [length le_bytes app]; lia).
    destruct (string_at pre name rest 12 Hpre) as [Hnul Hkey].
    rewrite <- Hconn in Hnul, Hkey.
    assert (Hlen : length (command_bytes (sample_command code value name)
                             ++ rest)
                   = (12 + S (length name) + length rest)%nat).
    { rewrite Hconn, !length_app, Hpre. cbn [length]. lia. }
    rewrite (binary_iteration_sample cfg _ type (S (length name))).
    + assert (E : Nat.ltb (length (command_bytes (sample_command code value name)
                                     ++ rest))
                    (4 + 8 + S (length name)) = false)
        by (apply Nat.ltb_ge; lia).
      rewrite E.
      change (4 + 8 + S (length name))%nat with (12 + S (length name))%nat.
      rewrite Hnul. cbn [Z.eqb negb]. rewrite Hkey.
      f_equal.
      * assert (Hval : firstn 8 (skipn 4 (command_bytes
                                            (sample_command code value name)
                                            ++ rest)) = value).
        { cbn [command_bytes le_bytes app skipn]. rewrite skipn_O.
          rewrite <- !app_assoc, <- Hv. apply firstn_app_length. }
        rewrite Hval. reflexivity.
      * rewrite Hconn. rewrite app_assoc.
        replace (12 + S (length name))%nat with (length ((pre ++ name) ++ [NUL]))
          by (rewrite !length_app, Hpre; cbn [length]; lia).
        change (NUL :: rest) with ([NUL] ++ rest). rewrite app_assoc.
        rewrite skipn_app_le by lia. rewrite skipn_all. reflexivity.
    + split; [|split; [|split]].
      * lia.
      * cbn [command_bytes app]. unfold byte_at. cbn [nth].
        rewrite byte_val_byte_of. reflexivity.
      * cbn [command_bytes app]. unfold byte_at. cbn [nth].
        apply command_type_code. exact Et.
      * unfold le_u16. cbn [command_bytes app skipn]. rewrite skipn_O.
        rewrite <- app_assoc. rewrite le_u16_le_bytes by lia. lia.
    + lia.
  - intros H. apply andb_prop in H as [Hname Hmember].
    apply Z.ltb_lt in Hname. apply Z.ltb_lt in Hmember.
    set (hdr := byte_of BINARY_MAGIC_BYTE :: byte_of BIN_TYPE_SET
                  :: le_bytes 2 (Z.of_nat (length name) + 1)
                  ++ le_bytes 2 (Z.of_nat (length member) + 1)).
    assert (Hconn : command_bytes (set_command name member) ++ rest
                    = hdr ++ name ++ NUL :: member ++ NUL :: rest).
    { unfold hdr. cbn [command_bytes app]. rewrite <- !app_assoc.
      cbn [app]. rewrite <- !app_assoc. reflexivity. }
    assert (Hhdr : length hdr = 6%nat) by reflexivity.
    destruct (string_at hdr name (member ++ NUL :: rest) 6 Hhdr) as [Hn1 Hkey].
    assert (Hconn' : command_bytes (set_command name member) ++ rest
                     = (hdr ++ name ++ [NUL]) ++ member ++ NUL :: rest).
    { rewrite Hconn. rewrite <- !app_assoc. reflexivity. }
    destruct (string_at (hdr ++ name ++ [NUL]) member rest (6 + S (length name)))
      as [Hn2 Hmem].
    { rewrite !length_app, Hhdr. cbn [length]. lia. }
    rewrite <- Hconn in Hn1, Hkey. rewrite <- Hconn' in Hn2, Hmem.
    assert (Hlen : length (command_bytes (set_command name member) ++ rest)
                   = (6 + S (length name) + S (length member)
                      + length rest)%nat).
    { rewrite Hconn, !length_app, Hhdr. cbn [length].
      rewrite length_app. cbn [length]. lia. }
    rewrite (binary_iteration_set cfg _ (S (length name)) (S (length member))).
    + assert (E : Nat.ltb (length (command_bytes (set_command name member)
                                     ++ rest))
                    (6 + S (length name) + S (length member)) = false)
        by (apply Nat.ltb_ge; lia).
      rewrite E, Hn1, Hn2. cbn [Z.eqb negb orb]. rewrite Hkey, Hmem.
      f_equal. rewrite Hconn'.
      change (NUL :: rest) with ([NUL] ++ rest). rewrite !app_assoc.
      replace (6 + S (length name) + S (length member))%nat
        with (length ((((hdr ++ name) ++ [NUL]) ++ member) ++ [NUL]))
        by (rewrite !length_app, Hhdr; cbn [length]; lia).
      rewrite skipn_app_le by lia. rewrite skipn_all. reflexivity.
    + split; [|split; [|split; [|split]]].
      * unfold MIN_BINARY_HEADER_SIZE. lia.
      * cbn [command_bytes app]. unfold byte_at. cbn [nth].
        rewrite byte_val_byte_of. reflexivity.
      * cbn [command_bytes app]. unfold byte_at. cbn [nth].
        rewrite byte_val_byte_of. reflexivity.
      * unfold le_u16. cbn [command_bytes app skipn]. rewrite skipn_O.
        rewrite <- app_assoc. rewrite le_u16_le_bytes by lia. lia.
      * unfold le_u16. cbn [command_bytes app le_bytes skipn].
        change (firstn 2 _) with (le_bytes 2 (Z.of_nat (length member) + 1)).
        rewrite le_uint_le_bytes. rewrite Z.mod_small by lia. lia.
    + lia.
    + lia.
Qed.

(** X7.  The calls of the binary parser, command by command.  On a
    stream of commands as a client sends them (a sample with one of the
    type codes 1, 2, 3, 5 and 6, its 8 value bytes and its name, or a set
    update with its name and its member) the parser makes for each command,
    in order, the call that the command asks for, preceded by the count of
    the input if the input counter is configured, and then goes on with
    what follows: with nothing behind the commands it returns 0, has made
    these calls and no other, and has consumed everything. *)
Theorem handle_binary_client_connect_calls (cfg : statsite_config)
  (commands : list command) :
  forallb command_ok commands = true ->
  (forall rest : conn_info,
      handle_binary_client_connect cfg (flat_map command_bytes commands ++ rest)
      = after_calls (counted cfg (map command_call commands))
          (handle_binary_client_connect cfg rest))
  /\ handle_binary_client_connect cfg (flat_map command_bytes commands)
     = Some (0, counted cfg (map command_call commands), []).
Proof.
  intros Hok.
  assert (Hgo : forall rest : conn_info,
             handle_binary_client_connect cfg
               (flat_map command_bytes commands ++ rest)
             = after_calls (counted cfg (map command_call commands))
                 (handle_binary_client_connect cfg rest)).
  { induction commands as [|c commands IH]; intros rest.
    - cbn [flat_map map counted app]. rewrite after_calls_nil. reflexivity.
    - cbn [forallb] in Hok. apply andb_prop in Hok as [Hc Hok].
      cbn [flat_map map]. rewrite <- app_assoc.
      unfold handle_binary_client_connect at 1.
      rewrite (while1_continue _ _ _ _ (binary_iteration_shrinking cfg)
                 (binary_iteration_command cfg c _ Hc)).
      fold (handle_binary_client_connect cfg
              (flat_map command_bytes commands ++ rest)).
      rewrite (IH Hok rest). unfold counted. cbn [flat_map].
      apply after_calls_app. }
  split; [exact Hgo|].
  rewrite <- (app_nil_r (flat_map command_bytes commands)), (Hgo []).
  change (handle_binary_client_connect cfg []) with (Some (0, @nil metrics_call, @nil ascii)).
  cbn [after_calls]. rewrite app_nil_r. reflexivity.
Qed.

(** X7, on the gauge record of S3 and the set record of S4 sent one after
    the other, with the input counter configured. *)
Lemma handle_binary_client_connect_calls_s3_s4 :
  let commands :=
    [sample_command 5 (firstn 8 (skipn 4 s3_record)) (bytes "g");
     set_command (bytes "u") (bytes "alice")] in
  flat_map command_bytes commands = s3_record ++ s4_record
  /\ handle_binary_client_connect counting_inputs (s3_record ++ s4_record)
     = Some (0,
             [metrics_add_sample COUNTER (bytes "in") 1%float;
              metrics_add_sample GAUGE (bytes "g") 42%float;
              metrics_add_sample COUNTER (bytes "in") 1%float;
              metrics_set_update (bytes "u") (bytes "alice")],
             []).
Proof.
  intros commands.
  assert (E : flat_map command_bytes commands = s3_record ++ s4_record)
    by (vm_compute; reflexivity).
  split; [exact E|].
  destruct (handle_binary_client_connect_calls counting_inputs commands eq_refl)
    as [_ H].
  rewrite E in H. rewrite H. vm_compute. reflexivity.
Defined.

(** ** The binary formatter *)

Lemma le_bytes_length (n : nat) : forall z : Z, length (le_bytes n z) = n.
Proof.
  induction n as [|n IH]; intros z; [reflexivity|].
  cbn [le_bytes length]. rewrite IH. reflexivity.
Qed.

(** A record written for a name that fits is read back, whatever follows. *)
Lemma stream_bin_writer_reads_back (timestamp type val_type : Z)
  (val : float) (name : list ascii) :
  0 <= timestamp < 2 ^ 64 -> 0 <= type < 256 -> 0 <= val_type < 256 ->
  Z.of_nat (strlen name) + 1 < 65536 ->
  exists out : list ascii,
    stream_bin_writer timestamp type val_type val name = (0, out)
    /\ forall rest : list ascii,
         read_bin_record (out ++ rest)
         = Some ({| rec_timestamp := timestamp; rec_type := type;
                    rec_value_type := val_type; rec_key := c_str name;
                    rec_val := bits_of_double val |}, rest).
Proof.
  intros Hts Hty Hvt Hlen.
  set (out := {| bop_timestamp := timestamp; bop_type := type;
                 bop_value_type := val_type;
                 bop_key_len := Z.of_nat (strlen name) + 1;
                 bop_val := bits_of_double val |}).
  exists (prefix_bytes out ++ c_str name ++ [NUL]). split.
  - unfold stream_bin_writer. rewrite Z.mod_small by lia.
    assert (E : Z.eqb (Z.of_nat (strlen name) + 1) 0 = false)
      by (apply Z.eqb_neq; lia).
    rewrite E. fold out. f_equal. f_equal.
    replace (Z.to_nat (Z.of_nat (strlen name) + 1))
      with (length (c_str name ++ [NUL]))
      by (rewrite length_app; unfold strlen; simpl; lia).
    apply firstn_all.
  - intros rest. unfold read_bin_record. rewrite <- app_assoc.
    rewrite <- (prefix_bytes_length out) at 1.
    rewrite read_client_bytes_app.
    destruct (prefix_bytes_fields out) as (Ets & Ety & Evt & Ekl & Eval).
    rewrite Ets, Ety, Evt, Ekl, Eval.
    cbn [bop_timestamp bop_type bop_value_type bop_key_len bop_val out].
    rewrite (Z.mod_small (Z.of_nat (strlen name) + 1)) by lia.
    replace (Z.to_nat (Z.of_nat (strlen name) + 1))
      with (length (c_str name ++ [NUL]))
      by (rewrite length_app; unfold strlen; simpl; lia).
    rewrite read_client_bytes_app.
    rewrite last_snoc, ascii_eqb_refl, removelast_last.
    assert (El : Nat.eqb (length (c_str name ++ [NUL])) 0 = false)
      by (apply Nat.eqb_neq; rewrite length_app; simpl; lia).
    rewrite El. cbn [orb negb].
    rewrite !Z.mod_small by (try apply bits_of_double_range; lia).
    reflexivity.
Qed.

Lemma read_uint_bytes (count : Z) (rest : list ascii) :
  read_client_bytes (le_bytes 4 count ++ rest) 4
  = Some (le_bytes 4 count, rest).
Proof.
  pose proof (read_client_bytes_app (le_bytes 4 count) rest) as H.
  rewrite le_bytes_length in H. exact H.
Qed.

Lemma stream_items_read_back (timestamp : Z) (name : list ascii)
  (items : list out_item) :
  0 <= timestamp < 2 ^ 64 -> Z.of_nat (strlen name) + 1 < 65536 ->
  Forall item_ok items ->
  exists out : list ascii,
    stream_items timestamp name items = (0, out)
    /\ forall rest : list ascii,
         read_bin_items (length items) (out ++ rest)
         = Some (map (item_read timestamp name) items, rest).
Proof.
  intros Hts Hlen. induction items as [|it items IH]; intros Hok.
  - exists []. split; reflexivity.
  - inversion Hok as [|? ? (Hty & Hvt & Hcount) Hoks]; subst.
    destruct (IH Hoks) as (out' & Hout' & Hread').
    destruct (stream_bin_writer_reads_back timestamp (it_type it)
                (it_value_type it) (it_val it) name Hts Hty Hvt Hlen)
      as (rec_bytes & Hw & Hread).
    cbn [stream_items]. unfold write_item. rewrite Hw. cbn [Z.eqb].
    destruct (it_count it) as [count|] eqn:Ec.
    + destruct Hcount as [Hcr Hrange].
      exists ((rec_bytes ++ le_bytes 4 count) ++ out'). cbn [Z.eqb].
      rewrite Hout'. split; [reflexivity|]. intros rest.
      cbn [read_bin_items length]. rewrite <- !app_assoc, Hread.
      cbn [rec_value_type]. rewrite Hcr.
      rewrite read_uint_bytes, Hread'.
      rewrite (le_uint_le_bytes 4 count), Z.mod_small
        by (change (256 ^ Z.of_nat 4) with (2 ^ 32); lia).
      cbn [map]. unfold item_read at 2. rewrite Ec. reflexivity.
    + exists (rec_bytes ++ out'). cbn [Z.eqb]. rewrite Hout'.
      split; [reflexivity|]. intros rest.
      cbn [read_bin_items length]. rewrite <- !app_assoc, Hread.
      cbn [rec_value_type]. rewrite Hcount, Hread'.
      cbn [map]. unfold item_read at 2. rewrite Ec. reflexivity.
Qed.

Lemma nth_in_range (l : list Z) (k : nat) :
  Forall (fun n => 0 <= n < 2 ^ 32) l -> 0 <= nth k l 0 < 2 ^ 32.
Proof.
  intros H. revert k. induction H as [|x l Hx _ IH]; intros k.
  - destruct k; cbn; lia.
  - destruct k as [|k]; [exact Hx|apply IH].
Qed.

Lemma STREAM_BIN_ok (type val_type : Z) (val : float) :
  0 <= type < 256 -> 0 <= val_type < 256 ->
  counted_record val_type = false ->
  item_ok (STREAM_BIN type val_type val).
Proof. intros Ht Hv Hc. unfold item_ok. cbn. auto. Qed.

Lemma STREAM_BIN_UINT_ok (type val_type : Z) (val : float) (count : Z) :
  0 <= type < 256 -> 0 <= val_type < 256 ->
  counted_record val_type = true -> 0 <= count < 2 ^ 32 ->
  item_ok (STREAM_BIN_UINT type val_type val count).
Proof. intros Ht Hv Hc Hn. unfold item_ok. cbn. auto. Qed.

Ltac code_range :=
  vm_compute; split; [intros E; discriminate E | reflexivity].

Ltac item_ok_tac :=
  first [ apply STREAM_BIN_ok; [code_range | code_range | reflexivity]
        | apply STREAM_BIN_UINT_ok; [code_range | code_range | reflexivity | ] ].

Lemma moments_items_ok (type : Z) (m : moments) :
  0 <= type < 256 -> Forall item_ok (moments_items type m).
Proof.
  intros H. unfold moments_items.
  repeat (apply List.Forall_cons; [apply STREAM_BIN_ok;
                                     [exact H | code_range | reflexivity]|]).
  apply List.Forall_nil.
Qed.

Lemma formatter_items_ok (type : metric_type) (value : formatter_value type) :
  counts_in_range type value -> Forall item_ok (formatter_items type value).
Proof.
  destruct type; cbn [formatter_items counts_in_range]; intros Hc;
    try apply List.Forall_nil;
    try (apply List.Forall_cons; [item_ok_tac|apply List.Forall_nil]).
  - apply moments_items_ok. code_range.
  - apply Forall_app. split; [apply moments_items_ok; code_range|].
    apply Forall_app. split.
    + unfold percentile_items.
      repeat (apply List.Forall_cons; [item_ok_tac|]). apply List.Forall_nil.
    + unfold histogram_items. destruct (conf value) as [c|]; [|apply List.Forall_nil].
      apply List.Forall_cons; [item_ok_tac; apply (nth_in_range _ _ Hc)|].
      apply Forall_app. split.
      * induction (seq 0 (Z.to_nat (num_bins c - 2))) as [|i l IH];
          cbn [map]; [apply List.Forall_nil|].
        apply List.Forall_cons; [item_ok_tac; apply (nth_in_range _ _ Hc)|apply IH].
      * apply List.Forall_cons; [item_ok_tac; apply (nth_in_range _ _ Hc)
                           |apply List.Forall_nil].
Qed.

(** X11.  The binary output of one metric reads back.  For a name whose
    length with its NUL fits in 16 bits and bucket counts of 32 bits,
    [stream_formatter_bin] returns 0, and the inverse parser finds in what
    it wrote, whatever follows, exactly the records of the metric in the
    order of the source: each with the timestamp, the type code, the value
    type, the name and the 64-bit word of the value, and each histogram
    record with its bucket count. *)
Theorem stream_formatter_bin_round_trip (tv_sec : Z) (type : metric_type)
  (name : list ascii) (value : formatter_value type) (rest : list ascii) :
  0 <= tv_sec < 2 ^ 64 -> Z.of_nat (strlen name) + 1 < 65536 ->
  counts_in_range type value ->
  fst (stream_formatter_bin tv_sec type name value) = 0
  /\ read_bin_items (length (formatter_items type value))
       (snd (stream_formatter_bin tv_sec type name value) ++ rest)
     = Some (map (item_read tv_sec name) (formatter_items type value), rest).
Proof.
  intros Hts Hlen Hc. unfold stream_formatter_bin.
  destruct (stream_items_read_back tv_sec name (formatter_items type value)
              Hts Hlen (formatter_items_ok type value Hc))
    as (out & -> & Hread).
  split; [reflexivity|]. apply Hread.
Qed.

(** X11, at a timer with a histogram of four bins (the configuration of
    the scenario S2): fifteen records, the last four with their counts. *)
Lemma stream_formatter_bin_timer :
  fst (stream_formatter_bin 50 TIMER (bytes "a") some_timer) = 0
  /\ option_map
       (fun r => map (fun i => (rec_value_type (fst i), snd i)) (fst r))
       (read_bin_items 15
          (snd (stream_formatter_bin 50 TIMER (bytes "a") some_timer) ++ []))
     = Some [ (1, None); (2, None); (3, None); (4, None); (5, None);
              (6, None); (7, None); (178, None); (218, None); (223, None);
              (227, None); (8, Some 0); (9, Some 1); (9, Some 1);
              (10, Some 1) ].
Proof.
  destruct (stream_formatter_bin_round_trip 50 TIMER (bytes "a") some_timer []
              ltac:(lia) ltac:(vm_compute; reflexivity)
              ltac:(repeat constructor; lia)) as [Hret Hread].
  split; [exact Hret|].
  change 15%nat with (length (formatter_items TIMER some_timer)).
  rewrite Hread. vm_compute. reflexivity.
Defined.

Lemma map_nth_seq_firstn (l : list Z) :
  forall k : nat,
    (k <= length l)%nat ->
    map (fun i => nth i l 0) (seq 0 k) = firstn k l.
Proof.
  induction l as [|x l IH]; intros k Hk.
  - cbn in Hk. replace k with 0%nat by lia. reflexivity.
  - destruct k as [|k]; [reflexivity|].
    cbn [seq map nth firstn]. f_equal.
    rewrite <- seq_shift, map_map. cbn [nth]. apply IH. cbn in Hk. lia.
Qed.

Lemma nth_skipn_Z (l : list Z) (a i : nat) :
  nth i (skipn a l) 0 = nth (a + i) l 0.
Proof.
  revert a. induction l as [|x l IH]; intros a.
  - rewrite skipn_nil. destruct i, a; reflexivity.
  - destruct a as [|a]; [reflexivity|]. cbn [skipn Nat.add nth]. apply IH.
Qed.

Lemma list_by_index (l : list Z) (k : nat) :
  length l = S (S k) ->
  l = nth 0 l 0 :: map (fun i => nth (i + 1) l 0) (seq 0 k) ++ [nth (k + 1) l 0].
Proof.
  intros Hlen. destruct l as [|x l]; [discriminate|]. cbn [nth]. f_equal.
  cbn in Hlen. injection Hlen as Hlen.
  rewrite (map_ext (fun i => nth (i + 1) (x :: l) 0) (fun i => nth i l 0))
    by (intros i; rewrite Nat.add_1_r; reflexivity).
  rewrite map_nth_seq_firstn by lia.
  rewrite Nat.add_1_r. cbn [nth].
  rewrite <- (firstn_skipn k l) at 1. f_equal.
  assert (Hs : length (skipn k l) = 1%nat) by (rewrite length_skipn; lia).
  destruct (skipn k l) as [|y [|z s]] eqn:E; try discriminate.
  f_equal. rewrite <- (Nat.add_0_r k), <- nth_skipn_Z. rewrite E. reflexivity.
Qed.

(** X12.  The histogram of a timer with at least two bins, whose
    [counts] has [num_bins] entries: the formatter writes one record per
    bin, the floor first, then the [num_bins - 2] bins, then the ceiling,
    and the bucket counts that follow the records are the entries of
    [counts], each once and in order. *)
Theorem histogram_counts_in_order (t : timer_hist) (c : histogram_conf) :
  conf t = Some c -> 2 <= num_bins c ->
  length (counts t) = Z.to_nat (num_bins c) ->
  map it_count (histogram_items t) = map Some (counts t)
  /\ map it_value_type (histogram_items t)
     = BIN_OUT_HIST_FLOOR
         :: repeat BIN_OUT_HIST_BIN (Z.to_nat (num_bins c - 2))
         ++ [BIN_OUT_HIST_CEIL].
Proof.
  intros Hc Hbins Hlen. unfold histogram_items. rewrite Hc.
  set (k := Z.to_nat (num_bins c - 2)).
  assert (Hk : length (counts t) = S (S k)) by (unfold k; lia).
  cbn [map]. rewrite !map_app, !map_map. cbn [map it_count it_value_type
    STREAM_BIN_UINT]. split.
  - transitivity
      (map Some (nth 0 (counts t) 0
                 :: map (fun i => nth (i + 1) (counts t) 0) (seq 0 k)
                 ++ [nth (k + 1) (counts t) 0])).
    + cbn [map]. rewrite map_app, map_map. reflexivity.
    + f_equal. symmetry. apply list_by_index. exact Hk.
  - f_equal. f_equal. clear. generalize 0%nat.
    induction k as [|k IH]; intros start; [reflexivity|].
    cbn [seq map repeat]. f_equal. apply IH.
Qed.

(** X12, at the histogram of four bins of the scenario S2. *)
Lemma histogram_counts_s2 :
  map it_count (histogram_items some_timer) = [Some 0; Some 1; Some 1; Some 1]
  /\ map it_value_type (histogram_items some_timer) = [8; 9; 9; 10].
Proof.
  exact (histogram_counts_in_order some_timer
           {| min_val := 0; max_val := 10; bin_width := 5; num_bins := 4 |}
           eq_refl ltac:(cbn; lia) eq_refl).
Defined.

(** X13.  A name whose length with its NUL is a multiple of 65536 stops
    the formatter at its first record: the key length wraps to 0, the prefix
    is written, no byte of the name follows, and the formatter returns 1
    with nothing else written. *)
Theorem stream_formatter_bin_stops (tv_sec : Z) (type : metric_type)
  (name : list ascii) (value : formatter_value type) :
  (Z.of_nat (strlen name) + 1) mod 65536 = 0 ->
  formatter_items type value <> [] ->
  fst (stream_formatter_bin tv_sec type name value) = 1
  /\ length (snd (stream_formatter_bin tv_sec type name value)) = 20%nat
  /\ le_u16 (snd (stream_formatter_bin tv_sec type name value)) 10 = 0.
Proof.
  intros Hwrap Hitems. unfold stream_formatter_bin.
  destruct (formatter_items type value) as [|it items]; [congruence|].
  cbn [stream_items]. unfold write_item, stream_bin_writer.
  rewrite Hwrap. cbn [Z.eqb fst snd].
  split; [reflexivity|]. split; [apply prefix_bytes_length|].
  match goal with
  | |- le_u16 (prefix_bytes ?o) 10 = 0 =>
      destruct (prefix_bytes_fields o) as (_ & _ & _ & Ekl & _)
  end.
  rewrite Ekl. reflexivity.
Qed.

(** X13, at a counter whose name has 65535 bytes. *)
Lemma stream_formatter_bin_stops_at_65535 :
  fst (stream_formatter_bin 100 COUNTER wrapping_name some_moments) = 1
  /\ length (snd (stream_formatter_bin 100 COUNTER wrapping_name some_moments))
     = 20%nat
  /\ le_u16 (snd (stream_formatter_bin 100 COUNTER wrapping_name some_moments)) 10
     = 0.
Proof.
  apply (stream_formatter_bin_stops 100 COUNTER wrapping_name some_moments).
  - vm_compute. reflexivity.
  - discriminate.
Defined.

(** ** Which text lines are accepted *)

Lemma not_in_absent (c : ascii) (l : list ascii) :
  ~ In c l -> absent c l = true.
Proof. intros H. unfold absent. rewrite memchr_absent; auto. Qed.

Lemma buffer_after_terminator_found (buf front back : list ascii) (c : ascii) :
  buffer_after_terminator buf c = Some (front, back) ->
  buf = front ++ c :: back /\ absent c front = true.
Proof.
  unfold buffer_after_terminator.
  destruct (memchr buf c) as [i|] eqn:E; [|discriminate].
  intros [= <- <-]. destruct (memchr_found buf c i E) as [Hs Hn].
  split; [exact Hs|apply not_in_absent; exact Hn].
Qed.

Lemma metric_type_eqb_eq (a b : metric_type) :
  metric_type_eqb a b = true <-> a = b.
Proof. destruct a, b; cbn; split; intros H; congruence. Qed.

(** X14.  The lines the text parser accepts, whatever the configuration:
    a line is accepted exactly when it is a name without [':'], a [':'], a
    value without ['|'], a ['|'] and a type field whose first byte is one of
    the type letters, and then either the type is a set, or a number is read
    from the value (after the ['+'] of a gauge) and, for a counter whose
    type field holds an ['@'], a number is read after the first ['@'] as
    well.  Every other line is a parse error. *)
Theorem handle_ascii_line_accepts (cfg : statsite_config) (buf : list ascii) :
  fst (handle_ascii_line cfg buf) = END_LOOP
  <-> exists (name value type_str : list ascii) (type : metric_type)
             (text : list ascii),
        buf = text_line name value type_str
        /\ absent ":" name = true /\ absent "|" value = true
        /\ convert_type (hd NUL type_str) value = Some (type, text)
        /\ (type = SET
            \/ (reads_number text = true
                /\ (type = COUNTER ->
                    forall sep rate : list ascii,
                      type_str = sep ++ "@"%char :: rate ->
                      absent "@" sep = true -> reads_number rate = true))).
Proof.
  split.
  - unfold handle_ascii_line.
    destruct (buffer_after_terminator buf ":") as [[key after_colon]|] eqn:E1;
      [|discriminate].
    destruct (buffer_after_terminator after_colon "|") as [[val_str type_str]|]
      eqn:E2; [|discriminate].
    destruct (convert_type (hd NUL type_str) val_str) as [[type text]|] eqn:Et;
      [|discriminate].
    apply buffer_after_terminator_found in E1 as [-> Hn].
    apply buffer_after_terminator_found in E2 as [-> Hv].
    intros H. exists key, val_str, type_str, type, text.
    repeat split; try assumption.
    destruct (metric_type_eqb type SET) eqn:Es;
      [left; apply metric_type_eqb_eq; exact Es|right].
    unfold reads_number.
    destruct (str2double text) as [val consumed]. cbn [snd].
    destruct (Nat.eqb consumed 0); [discriminate H|].
    split; [reflexivity|]. intros -> sep rate -> Hsep.
    unfold counter_sampling in H. cbn [metric_type_eqb] in H.
    rewrite buffer_after_terminator_first in H
      by (apply absent_not_in; exact Hsep).
    destruct (str2double rate) as [r k]. cbn [snd].
    destruct (Nat.eqb k 0); [discriminate H|reflexivity].
  - intros (name & value & type_str & type & text & -> & Hn & Hv & Et & Hrest).
    unfold text_line. rewrite handle_ascii_line_split by assumption.
    rewrite Et. destruct Hrest as [->|[Hnum Hrate]]; [reflexivity|].
    destruct (metric_type_eqb type SET); [reflexivity|].
    unfold reads_number in Hnum.
    destruct (str2double text) as [val consumed]. cbn [snd] in Hnum.
    apply negb_true_iff in Hnum. rewrite Hnum.
    unfold counter_sampling.
    destruct (metric_type_eqb type COUNTER) eqn:Ec; [|reflexivity].
    apply metric_type_eqb_eq in Ec.
    destruct (buffer_after_terminator type_str "@") as [[sep rate]|] eqn:Ea;
      [|reflexivity].
    apply buffer_after_terminator_found in Ea as [Hts Hsep].
    specialize (Hrate Ec sep rate Hts Hsep). unfold reads_number in Hrate.
    destruct (str2double rate) as [r k]. cbn [snd] in Hrate.
    apply negb_true_iff in Hrate. rewrite Hrate.
    destruct (rate_applies r); reflexivity.
Qed.

(** ** Shutdown *)

(** X15.  Shutdown loses nothing.  After any number of epochs closed by a
    rotation and the samples of a last epoch, [final_flush] hands the
    registry of those last samples to the thread it joins: every sample
    ingested before [final_flush] is in the registry of exactly one flush
    thread, those of the rotations being detached and that of the last
    epoch joined, and no registry is left current. *)
Theorem final_flush_retires_the_last_epoch {M : Type} (fresh : M)
  (apply : M -> metrics_call -> M) (epochs : list (list metrics_call))
  (current : list metrics_call) :
  run fresh apply (init_conn_handler fresh)
    (epoch_trace epochs current ++ [FinalFlush])
  = {| GLOBAL_METRICS := None;
       detached := map (fun samples => Some (ingest fresh apply samples)) epochs;
       joined := [Some (ingest fresh apply current)] |}.
Proof.
  unfold epoch_trace. rewrite !run_app.
  rewrite run_epochs by reflexivity.
  rewrite (run_calls fresh apply current _ fresh) by reflexivity.
  reflexivity.
Qed.
